(** * ee-ai-gateway: the request-admission pipeline, embedded and verified

    The gateway authenticates a bearer token ([app/auth/jwt_handler.py]),
    decides model access and forwards the request ([app/routing/router.py]),
    counts requests per user and model in Redis
    ([app/middleware/rate_limiter.py]) and glues the stages together in
    [app/api/v1/endpoints.py].  Each Python function is embedded below as a
    Rocq function of the same name; mutable state (the Redis database, the
    shared model configuration, the signing-key cache) is passed explicitly
    and returned next to the result, and a raised exception is the [Err] side
    of a [result]. *)

From Stdlib Require Import ZArith String Ascii List Bool Lia.
From Stdlib Require Import Floats.SpecFloat.
From stdpp Require Import base option gmap sets list strings.

Set Warnings "-register-all".

Open Scope string_scope.
Open Scope Z_scope.

(** ** Results of fallible code *)

Inductive result (E A : Type) : Type :=
| Ok (a : A)
| Err (e : E).
Arguments Ok {E A} a.
Arguments Err {E A} e.

(** ** Python values as the source uses them *)

Module Py.

(** [s * n]: a non-positive count gives the empty string. *)
Fixpoint repeat_nat (s : string) (n : nat) : string :=
  match n with
  | O => ""
  | S n' => s +:+ repeat_nat s n'
  end.

Definition str_mul (s : string) (n : Z) : string := repeat_nat s (Z.to_nat n).

Definition len (s : string) : Z := Z.of_nat (String.length s).

Fixpoint str_drop (n : nat) (s : string) : string :=
  match n, s with
  | O, _ => s
  | S n', String _ s' => str_drop n' s'
  | S _, EmptyString => EmptyString
  end.

(** [s[i:]]: a negative index counts from the end and is clamped at the
    start of the string, a positive one is clamped at its end. *)
Definition slice_from (s : string) (i : Z) : string :=
  let start := if i <? 0 then Z.max 0 (len s + i) else Z.min i (len s) in
  str_drop (Z.to_nat start) s.

Definition startswith (s p : string) : bool := String.prefix p s.

Definition endswith (s suf : string) : bool :=
  let n := String.length suf in
  (n <=? String.length s)%nat && String.eqb (str_drop (String.length s - n) s) suf.

(** White space as [str.strip] removes it and [str.split] splits on it.  A
    character is a code point below 256 (a request header is decoded as
    latin-1, one character per byte); the white space of Python among these
    is 9..13, 28..32, U+0085 and U+00A0. *)
Definition is_space (c : ascii) : bool :=
  let n := nat_of_ascii c in
  ((9 <=? n) && (n <=? 13) || (28 <=? n) && (n <=? 32)
   || (n =? 133) || (n =? 160))%nat.

Fixpoint lstrip (s : string) : string :=
  match s with
  | String c s' => if is_space c then lstrip s' else s
  | EmptyString => EmptyString
  end.

Definition strip (s : string) : string :=
  String.rev (lstrip (String.rev (lstrip s))).

(** Truth value of an optional string: [None] and [""] are falsy. *)
Definition truthy_str (o : option string) : bool :=
  match o with
  | Some s => negb (String.eqb s "")
  | None => false
  end.

(** [a or b] on optional strings. *)
Definition or_str (a b : option string) : option string :=
  if truthy_str a then a else b.

(** Decoded JSON.  An object is the association list of a [dict] (each key
    once); a float is an IEEE-754 binary64 value. *)
Inductive json : Type :=
| JNull
| JBool (b : bool)
| JInt (n : Z)
| JFloat (f : spec_float)
| JStr (s : string)
| JList (l : list json)
| JObj (o : list (string * json)).

Definition float_is_zero (f : spec_float) : bool :=
  match f with
  | S754_zero _ => true
  | _ => false
  end.

Definition truthy (v : json) : bool :=
  match v with
  | JNull => false
  | JBool b => b
  | JInt n => negb (n =? 0)
  | JFloat f => negb (float_is_zero f)
  | JStr s => negb (String.eqb s "")
  | JList l => match l with [] => false | _ => true end
  | JObj o => match o with [] => false | _ => true end
  end.

(** [d.get(k)] on the association list of a dict. *)
Fixpoint dict_get (o : list (string * json)) (k : string) : option json :=
  match o with
  | [] => None
  | (k', v) :: o' => if String.eqb k' k then Some v else dict_get o' k
  end.

(** [int(f)] on a float truncates towards zero and raises on an infinity or
    a NaN ([None]). *)
Definition float_trunc (f : spec_float) : option Z :=
  match f with
  | S754_zero _ => Some 0
  | S754_infinity _ => None
  | S754_nan => None
  | S754_finite sgn m e =>
      let mag := if 0 <=? e then Z.pos m * 2 ^ e else Z.pos m / 2 ^ (- e) in
      Some (if sgn then - mag else mag)
  end.

End Py.

(** What the embedding takes from the Python runtime and the third-party
    libraries rather than from the repository: the builtins [str.lower] and
    [int] on a [str], the certificate loader of [cryptography], the
    pydantic validation of the fields of a chat completion other than
    [usage], and [http.HTTPStatus(code).phrase] ([None] when the code is no
    member and the lookup raises). *)
Class Runtime := {
  str_lower : string → string;
  int_of_str : string → option Z;
  cert_public_pem : string → option string;
  response_fields_ok : list (string * Py.json) → bool;
  status_phrase : Z → option string;
}.

(** ** [fastapi.HTTPException]

    The f-string details are kept structured: the constructor names the
    message and carries the values interpolated into it. *)

Inductive Detail : Type :=
| MissingToken
| InvalidToken                      (* "Invalid token: ..." *)
| InvalidTokenClaims                (* "Invalid token claims: ..." *)
| TokenValidationError              (* "Token validation error: ..." *)
| InternalDuringValidation          (* "Internal server error during token validation: ..." *)
| AccessForbidden (model : string)
| ModelNotFound (model : string)
| EndpointNotConfigured (model : string)
| RateLimitExceeded (ttl : Z)       (* "Rate limit exceeded. Try again in {ttl} seconds." *)
| UpstreamMessage (body : option Py.json)
| StatusPhrase (phrase : string)    (* no detail given: the phrase of the status *)
| InternalError.

Inductive ExcHeaders : Type :=
| NoHeaders
| WWWAuthenticateBearer
| RateLimitHeaders (limit remaining reset retry_after : Z).

Record HTTPException := {
  status_code : Z;
  detail : Detail;
  headers : ExcHeaders;
}.

(** A raised exception: an [HTTPException] or any other [Exception]. *)
Inductive Exn : Type :=
| Http (e : HTTPException)
| Other.

(** ** [app/config.py] *)

Module Config.

(** One entry of the [models] table, restricted to the keys the gateway
    reads or writes; an absent key is [None]. *)
Record ModelEntry := {
  endpoint : option string;
  api_key : option string;
  auth_header : option string;
  auth_prefix : option string;
  rate_limit : option Z;
  api_key_source : option string;
}.

Definition empty_entry : ModelEntry :=
  {| endpoint := None; api_key := None; auth_header := None;
     auth_prefix := None; rate_limit := None; api_key_source := None |}.

(** [not model_config]: the dict has no key. *)
Definition entry_is_empty (e : ModelEntry) : bool :=
  match endpoint e, api_key e, auth_header e, auth_prefix e, rate_limit e,
        api_key_source e with
  | None, None, None, None, None, None => true
  | _, _, _, _, _, _ => false
  end.

(** One entry of the [access_control] table. *)
Record AccessRule := {
  roles : option (list string);
  groups : option (list string);
}.

Definition rule_is_empty (r : AccessRule) : bool :=
  match roles r, groups r with
  | None, None => true
  | _, _ => false
  end.

(** [ModelConfig._config]. *)
Record ModelConfig := {
  models : gmap string ModelEntry;
  rate_limits_default : option Z;
  rate_limits_by_group : gmap string Z;
  access_control : gmap string AccessRule;
}.

Definition get_model_config (c : ModelConfig) (model_name : string) : ModelEntry :=
  default empty_entry (models c !! model_name).

Definition get_rate_limits (c : ModelConfig) (model_name : string)
    (group_id : option string) : Z :=
  let by_model :=
    match rate_limit (get_model_config c model_name) with
    | Some n => n
    | None => default 100 (rate_limits_default c)
    end in
  if Py.truthy_str group_id then
    match rate_limits_by_group c !! default "" group_id with
    | Some n => n
    | None => by_model
    end
  else by_model.

Definition get_access_control (c : ModelConfig) (model_name : string) : AccessRule :=
  default {| roles := None; groups := None |} (access_control c !! model_name).

End Config.

(** ** [app/auth/models.py] *)

Module AuthModels.

(** The decoded payload of a token; an absent claim is [None]. *)
Record Payload := {
  p_sub : option string;
  p_oid : option string;
  p_preferred_username : option string;
  p_email : option string;
  p_roles : list string;
  p_groups : list string;
  p_aud : option string;
  p_iss : option string;
  p_exp : option Z;
  p_iat : option Z;
  p_nbf : option Z;
  p_models : list string;
  p_permissions : list string;
  p_rate_limit : option Z;
}.

Record TokenClaims := {
  sub : string;
  oid : option string;
  preferred_username : option string;
  email : option string;
  c_roles : list string;
  c_groups : list string;
  aud : option string;
  iss : option string;
  exp : Z;
  iat : Z;
  nbf : option Z;
  c_models : list string;
  c_permissions : list string;
  c_rate_limit : option Z;
}.

(** The constructor call on the payload: [sub], [exp] and [iat] are
    required; a missing one is a pydantic validation error ([None]). *)
Definition TokenClaims_of_payload (p : Payload) : option TokenClaims :=
  match p_sub p, p_exp p, p_iat p with
  | Some s, Some e, Some i =>
      Some {| sub := s; oid := p_oid p;
              preferred_username := p_preferred_username p;
              email := p_email p; c_roles := p_roles p;
              c_groups := p_groups p; aud := p_aud p; iss := p_iss p;
              exp := e; iat := i; nbf := p_nbf p; c_models := p_models p;
              c_permissions := p_permissions p;
              c_rate_limit := p_rate_limit p |}
  | _, _, _ => None
  end.

Record AuthContext := {
  user_id : string;
  username : string;
  roles : list string;
  groups : list string;
  permissions : list string;
  models : list string;
  rate_limit : Z;
}.

End AuthModels.

(** ** [app/auth/jwt_handler.py] *)

Module JwtHandler.
Import AuthModels.

Record Settings := {
  jwt_secret_key : string;
  audience : string;
  issuer : string;
}.

(** The header fields the validator reads. *)
Record JwtHeader := {
  alg : option string;
  kid : option string;
}.

(** A bearer token as the validator sees it: the empty string, a string
    whose header segment does not decode, or a signed token with its header,
    the keys its signature verifies under, and its payload ([None] when the
    payload is not a JSON object). *)
Inductive Token : Type :=
| EmptyToken
| Undecodable
| Jws (h : JwtHeader) (verifies : string → bool) (payload : option Payload).

(** The exceptions of [jose]; the first two are subclasses of the third. *)
Inductive JoseError : Type :=
| ExpiredSignatureError
| JWTClaimsError
| JWTError.

(** [jose.jwt.decode(token, key, algorithms=[algorithm], audience=...,
    issuer=..., options=...)] with the options of the gateway, which leave
    every [verify_*] switch on: the header's algorithm must be the allowed
    one, the signature must verify under [key], then the claims are checked
    in the library's order ([nbf], [exp], [aud], [iss]).  The key is taken
    to be usable key material for the algorithm. *)
Definition jwt_decode (now : Z) (tok : Token) (key algorithm : string)
    (audience issuer : option string) : result JoseError Payload :=
  match tok with
  | Jws h verifies (Some p) =>
      if negb (bool_decide (alg h = Some algorithm)) then Err JWTError
      else if negb (verifies key) then Err JWTError
      else if match p_nbf p with Some n => now <? n | None => false end
           then Err JWTClaimsError
      else if match p_exp p with Some e => e <? now | None => false end
           then Err ExpiredSignatureError
      else if match p_aud p with
              | Some a => negb (bool_decide (audience = Some a))
              | None => false
              end
           then Err JWTClaimsError
      else if match issuer with
              | Some i => negb (bool_decide (p_iss p = Some i))
              | None => false
              end
           then Err JWTClaimsError
      else Ok p
  | _ => Err JWTError
  end.

(** The handler's mutable fields. *)
Record JWTHandler := {
  _jwks_cache : option Py.json;
  _jwks_cache_time : Z;
}.

Definition _jwks_cache_ttl : Z := 3600.

Definition _is_local_token (tok : Token) : bool :=
  match tok with
  | Jws h _ _ => bool_decide (default "" (alg h) = "HS256")
  | _ => false
  end.

(** What the GET of the discovery endpoint does when it is issued: it
    raises (transport failure, error status, body that is not JSON) or
    yields the decoded body. *)
Inductive FetchOutcome : Type :=
| FetchFailed
| Fetched (body : Py.json).

Definition _fetch_jwks (fetch : FetchOutcome) (current_time : Z) (h : JWTHandler)
  : result Exn Py.json * JWTHandler :=
  match _jwks_cache h with
  | Some cached =>
      if Py.truthy cached && (current_time - _jwks_cache_time h <? _jwks_cache_ttl)
      then (Ok cached, h)
      else match fetch with
           | FetchFailed => (Err Other, h)
           | Fetched body =>
               (Ok body, {| _jwks_cache := Some body; _jwks_cache_time := current_time |})
           end
  | None =>
      match fetch with
      | FetchFailed => (Err Other, h)
      | Fetched body =>
          (Ok body, {| _jwks_cache := Some body; _jwks_cache_time := current_time |})
      end
  end.

Section WithRuntime.
Context `{Runtime}.

(** The [x5c] branch of the loop body: the first element of the chain is
    wrapped as a PEM certificate and its public key returned. *)
Definition pem_of_x5c (x5c : Py.json) : result Exn (option string) :=
  match x5c with
  | Py.JList (Py.JStr cert :: _) =>
      match cert_public_pem cert with
      | Some pem => Ok (Some pem)
      | None => Err Other
      end
  | Py.JStr (String c _) =>
      match cert_public_pem (String c "") with
      | Some pem => Ok (Some pem)
      | None => Err Other
      end
  | _ => Err Other
  end.

(** The [for key in ...] loop over the elements of a list. *)
Fixpoint scan_keys (kid : string) (keys : list Py.json)
  : result Exn (option string) :=
  match keys with
  | [] => Ok None
  | Py.JObj o :: rest =>
      if match Py.dict_get o "kid" with
         | Some (Py.JStr k) => String.eqb k kid
         | _ => false
         end
      then
        match Py.dict_get o "x5c" with
        | Some x5c => if Py.truthy x5c then pem_of_x5c x5c else scan_keys kid rest
        | None => scan_keys kid rest
        end
      else scan_keys kid rest
  | _ :: _ => Err Other
  end.

Definition get_signing_key (tok : Token) (jwks : Py.json)
  : result Exn (option string) :=
  match tok with
  | Jws h _ _ =>
      if negb (Py.truthy_str (kid h)) then Ok None
      else
        match jwks with
        | Py.JObj o =>
            match default (Py.JList []) (Py.dict_get o "keys") with
            | Py.JList keys => scan_keys (default "" (kid h)) keys
            | Py.JObj [] => Ok None
            | Py.JStr "" => Ok None
            | _ => Err Other
            end
        | _ => Err Other
        end
  | _ => Ok None
  end.

(** What the body of the [try] block raises. *)
Inductive Raised : Type :=
| Jose (e : JoseError)
| RaisedHttp (e : HTTPException)
| RaisedOther.

Definition signing_key_not_found : HTTPException :=
  {| status_code := 401; detail := InvalidToken; headers := WWWAuthenticateBearer |}.

Definition try_validate (s : Settings) (fetch : FetchOutcome) (now : Z)
    (h : JWTHandler) (tok : Token) : result Raised TokenClaims * JWTHandler :=
  if _is_local_token tok then
    match jwt_decode now tok (jwt_secret_key s) "HS256" None None with
    | Err e => (Err (Jose e), h)
    | Ok p =>
        match TokenClaims_of_payload p with
        | Some c => (Ok c, h)
        | None => (Err RaisedOther, h)
        end
    end
  else
    match _fetch_jwks fetch now h with
    | (Err _, h') => (Err RaisedOther, h')
    | (Ok jwks, h') =>
        match get_signing_key tok jwks with
        | Err _ => (Err RaisedOther, h')
        | Ok signing_key =>
            if negb (Py.truthy_str signing_key)
            then (Err (RaisedHttp signing_key_not_found), h')
            else
              match jwt_decode now tok (default "" signing_key) "RS256"
                      (Some (audience s)) (Some (issuer s)) with
              | Err e => (Err (Jose e), h')
              | Ok p =>
                  match TokenClaims_of_payload p with
                  | Some c => (Ok c, h')
                  | None => (Err RaisedOther, h')
                  end
              end
        end
    end.

Definition unauthorized (d : Detail) : HTTPException :=
  {| status_code := 401; detail := d; headers := WWWAuthenticateBearer |}.

(** The [except] clauses, in the order of the source. *)
Definition handle_raised (r : Raised) : HTTPException :=
  match r with
  | Jose ExpiredSignatureError => unauthorized InvalidToken
  | Jose JWTClaimsError => unauthorized InvalidTokenClaims
  | Jose JWTError => unauthorized TokenValidationError
  | RaisedHttp _ | RaisedOther =>
      {| status_code := 500; detail := InternalDuringValidation; headers := NoHeaders |}
  end.

Definition validate_token (s : Settings) (fetch : FetchOutcome) (now : Z)
    (h : JWTHandler) (tok : Token) : result HTTPException TokenClaims * JWTHandler :=
  match tok with
  | EmptyToken => (Err (unauthorized MissingToken), h)
  | _ =>
      match try_validate s fetch now h tok with
      | (Ok c, h') => (Ok c, h')
      | (Err r, h') => (Err (handle_raised r), h')
      end
  end.

End WithRuntime.

End JwtHandler.

(** ** [app/middleware/rate_limiter.py] *)

Module RateLimiter.
Import AuthModels.

(** A counter of the external store: its integer value and its remaining
    time to live in seconds ([None]: the key never expires). *)
Record Counter := {
  count : Z;
  ttl : option Z;
}.

Inductive RedisCmd : Type :=
| GET (key : string)
| TTL (key : string)
| INCR (key : string)
| EXPIRE (key : string) (seconds : Z).

(** The Redis server as the limiter observes it: whether it can be reached,
    its database, and the commands it has executed (oldest first). *)
Record Redis := {
  reachable : bool;
  db : gmap string Counter;
  executed : list RedisCmd;
}.

Definition ran (r : Redis) (cmds : list RedisCmd) (db' : gmap string Counter) : Redis :=
  {| reachable := reachable r; db := db'; executed := executed r ++ cmds |}.

(** Server-side meaning of the two writing commands. *)
Definition incr (d : gmap string Counter) (key : string) : gmap string Counter :=
  match d !! key with
  | Some c => <[key := {| count := count c + 1; ttl := ttl c |}]> d
  | None => <[key := {| count := 1; ttl := None |}]> d
  end.

Definition expire (d : gmap string Counter) (key : string) (seconds : Z)
  : gmap string Counter :=
  match d !! key with
  | Some c =>
      if seconds <=? 0 then delete key d
      else <[key := {| count := count c; ttl := Some seconds |}]> d
  | None => d
  end.

Definition run_cmd (d : gmap string Counter) (c : RedisCmd) : gmap string Counter :=
  match c with
  | INCR key => incr d key
  | EXPIRE key seconds => expire d key seconds
  | GET _ | TTL _ => d
  end.

(** [await redis_client.get(key)]. *)
Definition redis_get (r : Redis) (key : string) : result Exn (option Z) * Redis :=
  if reachable r then (Ok (count <$> db r !! key), ran r [GET key] (db r))
  else (Err Other, r).

(** [await redis_client.ttl(key)]: -2 for a missing key, -1 for a key
    without expiry. *)
Definition redis_ttl (r : Redis) (key : string) : result Exn Z * Redis :=
  if reachable r then
    (Ok match db r !! key with
        | Some c => default (-1) (ttl c)
        | None => -2
        end,
     ran r [TTL key] (db r))
  else (Err Other, r).

(** [await pipe.execute()]: the queued commands run as one transaction. *)
Definition pipe_execute (r : Redis) (cmds : list RedisCmd) : result Exn unit * Redis :=
  if reachable r then (Ok (), ran r cmds (foldl run_cmd (db r) cmds))
  else (Err Other, r).

Definition rate_key (model_name user_id : string) : string :=
  "ratelimit:" +:+ model_name +:+ ":" +:+ user_id.

Definition too_many_requests (now limit ttl : Z) : HTTPException :=
  {| status_code := 429;
     detail := RateLimitExceeded ttl;
     headers := RateLimitHeaders limit 0 (now + ttl) ttl |}.

Definition check_rate_limit (now : Z) (r : Redis) (auth_context : AuthContext)
    (model_name : string) (limit window : Z) : result HTTPException bool * Redis :=
  let key := rate_key model_name (user_id auth_context) in
  match redis_get r key with
  | (Err _, r1) => (Ok true, r1)
  | (Ok current, r1) =>
      let current_count := default 0 current in
      if limit <=? current_count then
        match redis_ttl r1 key with
        | (Err _, r2) => (Ok true, r2)
        | (Ok t, r2) => (Err (too_many_requests now limit t), r2)
        end
      else
        match pipe_execute r1 [INCR key; EXPIRE key window] with
        | (Err _, r2) => (Ok true, r2)
        | (Ok _, r2) => (Ok true, r2)
        end
  end.

Record RateStatus := {
  st_limit : Z;
  st_remaining : Z;
  st_reset : Z;
  st_used : Z;
}.

Definition get_rate_limit_status (now : Z) (r : Redis) (auth_context : AuthContext)
    (model_name : string) (limit : Z) : RateStatus * Redis :=
  let key := rate_key model_name (user_id auth_context) in
  let fallback :=
    {| st_limit := limit; st_remaining := limit; st_reset := now + 60; st_used := 0 |} in
  match redis_get r key with
  | (Err _, r1) => (fallback, r1)
  | (Ok current, r1) =>
      let current_count := default 0 current in
      match redis_ttl r1 key with
      | (Err _, r2) => (fallback, r2)
      | (Ok t, r2) =>
          ({| st_limit := limit;
              st_remaining := Z.max 0 (limit - current_count);
              st_reset := now + Z.max 0 t;
              st_used := current_count |}, r2)
      end
  end.

End RateLimiter.

(** ** [app/routing/router.py] *)

Module Router.
Import AuthModels.

(** The masking helper of this file, written with an [if] statement. *)
Definition _mask_key (key : string) : string :=
  if String.eqb key "" then ""
  else
    let k := key in
    let visible := if Py.len k <=? 6 then 2 else 4 in
    Py.str_mul "*" (Py.len k - visible) +:+ Py.slice_from k (- visible).

Record ChatCompletionRequest := {
  messages : list (string * string);
  model : string;
}.

Record Usage := {
  prompt_tokens : Z;
  completion_tokens : Z;
  total_tokens : Z;
}.

(** The response model: the validated upstream fields and the usage
    dictionary, which the model declares optional. *)
Record ChatCompletionResponse := {
  fields : list (string * Py.json);
  usage : option Usage;
}.

(** The request handed to the HTTP client. *)
Record Outbound := {
  out_endpoint : string;
  out_headers : gmap string string;
  out_json : ChatCompletionRequest;
}.

(** What [client.post] does: it raises (timeout, transport failure) or
    returns a response with a status code and a body ([None] when the body
    is not JSON). *)
Inductive UpstreamReply : Type :=
| TransportError
| Reply (status : Z) (body : option Py.json).

Definition header_value (auth_prefix api_key : string) : string :=
  if negb (String.eqb auth_prefix "") then
    if Py.endswith auth_prefix " " then auth_prefix +:+ api_key
    else auth_prefix +:+ " " +:+ api_key
  else api_key.

Definition zero_usage : Usage :=
  {| prompt_tokens := 0; completion_tokens := 0; total_tokens := 0 |}.

Definition internal_error : HTTPException :=
  {| status_code := 500; detail := InternalError; headers := NoHeaders |}.

(** The sub-field [k] of the usage object the upstream sent, [None] when
    the upstream sent no usage object or the object lacks [k]. *)
Definition upstream_usage_field (response_data : list (string * Py.json))
    (k : string) : option Py.json :=
  match Py.dict_get response_data "usage" with
  | Some (Py.JObj o) => Py.dict_get o k
  | _ => None
  end.

Section WithRuntime.
Context `{Runtime}.

Definition check_access (cfg : Config.ModelConfig) (auth_context : AuthContext)
    (model_name : string) : bool :=
  let access_control := Config.get_access_control cfg model_name in
  if Config.rule_is_empty access_control then true
  else if bool_decide (model_name ∈ models auth_context) then true
  else
    let user_roles : gset string := list_to_set (str_lower <$> roles auth_context) in
    let user_groups : gset string := list_to_set (str_lower <$> groups auth_context) in
    let required_roles := str_lower <$> default [] (Config.roles access_control) in
    if match required_roles with [] => false | _ => true end
       && negb (existsb (λ r, bool_decide (r ∈ user_roles)) required_roles)
    then false
    else
      let required_groups := str_lower <$> default [] (Config.groups access_control) in
      if match required_groups with [] => false | _ => true end
         && negb (existsb (λ g, bool_decide (g ∈ user_groups)) required_groups)
      then false
      else true.

(** [int(v)]; [None] when it raises. *)
Definition py_int (v : Py.json) : option Z :=
  match v with
  | Py.JBool b => Some (if b then 1 else 0)
  | Py.JInt n => Some n
  | Py.JFloat f => Py.float_trunc f
  | Py.JStr s => int_of_str s
  | Py.JNull | Py.JList _ | Py.JObj _ => None
  end.

(** [int(usage.get(k, d) or d)] for an integer [d]. *)
Definition int_or (o : option Py.json) (d : Z) : option Z :=
  match o with
  | Some v => if Py.truthy v then py_int v else Some d
  | None => Some d
  end.

(** The body of the inner [try]: [None] when it raises. *)
Definition try_usage (response_data : list (string * Py.json)) : option Usage :=
  let usage :=
    match Py.dict_get response_data "usage" with
    | Some u => if Py.truthy u then u else Py.JObj []
    | None => Py.JObj []
    end in
  match usage with
  | Py.JObj usage =>
      p ← int_or (Py.dict_get usage "prompt_tokens") 0;
      c ← int_or (Py.dict_get usage "completion_tokens") 0;
      t ← int_or (Py.dict_get usage "total_tokens") (p + c);
      Some {| prompt_tokens := p; completion_tokens := c; total_tokens := t |}
  | _ => None
  end.

Definition normalize_usage (response_data : list (string * Py.json)) : Usage :=
  default zero_usage (try_usage response_data).

(** The [try] block of [route_request] from the upstream reply on;
    [raise_for_status] raises for every status outside 200..299. *)
Definition handle_reply (reply : UpstreamReply) : result Exn ChatCompletionResponse :=
  match reply with
  | TransportError => Err (Http internal_error)
  | Reply status body =>
      if (200 <=? status) && (status <=? 299) then
        match body with
        | Some (Py.JObj response_data) =>
            if response_fields_ok response_data
            then Ok {| fields := response_data;
                       usage := Some (normalize_usage response_data) |}
            else Err (Http internal_error)
        | _ => Err (Http internal_error)
        end
      else
        match body with
        | None =>
            Err (Http {| status_code := status; detail := UpstreamMessage None;
                         headers := NoHeaders |})
        | Some (Py.JObj error_data) =>
            match Py.dict_get error_data "error" with
            | Some Py.JNull =>
                (* [HTTPException(detail=None)] looks the phrase up *)
                match status_phrase status with
                | Some phrase =>
                    Err (Http {| status_code := status; detail := StatusPhrase phrase;
                                 headers := NoHeaders |})
                | None => Err Other
                end
            | error_message =>
                Err (Http {| status_code := status;
                             detail := UpstreamMessage error_message;
                             headers := NoHeaders |})
            end
        | Some _ => Err Other
        end
  end.

Definition route_request (post : Outbound → UpstreamReply)
    (cfg : Config.ModelConfig) (request : ChatCompletionRequest)
    (auth_context : AuthContext)
  : result Exn ChatCompletionResponse * list Outbound :=
  let model_name := model request in
  let model_config := Config.get_model_config cfg model_name in
  if Config.entry_is_empty model_config then
    (Err (Http {| status_code := 404; detail := ModelNotFound model_name;
                  headers := NoHeaders |}), [])
  else if negb (check_access cfg auth_context model_name) then
    (Err (Http {| status_code := 403; detail := AccessForbidden model_name;
                  headers := NoHeaders |}), [])
  else if negb (Py.truthy_str (Config.endpoint model_config)) then
    (Err (Http {| status_code := 500; detail := EndpointNotConfigured model_name;
                  headers := NoHeaders |}), [])
  else
    let endpoint := default "" (Config.endpoint model_config) in
    let headers : gmap string string := {[ "Content-Type" := "application/json" ]} in
    let headers :=
      if Py.truthy_str (Config.api_key model_config) then
        let auth_header := default "Authorization" (Config.auth_header model_config) in
        let auth_prefix := default "" (Config.auth_prefix model_config) in
        <[auth_header := header_value auth_prefix
                           (default "" (Config.api_key model_config))]> headers
      else headers in
    let out := {| out_endpoint := endpoint; out_headers := headers;
                  out_json := request |} in
    (handle_reply (post out), [out]).

End WithRuntime.

End Router.

(** ** [app/api/v1/endpoints.py] *)

Module Endpoints.
Import AuthModels.

(** The masking helper of this file, written with a conditional expression. *)
Definition _mask_key (key : string) : string :=
  if String.eqb key "" then ""
  else
    let k := key in
    let visible := if 6 <? Py.len k then 4 else 2 in
    Py.str_mul "*" (Py.len k - visible) +:+ Py.slice_from k (- visible).

(** Where the process finds a credential: the OS environment, the attributes
    of the settings object and its [__dict__], and the variable assignments
    of the local [.env] file in file order, keys and values already
    stripped (no file: no assignment). *)
Record ProcessEnv := {
  os_environ : gmap string string;
  settings_attrs : gmap string string;
  settings_dict : gmap string string;
  dotenv : list (string * string);
}.

(** [os.getenv(v) or getattr(settings, v, None) or settings.__dict__.get(v)]. *)
Definition env_lookup (env : ProcessEnv) (var : string) : option string :=
  Py.or_str (os_environ env !! var)
    (Py.or_str (settings_attrs env !! var) (settings_dict env !! var)).

(** The scan of the [.env] file: the first assignment of [var] replaces a
    falsy value. *)
Definition dotenv_fallback (env : ProcessEnv) (var : string) (v : option string)
  : option string :=
  if Py.truthy_str v then v
  else
    match List.find (λ kv, String.eqb (fst kv) var) (dotenv env) with
    | Some kv => Some (snd kv)
    | None => v
    end.

(** The model's configured credential, a [${VAR}] placeholder resolved
    against the process. *)
Definition resolve_cfg_api_key (env : ProcessEnv) (cfg_api_key : option string)
  : option string :=
  match cfg_api_key with
  | Some k =>
      if Py.startswith k "${" && Py.endswith k "}" then
        let env_var := Py.strip (String.substring 2 (String.length k - 3) k) in
        let v := env_lookup env env_var in
        let v := dotenv_fallback env env_var v in
        dotenv_fallback env env_var v
      else Some k
  | None => None
  end.

(** The header names probed for a caller-supplied credential, in the order
    of the source; header lookup ignores case, so the names are given in
    lower case and the request headers are keyed by lower-case name. *)
Definition api_key_header_names : list string :=
  ["openai-api-key"; "openai_api_key"; "openai-api-key"; "openai_api-key";
   "x-api-key"; "x-openai-api-key"; "openai_api-key"; "openai_api_key"].

Fixpoint first_header (hdrs : gmap string string) (names : list string)
  : option string :=
  match names with
  | [] => None
  | hn :: rest =>
      if Py.truthy_str (hdrs !! hn) then hdrs !! hn else first_header hdrs rest
  end.

Definition gateway_api_key (env : ProcessEnv) : option string :=
  let v := env_lookup env "OPENAI_API_KEY" in
  let v := dotenv_fallback env "OPENAI_API_KEY" v in
  dotenv_fallback env "OPENAI_API_KEY" v.

(** [header_api_key or env_api_key or cfg_api_key]. *)
Definition effective_api_key (header_api_key env_api_key cfg_api_key : option string)
  : option string :=
  Py.or_str header_api_key (Py.or_str env_api_key cfg_api_key).

(** The credential-binding block: the resolved credential is written into
    the shared model configuration. *)
Definition bind_api_key (env : ProcessEnv) (hdrs : gmap string string)
    (cfg : Config.ModelConfig) (model_name : string) : Config.ModelConfig :=
  let model_cfg := Config.get_model_config cfg model_name in
  let cfg_api_key := resolve_cfg_api_key env (Config.api_key model_cfg) in
  let header_api_key := first_header hdrs api_key_header_names in
  let env_api_key := gateway_api_key env in
  let effective := effective_api_key header_api_key env_api_key cfg_api_key in
  if Py.truthy_str effective then
    let e := model_cfg in
    let e' :=
      {| Config.endpoint := Config.endpoint e;
         Config.api_key := effective;
         Config.auth_header := Config.auth_header e;
         Config.auth_prefix := Config.auth_prefix e;
         Config.rate_limit := Config.rate_limit e;
         Config.api_key_source :=
           Some (if Py.truthy_str header_api_key then "header" else "env") |} in
    {| Config.models := <[model_name := e']> (Config.models cfg);
       Config.rate_limits_default := Config.rate_limits_default cfg;
       Config.rate_limits_by_group := Config.rate_limits_by_group cfg;
       Config.access_control := Config.access_control cfg |}
  else cfg.

(** The state a request runs against: the shared model configuration, the
    counter store, and the requests sent upstream so far. *)
Record World := {
  config : Config.ModelConfig;
  redis : RateLimiter.Redis;
  sent : list Router.Outbound;
}.

Section WithRuntime.
Context `{Runtime}.

Definition chat_completions (post : Router.Outbound → Router.UpstreamReply)
    (env : ProcessEnv) (now : Z) (hdrs : gmap string string)
    (request : Router.ChatCompletionRequest) (auth_context : AuthContext)
    (w : World) : result HTTPException Router.ChatCompletionResponse * World :=
  let model_name := Router.model request in
  if negb (Router.check_access (config w) auth_context model_name) then
    (Err {| status_code := 403; detail := AccessForbidden model_name;
            headers := NoHeaders |}, w)
  else
    let group_id := head (groups auth_context) in
    let rate_limit_value := Config.get_rate_limits (config w) model_name group_id in
    match RateLimiter.check_rate_limit now (redis w) auth_context model_name
            rate_limit_value 60 with
    | (Err e, r') => (Err e, {| config := config w; redis := r'; sent := sent w |})
    | (Ok _, r') =>
        let cfg' := bind_api_key env hdrs (config w) model_name in
        let '(res, out) := Router.route_request post cfg' request auth_context in
        let w' := {| config := cfg'; redis := r'; sent := sent w ++ out |} in
        match res with
        | Ok model_response => (Ok model_response, w')
        | Err (Http he) => (Err he, w')
        | Err Other => (Err Router.internal_error, w')
        end
    end.

End WithRuntime.

End Endpoints.

(** ** Concrete data used to run the embedding *)

Module Samples.
Import AuthModels.

Definition lower_ascii (c : ascii) : ascii :=
  let n := nat_of_ascii c in
  if ((65 <=? n) && (n <=? 90))%nat then ascii_of_nat (n + 32) else c.

Fixpoint lower (s : string) : string :=
  match s with
  | String c s' => String (lower_ascii c) (lower s')
  | EmptyString => EmptyString
  end.

Definition is_str (o : option Py.json) : bool :=
  match o with Some (Py.JStr _) => true | _ => false end.

(** The required fields of [ChatCompletionResponse] are present with their
    declared JSON types: [id], [object] and [model] strings, [created] an
    integer, [choices] a list of objects. *)
Definition fields_ok (response_data : list (string * Py.json)) : bool :=
  is_str (Py.dict_get response_data "id")
  && is_str (Py.dict_get response_data "object")
  && match Py.dict_get response_data "created" with
     | Some (Py.JInt _) => true
     | _ => false
     end
  && is_str (Py.dict_get response_data "model")
  && match Py.dict_get response_data "choices" with
     | Some (Py.JList choices) =>
         forallb (λ c, match c with Py.JObj _ => true | _ => false end) choices
     | _ => false
     end.

(** The members of [http.HTTPStatus] and their phrases. *)
Definition phrases : list (Z * string) :=
  [(100, "Continue"); (101, "Switching Protocols"); (102, "Processing");
   (103, "Early Hints");
   (200, "OK"); (201, "Created"); (202, "Accepted");
   (203, "Non-Authoritative Information"); (204, "No Content");
   (205, "Reset Content"); (206, "Partial Content"); (207, "Multi-Status");
   (208, "Already Reported"); (226, "IM Used");
   (300, "Multiple Choices"); (301, "Moved Permanently"); (302, "Found");
   (303, "See Other"); (304, "Not Modified"); (305, "Use Proxy");
   (307, "Temporary Redirect"); (308, "Permanent Redirect");
   (400, "Bad Request"); (401, "Unauthorized"); (402, "Payment Required");
   (403, "Forbidden"); (404, "Not Found"); (405, "Method Not Allowed");
   (406, "Not Acceptable"); (407, "Proxy Authentication Required");
   (408, "Request Timeout"); (409, "Conflict"); (410, "Gone");
   (411, "Length Required"); (412, "Precondition Failed");
   (413, "Request Entity Too Large"); (414, "Request-URI Too Long");
   (415, "Unsupported Media Type"); (416, "Requested Range Not Satisfiable");
   (417, "Expectation Failed"); (418, "I'm a Teapot");
   (421, "Misdirected Request"); (422, "Unprocessable Entity"); (423, "Locked");
   (424, "Failed Dependency"); (425, "Too Early"); (426, "Upgrade Required");
   (428, "Precondition Required"); (429, "Too Many Requests");
   (431, "Request Header Fields Too Large");
   (451, "Unavailable For Legal Reasons");
   (500, "Internal Server Error"); (501, "Not Implemented"); (502, "Bad Gateway");
   (503, "Service Unavailable"); (504, "Gateway Timeout");
   (505, "HTTP Version Not Supported"); (506, "Variant Also Negotiates");
   (507, "Insufficient Storage"); (508, "Loop Detected"); (510, "Not Extended");
   (511, "Network Authentication Required")].

Definition phrase_of (code : Z) : option string :=
  snd <$> List.find (λ entry, fst entry =? code) phrases.

(** A runtime for ASCII data: [str.lower] on ASCII letters, [int] that
    rejects every string, a certificate loader that tags its input, the
    validator of the required response fields, and the phrases of the
    standard status codes. *)
Definition ascii_runtime : Runtime :=
  {| str_lower := lower;
     int_of_str := λ _, None;
     cert_public_pem := λ cert, Some ("PEM:" +:+ cert);
     response_fields_ok := fields_ok;
     status_phrase := phrase_of |}.

Definition alice : AuthContext :=
  {| user_id := "alice"; username := "alice@example.com"; roles := ["user"];
     groups := []; permissions := []; models := []; rate_limit := 100 |}.

Definition admin_ctx : AuthContext :=
  {| user_id := "root"; username := "root"; roles := ["Admin"];
     groups := []; permissions := []; models := []; rate_limit := 100 |}.

Definition empty_redis : RateLimiter.Redis :=
  {| RateLimiter.reachable := true; RateLimiter.db := ∅; RateLimiter.executed := [] |}.

Definition down_redis : RateLimiter.Redis :=
  {| RateLimiter.reachable := false; RateLimiter.db := ∅; RateLimiter.executed := [] |}.

Definition alice_key : string := RateLimiter.rate_key "gpt-4" "alice".

(** One earlier request in a window that has 10 seconds left. *)
Definition warm_redis : RateLimiter.Redis :=
  {| RateLimiter.reachable := true;
     RateLimiter.db :=
       {[ alice_key := {| RateLimiter.count := 1; RateLimiter.ttl := Some 10 |} ]};
     RateLimiter.executed := [] |}.

(** [gpt-4] requires the role [admin]. *)
Definition admin_only : Config.ModelConfig :=
  {| Config.models := ∅;
     Config.rate_limits_default := None;
     Config.rate_limits_by_group := ∅;
     Config.access_control :=
       {[ "gpt-4" := {| Config.roles := Some ["admin"]; Config.groups := None |} ]} |}.

(** A configuration without any model, rate limit or access rule. *)
Definition empty_config : Config.ModelConfig :=
  {| Config.models := ∅;
     Config.rate_limits_default := None;
     Config.rate_limits_by_group := ∅;
     Config.access_control := ∅ |}.

(** [gpt-4] served by one upstream, with a configured credential. *)
Definition gpt4_entry : Config.ModelEntry :=
  {| Config.endpoint := Some "https://upstream.example/v1/chat/completions";
     Config.api_key := Some "sk-config";
     Config.auth_header := None;
     Config.auth_prefix := Some "Bearer";
     Config.rate_limit := None;
     Config.api_key_source := None |}.

Definition gpt4_config : Config.ModelConfig :=
  {| Config.models := {[ "gpt-4" := gpt4_entry ]};
     Config.rate_limits_default := None;
     Config.rate_limits_by_group := ∅;
     Config.access_control := ∅ |}.

Definition empty_env : Endpoints.ProcessEnv :=
  {| Endpoints.os_environ := ∅; Endpoints.settings_attrs := ∅;
     Endpoints.settings_dict := ∅; Endpoints.dotenv := [] |}.

Definition gateway_env : Endpoints.ProcessEnv :=
  {| Endpoints.os_environ := {[ "OPENAI_API_KEY" := "sk-gateway" ]};
     Endpoints.settings_attrs := ∅;
     Endpoints.settings_dict := ∅; Endpoints.dotenv := [] |}.

Definition hello (model_name : string) : Router.ChatCompletionRequest :=
  {| Router.messages := [("user", "hello")]; Router.model := model_name |}.

(** An upstream that answers every request with status 200 and [body]. *)
Definition answers (body : Py.json) : Router.Outbound → Router.UpstreamReply :=
  λ _, Router.Reply 200 (Some body).

(** The required fields of a completion, with one choice. *)
Definition completion_fields (id : string) : list (string * Py.json) :=
  [("id", Py.JStr id);
   ("object", Py.JStr "chat.completion");
   ("created", Py.JInt 1677652288);
   ("model", Py.JStr "gpt-4");
   ("choices",
    Py.JList [Py.JObj [("index", Py.JInt 0);
                       ("message", Py.JObj [("role", Py.JStr "assistant");
                                            ("content", Py.JStr "Hello!")]);
                       ("finish_reason", Py.JStr "stop")]])].

(** A completion whose usage carries its own total. *)
Definition completion_with_total : Py.json :=
  Py.JObj (completion_fields "chatcmpl-1" ++
           [("usage", Py.JObj [("prompt_tokens", Py.JInt 1);
                               ("completion_tokens", Py.JInt 2);
                               ("total_tokens", Py.JInt 100)])]).

(** A completion whose usage carries a total of 0. *)
Definition completion_with_zero_total : Py.json :=
  Py.JObj (completion_fields "chatcmpl-3" ++
           [("usage", Py.JObj [("prompt_tokens", Py.JInt 1);
                               ("completion_tokens", Py.JInt 2);
                               ("total_tokens", Py.JInt 0)])]).

(** A completion without a usage field. *)
Definition completion_without_usage : Py.json :=
  Py.JObj (completion_fields "chatcmpl-2").

Definition world (cfg : Config.ModelConfig) (r : RateLimiter.Redis) : Endpoints.World :=
  {| Endpoints.config := cfg; Endpoints.redis := r; Endpoints.sent := [] |}.

Definition settings : JwtHandler.Settings :=
  {| JwtHandler.jwt_secret_key := "local-secret";
     JwtHandler.audience := "api://default";
     JwtHandler.issuer := "https://login.microsoftonline.com/tenant/v2.0" |}.

(** A key set with one certificate-backed key. *)
Definition jwks : Py.json :=
  Py.JObj [("keys", Py.JList [Py.JObj [("kid", Py.JStr "k1");
                                       ("x5c", Py.JList [Py.JStr "CERT"])]])].

Definition payload (expiry : Z) : Payload :=
  {| p_sub := Some "alice"; p_oid := None; p_preferred_username := None;
     p_email := None; p_roles := ["user"]; p_groups := [];
     p_aud := Some "api://default";
     p_iss := Some "https://login.microsoftonline.com/tenant/v2.0";
     p_exp := Some expiry; p_iat := Some 0; p_nbf := None; p_models := [];
     p_permissions := []; p_rate_limit := Some 100 |}.

Definition local_payload (expiry : Z) : Payload :=
  {| p_sub := Some "alice"; p_oid := None; p_preferred_username := None;
     p_email := None; p_roles := ["user"]; p_groups := [];
     p_aud := None; p_iss := None;
     p_exp := Some expiry; p_iat := Some 0; p_nbf := None; p_models := [];
     p_permissions := []; p_rate_limit := Some 100 |}.

(** An RS256 token signed by the key of certificate [CERT]. *)
Definition rs256_token (expiry : Z) : JwtHandler.Token :=
  JwtHandler.Jws {| JwtHandler.alg := Some "RS256"; JwtHandler.kid := Some "k1" |}
    (String.eqb "PEM:CERT") (Some (payload expiry)).

(** An HS256 token signed with the gateway's secret. *)
Definition hs256_token (expiry : Z) : JwtHandler.Token :=
  JwtHandler.Jws {| JwtHandler.alg := Some "HS256"; JwtHandler.kid := None |}
    (String.eqb "local-secret") (Some (local_payload expiry)).

(** A handler whose key set was fetched at time 0. *)
Definition cached_handler : JwtHandler.JWTHandler :=
  {| JwtHandler._jwks_cache := Some jwks; JwtHandler._jwks_cache_time := 0 |}.

Definition fresh_handler : JwtHandler.JWTHandler :=
  {| JwtHandler._jwks_cache := None; JwtHandler._jwks_cache_time := 0 |}.

(** Request headers carrying a caller-supplied credential. *)
Definition caller_headers : gmap string string := {[ "x-api-key" := "sk-caller" ]}.

Definition no_headers : gmap string string := ∅.

(** [n] successive checks of the same key with limit 5 and window 60. *)
Fixpoint checks (n : nat) (r : RateLimiter.Redis)
  : list (result HTTPException bool) * RateLimiter.Redis :=
  match n with
  | O => ([], r)
  | S n' =>
      let '(res, r1) := RateLimiter.check_rate_limit 1000 r alice "gpt-4" 5 60 in
      let '(rest, r2) := checks n' r1 in
      (res :: rest, r2)
  end.

End Samples.

(** ** Iteration and string vocabulary for the further properties *)

Module More.

(** The store [seconds] later: a counter with an expiry has that much less
    to live and is gone once its time is up, a counter without expiry stays.
    Times are whole seconds, as [int(time.time())] and the replies of [TTL]
    are. *)
Definition elapse (seconds : Z) (r : RateLimiter.Redis) : RateLimiter.Redis :=
  {| RateLimiter.reachable := RateLimiter.reachable r;
     RateLimiter.db :=
       omap (λ c, match RateLimiter.ttl c with
                  | None => Some c
                  | Some t =>
                      if seconds <? t
                      then Some {| RateLimiter.count := RateLimiter.count c;
                                   RateLimiter.ttl := Some (t - seconds) |}
                      else None
                  end) (RateLimiter.db r);
     RateLimiter.executed := RateLimiter.executed r |}.

(** Successive calls of [check_rate_limit] for the same user and model: for
    each [gap] of the list one call, on the store the previous step left,
    followed by a wait of [gap] seconds.  The result holds the outcomes of
    the calls, the store after the last wait and the time then. *)
Fixpoint check_many (gaps : list Z) (now : Z) (r : RateLimiter.Redis)
    (ctx : AuthModels.AuthContext) (model_name : string) (limit window : Z)
  : list (result HTTPException bool) * RateLimiter.Redis * Z :=
  match gaps with
  | [] => ([], r, now)
  | gap :: gaps' =>
      let '(res, r1) := RateLimiter.check_rate_limit now r ctx model_name limit window in
      let '(rest, r2, t) :=
        check_many gaps' (now + gap) (elapse gap r1) ctx model_name limit window in
      (res :: rest, r2, t)
  end.

(** [c in s] for a character [c]. *)
Fixpoint has_char (c : ascii) (s : string) : bool :=
  match s with
  | String c' s' => Ascii.eqb c' c || has_char c s'
  | EmptyString => false
  end.

End More.

(** ** [app/auth/models.py]: the properties of the claims and the context *)

Module Claims.
Import AuthModels.

(** [TokenClaims.user_id]: [self.oid or self.sub]. *)
Definition claims_user_id (c : TokenClaims) : string :=
  default "" (Py.or_str (oid c) (Some (sub c))).

(** [TokenClaims.username]:
    [self.preferred_username or self.email or self.user_id]. *)
Definition claims_username (c : TokenClaims) : string :=
  default "" (Py.or_str (preferred_username c)
                (Py.or_str (email c) (Some (claims_user_id c)))).

(** [AuthContext.from_claims].  The dump of the claims holds every field, so
    the [get] defaults never apply: a token without [rate_limit] claim hands
    [None] to the integer field [rate_limit] of the context, which pydantic
    refuses ([None]). *)
Definition from_claims (c : TokenClaims) : option AuthContext :=
  match c_rate_limit c with
  | Some limit =>
      Some {| user_id := claims_user_id c;
              username := claims_username c;
              roles := c_roles c;
              groups := c_groups c;
              permissions := c_permissions c;
              models := c_models c;
              rate_limit := limit |}
  | None => None
  end.

End Claims.

(** ** [app/api/v1/endpoints.py]: the bearer header, the rate-limit route and
    the audited prompt *)

Module Routes.
Import AuthModels.

(** [s.split()]: the maximal runs of characters that are not white space;
    [cur] is the run being read. *)
Fixpoint split_from (cur s : string) : list string :=
  match s with
  | EmptyString => if String.eqb cur "" then [] else [cur]
  | String c s' =>
      if Py.is_space c then
        if String.eqb cur "" then split_from "" s' else cur :: split_from "" s'
      else split_from (cur +:+ String c "") s'
  end.

Definition split (s : string) : list string := split_from "" s.

(** No character of [s] is white space. *)
Fixpoint no_space (s : string) : bool :=
  match s with
  | String c s' => negb (Py.is_space c) && no_space s'
  | EmptyString => true
  end.

(** The two 401 exceptions of the dependency [get_auth_context]; both carry
    the header [WWW-Authenticate: Bearer]. *)
Inductive HeaderError : Type :=
| MissingAuthorizationHeader
| InvalidAuthorizationFormat.

(** The first half of [get_auth_context]: from the [Authorization] header to
    the token string handed to the validator. *)
Definition bearer_token `{Runtime} (authorization : option string)
  : result HeaderError string :=
  if negb (Py.truthy_str authorization) then Err MissingAuthorizationHeader
  else
    match split (default "" authorization) with
    | [scheme; token] =>
        if String.eqb (str_lower scheme) "bearer" then Ok token
        else Err InvalidAuthorizationFormat
    | _ => Err InvalidAuthorizationFormat
    end.

(** The body of the [/rate-limit] route. *)
Record RateLimitReport := {
  rep_user_id : string;
  rep_current_count : Z;
  rep_limit : Z;
  rep_reset_at : Z;
  rep_window_seconds : Z;
}.

(** [get_rate_limit_status] of the endpoints: the group name (or ["default"])
    goes to [get_rate_limits] as model name, without group id, and the
    counter read is that of the model name ["default"]. *)
Definition rate_limit_route (now : Z) (cfg : Config.ModelConfig)
    (r : RateLimiter.Redis) (auth_context : AuthContext)
  : RateLimitReport * RateLimiter.Redis :=
  let rate_limit :=
    Config.get_rate_limits cfg (default "default" (head (groups auth_context))) None in
  let '(rate_status, r') :=
    RateLimiter.get_rate_limit_status now r auth_context "default" rate_limit in
  ({| rep_user_id := username auth_context;
      rep_current_count := RateLimiter.st_used rate_status;
      rep_limit := RateLimiter.st_limit rate_status;
      rep_reset_at := RateLimiter.st_reset rate_status;
      rep_window_seconds := 3600 |}, r').

(** The prompt [chat_completions] hands to the audit log: the content of the
    last message whose role is [user], the empty string when there is none. *)
Definition last_user_prompt (messages : list (string * string)) : string :=
  match List.find (λ msg, String.eqb (fst msg) "user") (rev messages) with
  | Some msg => snd msg
  | None => ""
  end.

End Routes.

(** ** [app/middleware/logging.py]: the audited chat request *)

Module Audit.

(** [s[:n]] for a non-negative [n]. *)
Fixpoint str_take (n : nat) (s : string) : string :=
  match n, s with
  | S n', String c s' => String c (str_take n' s')
  | _, _ => EmptyString
  end.

(** The prompt fields [log_chat_request] binds to the audit event. *)
Record ChatRequestEvent := {
  prompt_length : Z;
  prompt_preview : string;
  prompt : string;
}.

Definition log_chat_request (prompt : string) : ChatRequestEvent :=
  let max_prompt_len := 1000%nat in
  let prompt_str := prompt in
  let prompt_preview := str_take 200 prompt_str in
  let prompt_trimmed := str_take max_prompt_len prompt_str in
  {| prompt_length := Py.len prompt_trimmed;
     prompt_preview := prompt_preview;
     prompt := prompt_trimmed |}.

End Audit.

(** ** [utils/client.py]: the test-token generator *)

Module Client.
Import AuthModels.

Definition SECRET_KEY : string := "your-secret-key-change-in-production".

(** [generate_token], issued at time [now]: the payload signed for 24 hours
    with [SECRET_KEY] under HS256.  The signature is an ideal MAC: it verifies
    under the signing secret and under no other key. *)
Definition generate_token (now : Z) (user_id : string) (models permissions : list string)
    (rate_limit : Z) : JwtHandler.Token :=
  JwtHandler.Jws
    {| JwtHandler.alg := Some "HS256"; JwtHandler.kid := None |}
    (String.eqb SECRET_KEY)
    (Some {| p_sub := Some user_id; p_oid := None; p_preferred_username := None;
             p_email := None; p_roles := []; p_groups := [];
             p_aud := None; p_iss := None;
             p_exp := Some (now + 24 * 3600); p_iat := Some now; p_nbf := None;
             p_models := models; p_permissions := permissions;
             p_rate_limit := Some rate_limit |}).

End Client.

(** ** [app/middleware/logging.py]: the masking processor of the log events *)

Module LogMask.

(** [needle in hay] on strings. *)
Fixpoint contains (needle hay : string) : bool :=
  match hay with
  | EmptyString => String.prefix needle hay
  | String _ hay' => String.prefix needle hay || contains needle hay'
  end.

(** A value of a log event, seen through the two things the processor takes
    from it, its [str()] rendering and its truth value; the summary dictionary
    the processor builds is kept apart. *)
Record Logged := {
  rendered : string;
  truthy : bool;
}.

Inductive LogValue : Type :=
| Kept (v : Logged)
| Summary (token_type : string) (source : LogValue) (mask hash_prefix : string).

Definition truthy_value (v : LogValue) : bool :=
  match v with
  | Kept l => truthy l
  | Summary _ _ _ _ => true
  end.

(** The event dictionary in insertion order. *)
Fixpoint get (d : list (string * LogValue)) (k : string) : option LogValue :=
  match d with
  | [] => None
  | (k', v) :: d' => if String.eqb k' k then Some v else get d' k
  end.

(** [d[k] = v]: an existing key keeps its place, a new one goes last. *)
Fixpoint set (k : string) (v : LogValue) (d : list (string * LogValue))
  : list (string * LogValue) :=
  match d with
  | [] => [(k, v)]
  | (k', v') :: d' => if String.eqb k' k then (k, v) :: d' else (k', v') :: set k v d'
  end.

(** [d.pop(k, None)]. *)
Fixpoint pop (k : string) (d : list (string * LogValue)) : list (string * LogValue) :=
  match d with
  | [] => []
  | (k', v') :: d' => if String.eqb k' k then d' else (k', v') :: pop k d'
  end.

(** The mask of the processor: the last four characters behind stars for a
    rendering of more than four characters, three stars otherwise. *)
Definition mask_of (s : string) : string :=
  if 4 <? Py.len s then Py.str_mul "*" (Py.len s - 4) +:+ Py.slice_from s (- 4)
  else "***".

(** [a or b or c or 'unknown'] over the three source keys. *)
Definition source_of (d : list (string * LogValue)) : LogValue :=
  let pick (k : string) (otherwise : LogValue) : LogValue :=
    match get d k with
    | Some v => if truthy_value v then v else otherwise
    | None => otherwise
    end in
  pick "api_key_source"
    (pick "source"
       (pick "token_source" (Kept {| rendered := "unknown"; truthy := true |}))).

Section Processor.
Context `{Runtime}.

(** The digest of [hashlib.sha256] in hexadecimal, and [str()] of a summary
    dictionary. *)
Variable sha256_hexdigest : string → string.
Variable str_of_summary : string → LogValue → string → string → string.

(** [str(event_dict.get(k))]. *)
Definition render (v : option LogValue) : string :=
  match v with
  | None => "None"
  | Some (Kept l) => rendered l
  | Some (Summary token_type source mask hash_prefix) =>
      str_of_summary token_type source mask hash_prefix
  end.

(** The test that selects a key, on the lower-cased key. *)
Definition sensitive (kl : string) : bool :=
  existsb (λ s, contains s kl) ["api_key"; "openai_api_key"; "auth"; "token"; "secret"]
  || String.eqb kl "authorization".

Definition token_type_of (kl s : string) : string :=
  if contains "auth" kl || contains "authorization" kl || contains "token" kl then
    if contains "bearer" (str_lower s) || contains "jwt" (str_lower s)
    then "jwt" else "auth_token"
  else "api_key".

(** What replaces the value rendered as [s] under the key that lower-cases
    to [kl]. *)
Definition summary_of (d : list (string * LogValue)) (kl s : string) : LogValue :=
  Summary (token_type_of kl s) (source_of d) (mask_of s)
    (Audit.str_take 8 (sha256_hexdigest s)).

(** One turn of the loop. *)
Definition step (d : list (string * LogValue)) (k : string) : list (string * LogValue) :=
  let kl := str_lower k in
  if sensitive kl then
    if String.eqb kl "authorization" then pop k d
    else set k (summary_of d kl (render (get d k))) d
  else d.

(** The loop runs over the keys the event had on entry. *)
Definition _mask_sensitive_processor (event_dict : list (string * LogValue))
  : list (string * LogValue) :=
  foldl step event_dict event_dict.*1.

End Processor.

End LogMask.

(** ** Further concrete data *)

Module Cases.
Import AuthModels.

(** Claims of a remotely issued token with an object id and an e-mail. *)
Definition azure_claims : TokenClaims :=
  {| sub := "subject-1"; oid := Some "object-7"; preferred_username := Some "";
     email := Some "alice@example.com"; c_roles := ["user"]; c_groups := ["free"];
     aud := Some "api://default"; iss := None; exp := 9000; iat := 0; nbf := None;
     c_models := []; c_permissions := []; c_rate_limit := Some 50 |}.

Definition azure_context : AuthContext :=
  {| user_id := "object-7"; username := "alice@example.com"; roles := ["user"];
     groups := ["free"]; permissions := []; models := []; rate_limit := 50 |}.

(** A conversation with two user turns. *)
Definition conversation : list (string * string) :=
  [("system", "be brief"); ("user", "first"); ("assistant", "ok");
   ("user", "second"); ("assistant", "done")].

(** A log event with a credential, a plain field and a forwarded header. *)
Definition log_event : list (string * LogMask.LogValue) :=
  [("api_key", LogMask.Kept {| LogMask.rendered := "sk-secret-1234"; LogMask.truthy := true |});
   ("model", LogMask.Kept {| LogMask.rendered := "gpt-4"; LogMask.truthy := true |});
   ("Authorization",
    LogMask.Kept {| LogMask.rendered := "Bearer abc"; LogMask.truthy := true |})].

End Cases.

(** ** Vocabulary of the statements *)

(** Holding one of the required names, names compared through [str.lower]. *)
Definition holds_one `{Runtime} (required have : list string) : Prop :=
  ∃ r u, r ∈ required ∧ u ∈ have ∧ str_lower r = str_lower u.

(** The exception of the last [except] clause of [validate_token]. *)
Definition internal_validation_error : HTTPException :=
  {| status_code := 500; detail := InternalDuringValidation; headers := NoHeaders |}.

(** The exception [route_request] raises for a model without configuration. *)
Definition model_not_found (model_name : string) : HTTPException :=
  {| status_code := 404; detail := ModelNotFound model_name; headers := NoHeaders |}.

(** * Properties *)

(** ** Masking *)

(** C10: a secret of one or two characters comes back from either masking
    helper unchanged: every character is visible and no star is produced. *)
Theorem mask_key_short_secret_unchanged (k : string) :
  (String.length k = 1 ∨ String.length k = 2)%nat →
  Router._mask_key k = k ∧ Endpoints._mask_key k = k.
Proof.
  destruct k as [|a [|b [|c k]]]; cbn [String.length]; intros [Hl|Hl];
    try discriminate Hl; split; reflexivity.
Qed.

Lemma mask_key_short_secret_unchanged_witness :
  (String.length "ab" = 1 ∨ String.length "ab" = 2)%nat ∧
  (Router._mask_key "ab" = "ab" ∧ Endpoints._mask_key "ab" = "ab").
Proof.
  split; [right; reflexivity |].
  apply (mask_key_short_secret_unchanged "ab"). right. reflexivity.
Defined.

(** ** The quota limiter *)

Lemma expire_incr (d : gmap string RateLimiter.Counter) (k : string) (window : Z) :
  0 < window →
  RateLimiter.expire (RateLimiter.incr d k) k window =
    <[k := {| RateLimiter.count := default 0 (RateLimiter.count <$> d !! k) + 1;
            RateLimiter.ttl := Some window |}]> d.
Proof.
  intros Hw. unfold RateLimiter.expire, RateLimiter.incr.
  destruct (d !! k) as [c|] eqn:Hk; cbn;
    rewrite lookup_insert_eq; destruct (Z.leb_spec window 0); try lia;
    rewrite insert_insert_eq; reflexivity.
Qed.

Section Limiter.
Import RateLimiter.
Variables (now : Z) (r : Redis) (ctx : AuthModels.AuthContext) (model_name : string).
Variable limit : Z.

Let key := rate_key model_name (AuthModels.user_id ctx).
Let current := default 0 (count <$> db r !! key).

Lemma check_rate_limit_exceeded (window : Z) :
  reachable r = true → limit ≤ current →
  check_rate_limit now r ctx model_name limit window =
    (Err (too_many_requests now limit
            match db r !! key with
            | Some c => default (-1) (ttl c)
            | None => -2
            end),
     ran r [GET key; TTL key] (db r)).
Proof.
  intros Hup Hge. unfold check_rate_limit, redis_get. rewrite Hup.
  fold key. fold current.
  destruct (Z.leb_spec limit current) as [_|Hlt]; [|lia].
  unfold redis_ttl, ran. cbn. rewrite Hup. rewrite <- app_assoc. reflexivity.
Qed.

Lemma check_rate_limit_allowed (window : Z) :
  reachable r = true → current < limit →
  check_rate_limit now r ctx model_name limit window =
    (Ok true,
     ran r [GET key; INCR key; EXPIRE key window] (expire (incr (db r) key) key window)).
Proof.
  intros Hup Hlt. unfold check_rate_limit, redis_get. rewrite Hup.
  fold key. fold current.
  destruct (Z.leb_spec limit current) as [Hge|_]; [lia|].
  unfold pipe_execute, ran. cbn. rewrite Hup. rewrite <- app_assoc. reflexivity.
Qed.

End Limiter.

(** C2 (as amended): against a reachable store and for a positive window, a
    check whose counter is at or above the limit raises the 429 exception
    carrying the counter's time to live as retry-after and leaves the
    database unchanged; otherwise it returns [True] and the counter is
    incremented with its expiry set to the window on every admitted call,
    whether or not the counter existed before. *)
Theorem check_rate_limit_contract
    (now limit window : Z) (r : RateLimiter.Redis)
    (ctx : AuthModels.AuthContext) (model_name : string) :
  RateLimiter.reachable r = true →
  0 < window →
  let key := RateLimiter.rate_key model_name (AuthModels.user_id ctx) in
  let current := default 0 (RateLimiter.count <$> RateLimiter.db r !! key) in
  let res := RateLimiter.check_rate_limit now r ctx model_name limit window in
  let time_to_live :=
    match RateLimiter.db r !! key with
    | Some c => default (-1) (RateLimiter.ttl c)
    | None => -2
    end in
  (limit ≤ current →
     fst res = Err (RateLimiter.too_many_requests now limit time_to_live) ∧
     RateLimiter.db (snd res) = RateLimiter.db r) ∧
  (current < limit →
     fst res = Ok true ∧
     RateLimiter.db (snd res) =
       <[key := {| RateLimiter.count := current + 1;
                   RateLimiter.ttl := Some window |}]> (RateLimiter.db r)).
Proof.
  intros Hup Hw key current res time_to_live. split; intros Hc; subst res.
  - unfold current, key in *.
    rewrite (check_rate_limit_exceeded now r ctx model_name limit window Hup Hc).
    split; reflexivity.
  - unfold current, key in *.
    rewrite (check_rate_limit_allowed now r ctx model_name limit window Hup Hc).
    split; [reflexivity |]. cbn. apply expire_incr. exact Hw.
Qed.

Lemma check_rate_limit_contract_witness :
  RateLimiter.reachable Samples.warm_redis = true ∧ 0 < 60 ∧
  fst (RateLimiter.check_rate_limit 1000 Samples.warm_redis Samples.alice "gpt-4" 5 60)
    = Ok true ∧
  RateLimiter.db
    (snd (RateLimiter.check_rate_limit 1000 Samples.warm_redis Samples.alice "gpt-4" 5 60))
    = <[Samples.alice_key := {| RateLimiter.count := 2; RateLimiter.ttl := Some 60 |}]>
        (RateLimiter.db Samples.warm_redis).
Proof.
  split; [reflexivity |]. split; [lia |].
  apply (check_rate_limit_contract 1000 5 60 Samples.warm_redis Samples.alice "gpt-4");
    [reflexivity | lia |].
  vm_compute. reflexivity.
Defined.

(** C2 (as stated) fails: a counter that already exists, with 10 seconds left
    in its window, is not newly created by the next admitted check, yet that
    check sets its expiry to the 60 second window. *)
Lemma check_rate_limit_resets_expiry_of_existing_counter :
  let r' := snd (RateLimiter.check_rate_limit 1000 Samples.warm_redis Samples.alice
                   "gpt-4" 5 60) in
  RateLimiter.db Samples.warm_redis !! Samples.alice_key
    = Some {| RateLimiter.count := 1; RateLimiter.ttl := Some 10 |} ∧
  RateLimiter.db r' !! Samples.alice_key
    = Some {| RateLimiter.count := 2; RateLimiter.ttl := Some 60 |} ∧
  (RateLimiter.db r' !! Samples.alice_key) ≫= RateLimiter.ttl
    ≠ (RateLimiter.db Samples.warm_redis !! Samples.alice_key) ≫= RateLimiter.ttl.
Proof.
  cbv zeta. split; [reflexivity |]. split; [vm_compute; reflexivity |].
  vm_compute. discriminate.
Qed.

(** C5 (as amended): against a reachable store the status query reports the
    counter's value as used (0 when the key is absent), max(0, limit - used)
    as remaining, and as reset time now plus the counter's time to live
    clamped at 0: now + ttl for a counter that expires, and now itself for a
    counter without expiry or when no counter exists. *)
Theorem get_rate_limit_status_contract
    (now limit : Z) (r : RateLimiter.Redis)
    (ctx : AuthModels.AuthContext) (model_name : string) :
  RateLimiter.reachable r = true →
  let key := RateLimiter.rate_key model_name (AuthModels.user_id ctx) in
  let st := fst (RateLimiter.get_rate_limit_status now r ctx model_name limit) in
  RateLimiter.st_used st = default 0 (RateLimiter.count <$> RateLimiter.db r !! key) ∧
  RateLimiter.st_remaining st = Z.max 0 (limit - RateLimiter.st_used st) ∧
  RateLimiter.st_reset st =
    match RateLimiter.db r !! key with
    | Some {| RateLimiter.ttl := Some t |} => now + Z.max 0 t
    | _ => now
    end.
Proof.
  intros Hup key st. subst st.
  unfold RateLimiter.get_rate_limit_status, RateLimiter.redis_get, RateLimiter.redis_ttl.
  rewrite Hup. cbn. rewrite Hup. cbn. fold key.
  repeat split.
  destruct (RateLimiter.db r !! key) as [[c [t|]]|]; cbn; lia.
Qed.

Lemma get_rate_limit_status_contract_witness :
  RateLimiter.reachable Samples.warm_redis = true ∧
  let st := fst (RateLimiter.get_rate_limit_status 1000 Samples.warm_redis
                   Samples.alice "gpt-4" 5) in
  RateLimiter.st_used st = 1 ∧ RateLimiter.st_remaining st = 4 ∧
  RateLimiter.st_reset st = 1010.
Proof.
  split; [reflexivity |].
  pose proof (get_rate_limit_status_contract 1000 5 Samples.warm_redis Samples.alice
                "gpt-4" eq_refl) as Hc.
  cbv zeta in *. destruct Hc as (Hu & Hr & Ht).
  rewrite Hu, Hr, Ht, Hu. vm_compute. repeat split.
Defined.

(** C5 (as stated) fails: with no counter in the store the reset time is now
    itself, which is now plus no positive window. *)
Lemma get_rate_limit_status_reset_without_counter :
  let st := fst (RateLimiter.get_rate_limit_status 1000 Samples.empty_redis
                   Samples.alice "gpt-4" 5) in
  RateLimiter.db Samples.empty_redis !! Samples.alice_key = None ∧
  RateLimiter.st_reset st = 1000 ∧
  ∀ window, 0 < window → RateLimiter.st_reset st ≠ 1000 + window.
Proof.
  cbv zeta. split; [reflexivity |]. split; [reflexivity |].
  intros window Hw. change (1000 ≠ 1000 + window). lia.
Qed.

(** C6: when the store cannot be reached the check returns [True] without
    raising and without touching the store, and the status query reports
    nothing used and the whole limit remaining. *)
Theorem limiter_fails_open
    (now limit window : Z) (r : RateLimiter.Redis)
    (ctx : AuthModels.AuthContext) (model_name : string) :
  RateLimiter.reachable r = false →
  RateLimiter.check_rate_limit now r ctx model_name limit window = (Ok true, r) ∧
  let st := fst (RateLimiter.get_rate_limit_status now r ctx model_name limit) in
  RateLimiter.st_used st = 0 ∧ RateLimiter.st_remaining st = limit.
Proof.
  intros Hdown.
  unfold RateLimiter.check_rate_limit, RateLimiter.get_rate_limit_status,
    RateLimiter.redis_get.
  rewrite Hdown. cbn. repeat split.
Qed.

Lemma limiter_fails_open_witness :
  RateLimiter.reachable Samples.down_redis = false ∧
  RateLimiter.check_rate_limit 1000 Samples.down_redis Samples.alice "gpt-4" 5 60
    = (Ok true, Samples.down_redis) ∧
  let st := fst (RateLimiter.get_rate_limit_status 1000 Samples.down_redis
                   Samples.alice "gpt-4" 5) in
  RateLimiter.st_used st = 0 ∧ RateLimiter.st_remaining st = 5.
Proof.
  split; [reflexivity |].
  apply (limiter_fails_open 1000 5 60 Samples.down_redis Samples.alice "gpt-4").
  reflexivity.
Defined.

(** ** The access decision *)

Section Access.
Context `{Runtime}.

Lemma any_in_lowered (required have : list string) :
  existsb (λ r, bool_decide (r ∈ (list_to_set (str_lower <$> have) : gset string)))
    (str_lower <$> required) = true
  ↔ holds_one required have.
Proof.
  rewrite existsb_exists. split.
  - intros (x & Hin & Hx). apply bool_decide_eq_true in Hx.
    apply list_elem_of_In, list_elem_of_fmap in Hin as (r & -> & Hr).
    apply elem_of_list_to_set, list_elem_of_fmap in Hx as (u & Hu & Hin).
    exists r, u. auto.
  - intros (r & u & Hr & Hu & Heq). exists (str_lower r). split.
    + apply list_elem_of_In, list_elem_of_fmap. eauto.
    + apply bool_decide_eq_true, elem_of_list_to_set, list_elem_of_fmap. eauto.
Qed.

Lemma requirement_met (required have : list string) :
  (match str_lower <$> required with [] => false | _ => true end
   && negb (existsb
              (λ r, bool_decide (r ∈ (list_to_set (str_lower <$> have) : gset string)))
              (str_lower <$> required))) = false
  ↔ required = [] ∨ holds_one required have.
Proof.
  rewrite <- any_in_lowered.
  destruct required as [|r0 required]; cbn [fmap list_fmap andb].
  - split; auto.
  - rewrite negb_false_iff. split; [auto | intros [?|?]; [discriminate | auto]].
Qed.

End Access.

(** C7: [check_access] allows when the model has no access rule and when the
    model is in the context's granted list; otherwise, comparing names
    through [str.lower], it allows exactly when the user holds one of the
    required roles (if the rule names any) and one of the required groups (if
    the rule names any).  A model absent from the access table is allowed for
    every context. *)
Theorem check_access_policy `{Runtime}
    (cfg : Config.ModelConfig) (ctx : AuthModels.AuthContext) (model_name : string) :
  let rule := Config.get_access_control cfg model_name in
  let required_roles := default [] (Config.roles rule) in
  let required_groups := default [] (Config.groups rule) in
  (Config.access_control cfg !! model_name = None →
     Router.check_access cfg ctx model_name = true) ∧
  (Config.rule_is_empty rule = true →
     Router.check_access cfg ctx model_name = true) ∧
  (model_name ∈ AuthModels.models ctx →
     Router.check_access cfg ctx model_name = true) ∧
  (Config.rule_is_empty rule = false → model_name ∉ AuthModels.models ctx →
     (Router.check_access cfg ctx model_name = true ↔
        (required_roles = [] ∨ holds_one required_roles (AuthModels.roles ctx)) ∧
        (required_groups = [] ∨ holds_one required_groups (AuthModels.groups ctx)))).
Proof.
  intros rule required_roles required_groups.
  split; [| split; [| split]].
  - intros Hnone. unfold Router.check_access, Config.get_access_control.
    rewrite Hnone. reflexivity.
  - intros Hempty. unfold Router.check_access. fold rule. rewrite Hempty. reflexivity.
  - intros Hin. unfold Router.check_access. fold rule.
    rewrite (bool_decide_eq_true_2 _ Hin).
    destruct (Config.rule_is_empty rule); reflexivity.
  - intros Hrule Hnotin. unfold Router.check_access. fold rule.
    rewrite Hrule, (bool_decide_eq_false_2 _ Hnotin).
    fold required_roles. fold required_groups.
    rewrite <- (requirement_met required_roles), <- (requirement_met required_groups).
    destruct (_ && _); [split; [discriminate | intros [? _]; discriminate] |].
    destruct (_ && _); [split; [discriminate | intros [_ ?]; discriminate] |].
    split; auto.
Qed.

Lemma check_access_policy_witness :
  Config.rule_is_empty (Config.get_access_control Samples.admin_only "gpt-4") = false ∧
  ("gpt-4" ∉ AuthModels.models Samples.admin_ctx) ∧
  @Router.check_access Samples.ascii_runtime
    Samples.admin_only Samples.admin_ctx "gpt-4" = true.
Proof.
  split; [reflexivity |]. split; [apply not_elem_of_nil |].
  apply (@check_access_policy Samples.ascii_runtime
           Samples.admin_only Samples.admin_ctx "gpt-4");
    [reflexivity | apply not_elem_of_nil |].
  split; [right | left; reflexivity].
  exists "admin", "Admin". repeat split; apply list_elem_of_here.
Defined.

(** The two cases of the specification: a model that requires [admin] is
    refused to a user holding only [user] and granted to one holding [Admin]. *)
Example check_access_admin_only :
  @Router.check_access Samples.ascii_runtime
    Samples.admin_only Samples.alice "gpt-4" = false ∧
  @Router.check_access Samples.ascii_runtime
    Samples.admin_only Samples.admin_ctx "gpt-4" = true.
Proof. split; vm_compute; reflexivity. Qed.

(** ** Response normalisation *)

Section Usage.
Context `{Runtime}.

Lemma int_or_absent (d : Z) : Router.int_or None d = Some d.
Proof. reflexivity. Qed.

(** The usage object of the inner [try], once it is a dict. *)
Lemma usage_of_object (o : list (string * Py.json)) :
  let u := default Router.zero_usage
             (p ← Router.int_or (Py.dict_get o "prompt_tokens") 0;
              c ← Router.int_or (Py.dict_get o "completion_tokens") 0;
              t ← Router.int_or (Py.dict_get o "total_tokens") (p + c);
              Some {| Router.prompt_tokens := p; Router.completion_tokens := c;
                      Router.total_tokens := t |}) in
  (Py.dict_get o "prompt_tokens" = None → Router.prompt_tokens u = 0) ∧
  (Py.dict_get o "completion_tokens" = None → Router.completion_tokens u = 0) ∧
  (Py.dict_get o "total_tokens" = None →
     Router.total_tokens u = Router.prompt_tokens u + Router.completion_tokens u).
Proof.
  cbv zeta.
  destruct (Router.int_or (Py.dict_get o "prompt_tokens") 0) as [p|] eqn:Hp;
    [| cbn; auto].
  destruct (Router.int_or (Py.dict_get o "completion_tokens") 0) as [c|] eqn:Hc;
    [| cbn; auto].
  cbn [mbind option_bind].
  destruct (Router.int_or (Py.dict_get o "total_tokens") (p + c)) as [t|] eqn:Ht;
    [| cbn; auto].
  cbn. repeat split.
  - intros E. rewrite E in Hp. cbn in Hp. congruence.
  - intros E. rewrite E in Hc. cbn in Hc. congruence.
  - intros E. rewrite E in Ht. cbn in Ht. congruence.
Qed.

Lemma normalize_usage_defaults (response_data : list (string * Py.json)) :
  let u := Router.normalize_usage response_data in
  (Py.dict_get response_data "usage" = None → u = Router.zero_usage) ∧
  (Router.upstream_usage_field response_data "prompt_tokens" = None →
     Router.prompt_tokens u = 0) ∧
  (Router.upstream_usage_field response_data "completion_tokens" = None →
     Router.completion_tokens u = 0) ∧
  (Router.upstream_usage_field response_data "total_tokens" = None →
     Router.total_tokens u = Router.prompt_tokens u + Router.completion_tokens u).
Proof.
  cbv zeta. unfold Router.normalize_usage, Router.try_usage, Router.upstream_usage_field.
  destruct (Py.dict_get response_data "usage") as [v|] eqn:Hu.
  - split; [discriminate |].
    destruct v as [| b | n | f | s | l | o];
      try (destruct (Py.truthy _); cbn; auto; fail).
    destruct o as [|kv o]; [cbn; auto |].
    cbn [Py.truthy]. apply usage_of_object.
  - cbn. auto.
Qed.

(** A total the upstream sent: a falsy one gives way to the sum, a non-zero
    integer beside integer or absent counts is kept. *)
Lemma normalize_usage_total (response_data : list (string * Py.json)) :
  let u := Router.normalize_usage response_data in
  let field := Router.upstream_usage_field response_data in
  (∀ v, field "total_tokens" = Some v → Py.truthy v = false →
     Router.total_tokens u = Router.prompt_tokens u + Router.completion_tokens u) ∧
  (∀ n, field "total_tokens" = Some (Py.JInt n) → n ≠ 0 →
     (field "prompt_tokens" = None ∨ ∃ p, field "prompt_tokens" = Some (Py.JInt p)) →
     (field "completion_tokens" = None ∨
      ∃ c, field "completion_tokens" = Some (Py.JInt c)) →
     Router.total_tokens u = n).
Proof.
  cbv zeta. unfold Router.normalize_usage, Router.try_usage, Router.upstream_usage_field.
  destruct (Py.dict_get response_data "usage") as [[| | | | | |o]|];
    try (split; [intros v' Hv | intros n' Hv]; discriminate).
  destruct o as [|kv o]; [split; [intros v Hv | intros n Hv]; discriminate |].
  cbn [Py.truthy]. set (usage := kv :: o). split.
  - intros v Hv Hfalsy.
    destruct (Router.int_or (Py.dict_get usage "prompt_tokens") 0) as [p|];
      [| reflexivity].
    destruct (Router.int_or (Py.dict_get usage "completion_tokens") 0) as [c|];
      [| reflexivity].
    cbn [mbind option_bind]. rewrite Hv. unfold Router.int_or. rewrite Hfalsy.
    reflexivity.
  - intros n Hn Hnz Hp Hc.
    assert (∀ k, (Py.dict_get usage k = None ∨ ∃ m, Py.dict_get usage k = Some (Py.JInt m)) →
                 ∃ m, Router.int_or (Py.dict_get usage k) 0 = Some m) as Hint.
    { intros k [-> | [m ->]]; [eexists; reflexivity |].
      cbn. destruct (negb (m =? 0)); eexists; reflexivity. }
    destruct (Hint _ Hp) as [p ->]. destruct (Hint _ Hc) as [c ->].
    cbn [mbind option_bind]. rewrite Hn. cbn.
    destruct (Z.eqb_spec n 0); [contradiction | reflexivity].
Qed.

End Usage.

(** A successful [route_request] sent exactly one request, whose reply had a
    2xx status and a JSON object as body, and returns that object's fields
    with the normalised usage. *)
Lemma route_request_ok `{Runtime}
    (post : Router.Outbound → Router.UpstreamReply) (cfg : Config.ModelConfig)
    (request : Router.ChatCompletionRequest) (ctx : AuthModels.AuthContext)
    (resp : Router.ChatCompletionResponse) (out : list Router.Outbound) :
  Router.route_request post cfg request ctx = (Ok resp, out) →
  ∃ sent status response_data,
    out = [sent] ∧
    post sent = Router.Reply status (Some (Py.JObj response_data)) ∧
    200 ≤ status ≤ 299 ∧
    resp = {| Router.fields := response_data;
              Router.usage := Some (Router.normalize_usage response_data) |}.
Proof.
  unfold Router.route_request.
  destruct (Config.entry_is_empty _); [discriminate |].
  destruct (negb (Router.check_access _ _ _)); [discriminate |].
  destruct (negb (Py.truthy_str _)); [discriminate |].
  intros Heq. injection Heq as Hres Hout. symmetry in Hout.
  eexists. unfold Router.handle_reply in Hres.
  destruct (post _) as [|status body] eqn:Hpost; [discriminate |].
  destruct ((200 <=? status) && (status <=? 299)) eqn:Hst.
  - destruct body as [[| | | | | |response_data]|]; try discriminate.
    destruct (response_fields_ok response_data); [| discriminate].
    injection Hres as <-. exists status, response_data.
    apply andb_true_iff in Hst as [H1 H2]. repeat split; eauto; lia.
  - destruct body as [[| | | | | |error_data]|]; try discriminate.
    destruct (Py.dict_get error_data "error") as [[| | | | | |]|];
      try discriminate.
    destruct (status_phrase status); discriminate.
Qed.

(** C3 (as amended): every response that [route_request] returns carries a
    usage triple of integers in which a prompt or completion count the
    upstream omitted is 0 and in which the total equals prompt plus completion
    whenever the upstream omitted the total or sent a falsy one (0 or null);
    when the upstream omits the usage field the triple is (0, 0, 0).  A
    non-zero integer total that the upstream sent beside integer or omitted
    counts is kept, not recomputed. *)
Theorem forward_normalizes_usage `{Runtime}
    (post : Router.Outbound → Router.UpstreamReply) (cfg : Config.ModelConfig)
    (request : Router.ChatCompletionRequest) (ctx : AuthModels.AuthContext)
    (resp : Router.ChatCompletionResponse) (out : list Router.Outbound) :
  Router.route_request post cfg request ctx = (Ok resp, out) →
  ∃ sent status response_data u,
    let field := Router.upstream_usage_field response_data in
    out = [sent] ∧
    post sent = Router.Reply status (Some (Py.JObj response_data)) ∧
    Router.usage resp = Some u ∧
    (Py.dict_get response_data "usage" = None → u = Router.zero_usage) ∧
    (field "prompt_tokens" = None → Router.prompt_tokens u = 0) ∧
    (field "completion_tokens" = None → Router.completion_tokens u = 0) ∧
    (field "total_tokens" = None →
       Router.total_tokens u = Router.prompt_tokens u + Router.completion_tokens u) ∧
    (∀ v, field "total_tokens" = Some v → Py.truthy v = false →
       Router.total_tokens u = Router.prompt_tokens u + Router.completion_tokens u) ∧
    (∀ n, field "total_tokens" = Some (Py.JInt n) → n ≠ 0 →
       (field "prompt_tokens" = None ∨ ∃ p, field "prompt_tokens" = Some (Py.JInt p)) →
       (field "completion_tokens" = None ∨
        ∃ c, field "completion_tokens" = Some (Py.JInt c)) →
       Router.total_tokens u = n).
Proof.
  intros Hok. apply route_request_ok in Hok as (sent & status & rd & -> & Hpost & _ & ->).
  exists sent, status, rd, (Router.normalize_usage rd). cbv zeta.
  split; [reflexivity |]. split; [exact Hpost |]. split; [reflexivity |].
  destruct (normalize_usage_defaults rd) as (Hnone & Hp & Hc & Ht).
  destruct (normalize_usage_total rd) as (Hfalsy & Hkept).
  repeat split; assumption.
Qed.

Lemma forward_normalizes_usage_witness :
  ∃ resp out,
    @Router.route_request Samples.ascii_runtime
      (Samples.answers Samples.completion_without_usage)
      Samples.gpt4_config (Samples.hello "gpt-4") Samples.alice = (Ok resp, out) ∧
    Router.usage resp = Some Router.zero_usage.
Proof.
  eexists _, _. split; [vm_compute; reflexivity |].
  destruct (@forward_normalizes_usage Samples.ascii_runtime
              (Samples.answers Samples.completion_without_usage)
              Samples.gpt4_config (Samples.hello "gpt-4") Samples.alice _ _ eq_refl)
    as (sent & status & rd & u & _ & Hpost & Hu & Hzero & _).
  injection Hpost as _ <-. rewrite (Hzero eq_refl) in Hu. exact Hu.
Defined.

(** C3 (as stated) fails: a complete upstream completion whose usage has 1
    prompt and 2 completion tokens with a total of 100 is accepted and
    returned with total 100, which is not 1 + 2. *)
Lemma forward_keeps_upstream_total :
  ∃ resp out u,
    Samples.fields_ok (Samples.completion_fields "chatcmpl-1") = true ∧
    @Router.route_request Samples.ascii_runtime
      (Samples.answers Samples.completion_with_total)
      Samples.gpt4_config (Samples.hello "gpt-4") Samples.alice = (Ok resp, out) ∧
    Router.usage resp = Some u ∧
    Router.total_tokens u = 100 ∧
    Router.total_tokens u ≠ Router.prompt_tokens u + Router.completion_tokens u.
Proof.
  eexists _, _, _. split; [reflexivity |]. split; [vm_compute; reflexivity |].
  split; [reflexivity |]. split; [reflexivity | discriminate].
Qed.

(** A total of 0 that the upstream sent is not kept: with 1 prompt and 2
    completion tokens the response carries the sum 3. *)
Example forward_recomputes_zero_total :
  ∃ resp out,
    @Router.route_request Samples.ascii_runtime
      (Samples.answers Samples.completion_with_zero_total)
      Samples.gpt4_config (Samples.hello "gpt-4") Samples.alice = (Ok resp, out) ∧
    Router.usage resp =
      Some {| Router.prompt_tokens := 1; Router.completion_tokens := 2;
              Router.total_tokens := 3 |}.
Proof. eexists _, _. split; vm_compute; reflexivity. Qed.

(** ** Token validation *)

Section Validation.
Context `{Runtime}.
Import JwtHandler.

(** [jose] refuses a payload whose expiry lies in the past, whatever the key,
    algorithm, audience and issuer. *)
Lemma jwt_decode_expired (now e : Z) (h : JwtHeader) (verifies : string → bool)
    (p : AuthModels.Payload) (key algorithm : string) (audience issuer : option string) :
  AuthModels.p_exp p = Some e → e < now →
  ∃ je, jwt_decode now (Jws h verifies (Some p)) key algorithm audience issuer = Err je.
Proof.
  intros He Hlt. unfold jwt_decode. rewrite He.
  destruct (Z.ltb_spec e now) as [_|]; [| lia].
  destruct (negb (bool_decide _)); [eauto |].
  destruct (negb (verifies key)); [eauto |].
  destruct (match AuthModels.p_nbf p with Some n => now <? n | None => false end); eauto.
Qed.

Lemma handle_jose (je : JoseError) : ∃ d, handle_raised (Jose je) = unauthorized d.
Proof. destruct je; cbn; eauto. Qed.

(** A failed fetch with a stale (or falsy) cache raises out of [_fetch_jwks]
    and leaves the handler as it was. *)
Lemma fetch_failed_stale (now : Z) (h : JWTHandler) :
  _jwks_cache_ttl ≤ now - _jwks_cache_time h →
  _fetch_jwks FetchFailed now h = (Err Other, h).
Proof.
  intros Hstale. unfold _fetch_jwks.
  destruct (_jwks_cache h) as [cached|]; [| reflexivity].
  destruct (Z.ltb_spec (now - _jwks_cache_time h) _jwks_cache_ttl); [lia |].
  rewrite andb_false_r. reflexivity.
Qed.

End Validation.

(** C4 (as amended): when the key-set fetch fails while the cached key set is
    present but stale, validation of a token of the asymmetric path does not
    serve the stale set: it fails with the 500 "internal server error during
    token validation" exception, and the cache is left as it was. *)
Theorem stale_cache_fetch_failure_surfaces `{Runtime}
    (s : JwtHandler.Settings) (now : Z) (h : JwtHandler.JWTHandler)
    (tok : JwtHandler.Token) (cached : Py.json) :
  tok ≠ JwtHandler.EmptyToken →
  JwtHandler._is_local_token tok = false →
  JwtHandler._jwks_cache h = Some cached →
  JwtHandler._jwks_cache_ttl ≤ now - JwtHandler._jwks_cache_time h →
  JwtHandler.validate_token s JwtHandler.FetchFailed now h tok
    = (Err internal_validation_error, h).
Proof.
  intros Hne Hlocal _ Hstale.
  unfold JwtHandler.validate_token, JwtHandler.try_validate.
  rewrite Hlocal, (fetch_failed_stale now h Hstale).
  destruct tok; [contradiction | reflexivity | reflexivity].
Qed.

Lemma stale_cache_fetch_failure_surfaces_witness :
  Samples.rs256_token 9000 ≠ JwtHandler.EmptyToken ∧
  JwtHandler._is_local_token (Samples.rs256_token 9000) = false ∧
  JwtHandler._jwks_cache Samples.cached_handler = Some Samples.jwks ∧
  JwtHandler._jwks_cache_ttl ≤ 5000 - JwtHandler._jwks_cache_time Samples.cached_handler ∧
  @JwtHandler.validate_token Samples.ascii_runtime Samples.settings
    JwtHandler.FetchFailed 5000 Samples.cached_handler (Samples.rs256_token 9000)
    = (Err internal_validation_error, Samples.cached_handler).
Proof.
  split; [discriminate |]. split; [reflexivity |]. split; [reflexivity |].
  split; [vm_compute; discriminate |].
  apply (@stale_cache_fetch_failure_surfaces Samples.ascii_runtime Samples.settings 5000
           Samples.cached_handler (Samples.rs256_token 9000) Samples.jwks);
    [discriminate | reflexivity | reflexivity | vm_compute; discriminate].
Defined.

(** C4 (as stated) fails: at time 5000 the key set cached at time 0 is stale
    but present and holds the key under which an unexpired RS256 token
    verifies; with the fetch failing, validation does not use it and the
    caller gets the 500 exception. *)
Lemma stale_cache_not_served :
  JwtHandler._jwks_cache Samples.cached_handler = Some Samples.jwks ∧
  JwtHandler._jwks_cache_ttl ≤ 5000 - JwtHandler._jwks_cache_time Samples.cached_handler ∧
  @JwtHandler.get_signing_key Samples.ascii_runtime (Samples.rs256_token 9000) Samples.jwks
    = Ok (Some "PEM:CERT") ∧
  JwtHandler.jwt_decode 5000 (Samples.rs256_token 9000) "PEM:CERT" "RS256"
    (Some (JwtHandler.audience Samples.settings))
    (Some (JwtHandler.issuer Samples.settings)) = Ok (Samples.payload 9000) ∧
  fst (@JwtHandler.validate_token Samples.ascii_runtime Samples.settings
         JwtHandler.FetchFailed 5000 Samples.cached_handler (Samples.rs256_token 9000))
    = Err internal_validation_error.
Proof.
  split; [reflexivity |]. split; [vm_compute; discriminate |].
  split; [vm_compute; reflexivity |]. split; vm_compute; reflexivity.
Qed.

(** C8 (as amended): a token whose expiry lies in the past is refused with a
    401 exception, whatever its signature, on the symmetric path always and on
    the asymmetric path whenever the key set is obtained (fresh cache or
    successful fetch) and holds a signing key for the token's key id; when the
    key-set fetch fails on the asymmetric path, it is refused with the 500
    "internal server error during token validation" exception instead. *)
Theorem expired_token_unauthorized `{Runtime}
    (s : JwtHandler.Settings) (fetch : JwtHandler.FetchOutcome) (now e : Z)
    (h : JwtHandler.JWTHandler) (hdr : JwtHandler.JwtHeader)
    (verifies : string → bool) (p : AuthModels.Payload) :
  let tok := JwtHandler.Jws hdr verifies (Some p) in
  AuthModels.p_exp p = Some e →
  e < now →
  ((JwtHandler._is_local_token tok = true ∨
    ∃ jwks key,
      fst (JwtHandler._fetch_jwks fetch now h) = Ok jwks ∧
      JwtHandler.get_signing_key tok jwks = Ok (Some key) ∧ key ≠ "") →
   ∃ err,
     fst (JwtHandler.validate_token s fetch now h tok) = Err err ∧
     status_code err = 401 ∧ headers err = WWWAuthenticateBearer) ∧
  (JwtHandler._is_local_token tok = false →
   (∃ x, fst (JwtHandler._fetch_jwks fetch now h) = Err x) →
   fst (JwtHandler.validate_token s fetch now h tok) = Err internal_validation_error).
Proof.
  intros tok He Hlt.
  unfold JwtHandler.validate_token, JwtHandler.try_validate. subst tok.
  split.
  - intros [Hlocal | (jwks & key & Hfetch & Hget & Hne)].
    + rewrite Hlocal.
      destruct (jwt_decode_expired now e hdr verifies p (JwtHandler.jwt_secret_key s)
                  "HS256" None None He Hlt) as [je ->].
      destruct (handle_jose je) as [d Hd]. cbn [fst]. rewrite Hd.
      eexists. repeat split.
    + destruct (JwtHandler._is_local_token _) eqn:Hlocal.
      * destruct (jwt_decode_expired now e hdr verifies p (JwtHandler.jwt_secret_key s)
                    "HS256" None None He Hlt) as [je ->].
        destruct (handle_jose je) as [d Hd]. cbn [fst]. rewrite Hd.
        eexists. repeat split.
      * destruct (JwtHandler._fetch_jwks fetch now h) as [rj h'].
        cbn [fst] in Hfetch. subst rj. rewrite Hget.
        assert (Py.truthy_str (Some key) = true) as ->.
        { cbn. apply negb_true_iff, String.eqb_neq. exact Hne. }
        cbn [negb default id].
        destruct (jwt_decode_expired now e hdr verifies p key "RS256"
                    (Some (JwtHandler.audience s)) (Some (JwtHandler.issuer s)) He Hlt)
          as [je ->].
        destruct (handle_jose je) as [d Hd]. cbn [fst]. rewrite Hd.
        eexists. repeat split.
  - intros Hlocal [x Hfetch]. rewrite Hlocal.
    destruct (JwtHandler._fetch_jwks fetch now h) as [rj h'].
    cbn [fst] in Hfetch. subst rj. reflexivity.
Qed.

Lemma expired_token_unauthorized_witness :
  AuthModels.p_exp (Samples.payload 100) = Some 100 ∧ 100 < 5000 ∧
  (∃ err,
     fst (@JwtHandler.validate_token Samples.ascii_runtime Samples.settings
            (JwtHandler.Fetched Samples.jwks) 5000 Samples.fresh_handler
            (Samples.rs256_token 100)) = Err err ∧
     status_code err = 401 ∧ headers err = WWWAuthenticateBearer) ∧
  fst (@JwtHandler.validate_token Samples.ascii_runtime Samples.settings
         JwtHandler.FetchFailed 5000 Samples.fresh_handler (Samples.rs256_token 100))
    = Err internal_validation_error.
Proof.
  split; [reflexivity |]. split; [lia |]. split.
  - apply (proj1 (@expired_token_unauthorized Samples.ascii_runtime Samples.settings
                    (JwtHandler.Fetched Samples.jwks) 5000 100 Samples.fresh_handler
                    {| JwtHandler.alg := Some "RS256"; JwtHandler.kid := Some "k1" |}
                    (String.eqb "PEM:CERT") (Samples.payload 100) eq_refl ltac:(lia))).
    right. exists Samples.jwks, "PEM:CERT".
    split; [reflexivity |]. split; [vm_compute; reflexivity | discriminate].
  - apply (proj2 (@expired_token_unauthorized Samples.ascii_runtime Samples.settings
                    JwtHandler.FetchFailed 5000 100 Samples.fresh_handler
                    {| JwtHandler.alg := Some "RS256"; JwtHandler.kid := Some "k1" |}
                    (String.eqb "PEM:CERT") (Samples.payload 100) eq_refl ltac:(lia)));
      [reflexivity | exists Other; reflexivity].
Defined.

(** C8 (as stated) fails: an RS256 token that expired at time 100, validated
    at time 5000 when no key set is cached and the fetch fails, is refused
    with status 500, not 401. *)
Lemma expired_token_internal_error :
  AuthModels.p_exp (Samples.payload 100) = Some 100 ∧ 100 < 5000 ∧
  JwtHandler._is_local_token (Samples.rs256_token 100) = false ∧
  ∃ err,
    fst (@JwtHandler.validate_token Samples.ascii_runtime Samples.settings
           JwtHandler.FetchFailed 5000 Samples.fresh_handler
           (Samples.rs256_token 100)) = Err err ∧
    status_code err = 500 ∧ status_code err ≠ 401.
Proof.
  split; [reflexivity |]. split; [lia |]. split; [reflexivity |].
  eexists. split; [vm_compute; reflexivity |]. split; [reflexivity | discriminate].
Qed.

(** ** Credential resolution and the order of the stages *)

Lemma truthy_str_some (k : string) : k ≠ "" → Py.truthy_str (Some k) = true.
Proof. intros Hne. cbn. apply negb_true_iff, String.eqb_neq. exact Hne. Qed.

(** After the binding block the entry of the requested model carries the
    effective credential; header name and prefix are those configured. *)
Lemma bind_api_key_entry (env : Endpoints.ProcessEnv) (hdrs : gmap string string)
    (cfg : Config.ModelConfig) (model_name k : string) :
  let entry := Config.get_model_config cfg model_name in
  Endpoints.effective_api_key
    (Endpoints.first_header hdrs Endpoints.api_key_header_names)
    (Endpoints.gateway_api_key env)
    (Endpoints.resolve_cfg_api_key env (Config.api_key entry)) = Some k →
  k ≠ "" →
  let entry' := Config.get_model_config (Endpoints.bind_api_key env hdrs cfg model_name)
                  model_name in
  Config.api_key entry' = Some k ∧
  Config.auth_header entry' = Config.auth_header entry ∧
  Config.auth_prefix entry' = Config.auth_prefix entry.
Proof.
  intros entry Heff Hne entry'. subst entry'. unfold Endpoints.bind_api_key.
  fold entry. rewrite Heff, (truthy_str_some k Hne).
  unfold Config.get_model_config at 1 2 3. cbn [Config.models].
  rewrite lookup_insert_eq. cbn. auto.
Qed.

(** The request [route_request] sends carries the entry's credential under
    the entry's header name. *)
Lemma route_request_injects `{Runtime}
    (post : Router.Outbound → Router.UpstreamReply) (cfg : Config.ModelConfig)
    (request : Router.ChatCompletionRequest) (ctx : AuthModels.AuthContext)
    (res : result Exn Router.ChatCompletionResponse) (out : Router.Outbound) (k : string) :
  let entry := Config.get_model_config cfg (Router.model request) in
  Router.route_request post cfg request ctx = (res, [out]) →
  Config.api_key entry = Some k → k ≠ "" →
  Router.out_headers out !! default "Authorization" (Config.auth_header entry)
    = Some (Router.header_value (default "" (Config.auth_prefix entry)) k).
Proof.
  intros entry Hroute Hkey Hne. unfold Router.route_request in Hroute. fold entry in Hroute.
  destruct (Config.entry_is_empty entry); [discriminate |].
  destruct (negb (Router.check_access _ _ _)); [discriminate |].
  destruct (negb (Py.truthy_str (Config.endpoint entry))); [discriminate |].
  injection Hroute as _ <-. cbn [Router.out_headers].
  rewrite Hkey, (truthy_str_some k Hne). cbn [default id].
  apply lookup_insert_eq.
Qed.

(** A run of [chat_completions] that extends the list of sent requests by
    [out] sent it from [route_request], run on the bound configuration. *)
Lemma chat_completions_sent `{Runtime}
    (post : Router.Outbound → Router.UpstreamReply) (env : Endpoints.ProcessEnv)
    (now : Z) (hdrs : gmap string string) (request : Router.ChatCompletionRequest)
    (ctx : AuthModels.AuthContext) (w w' : Endpoints.World)
    (res : result HTTPException Router.ChatCompletionResponse) (out : Router.Outbound) :
  Endpoints.chat_completions post env now hdrs request ctx w = (res, w') →
  Endpoints.sent w' = (Endpoints.sent w ++ [out])%list →
  ∃ r, Router.route_request post
         (Endpoints.bind_api_key env hdrs (Endpoints.config w) (Router.model request))
         request ctx = (r, [out]).
Proof.
  unfold Endpoints.chat_completions. intros Hrun Hsent.
  assert (∀ l : list Router.Outbound, l ≠ (l ++ [out])%list) as Hfresh.
  { intros l E. apply (f_equal length) in E. rewrite length_app in E. cbn in E. lia. }
  destruct (negb (Router.check_access _ _ _)).
  { injection Hrun as _ <-. destruct (Hfresh _ Hsent). }
  destruct (RateLimiter.check_rate_limit _ _ _ _ _ _) as [[ok|e] r'].
  2: { injection Hrun as _ <-. destruct (Hfresh _ Hsent). }
  destruct (Router.route_request _ _ _ _) as [r sent_now] eqn:Hroute.
  assert (Endpoints.sent w' = (Endpoints.sent w ++ sent_now)%list) as Hw'.
  { destruct r as [resp|[he|]]; injection Hrun as _ <-; reflexivity. }
  rewrite Hw' in Hsent. apply app_inv_head in Hsent. subst sent_now. eauto.
Qed.

(** Within one run of [chat_completions] that forwards a request, the
    credential placed in the outbound request (under the model's header name,
    joined to the model's prefix) is the caller's credential header when one
    is present, else the gateway's process-level credential when one is
    present, else the credential the model's entry holds in the in-memory
    table when the request arrives. *)
Theorem credential_priority `{Runtime}
    (post : Router.Outbound → Router.UpstreamReply) (env : Endpoints.ProcessEnv)
    (now : Z) (hdrs : gmap string string) (request : Router.ChatCompletionRequest)
    (ctx : AuthModels.AuthContext) (w w' : Endpoints.World)
    (res : result HTTPException Router.ChatCompletionResponse) (out : Router.Outbound) :
  Endpoints.chat_completions post env now hdrs request ctx w = (res, w') →
  Endpoints.sent w' = (Endpoints.sent w ++ [out])%list →
  let entry := Config.get_model_config (Endpoints.config w) (Router.model request) in
  let header_key := Endpoints.first_header hdrs Endpoints.api_key_header_names in
  let env_key := Endpoints.gateway_api_key env in
  let cfg_key := Endpoints.resolve_cfg_api_key env (Config.api_key entry) in
  let injected k :=
    Router.out_headers out !! default "Authorization" (Config.auth_header entry)
      = Some (Router.header_value (default "" (Config.auth_prefix entry)) k) in
  (∀ k, header_key = Some k → k ≠ "" → injected k) ∧
  (∀ k, Py.truthy_str header_key = false → env_key = Some k → k ≠ "" → injected k) ∧
  (∀ k, Py.truthy_str header_key = false → Py.truthy_str env_key = false →
        cfg_key = Some k → k ≠ "" → injected k).
Proof.
  intros Hrun Hsent entry header_key env_key cfg_key injected.
  destruct (chat_completions_sent _ _ _ _ _ _ _ _ _ _ Hrun Hsent) as [r Hroute].
  assert (∀ k, Endpoints.effective_api_key header_key env_key cfg_key = Some k →
               k ≠ "" → injected k) as Heff.
  { intros k Hk Hne. subst injected header_key env_key cfg_key entry. cbv beta.
    destruct (bind_api_key_entry env hdrs (Endpoints.config w) (Router.model request) k
                Hk Hne) as (Hkey & Hhdr & Hpre).
    rewrite <- Hhdr, <- Hpre.
    exact (route_request_injects post _ request ctx r out k Hroute Hkey Hne). }
  unfold Endpoints.effective_api_key, Py.or_str in Heff.
  split; [| split].
  - intros k Hk Hne. apply Heff; [| exact Hne].
    rewrite Hk, (truthy_str_some k Hne). reflexivity.
  - intros k Hh Hk Hne. apply Heff; [| exact Hne].
    rewrite Hh, Hk, (truthy_str_some k Hne). reflexivity.
  - intros k Hh He Hk Hne. apply Heff; [| exact Hne].
    rewrite Hh, He. exact Hk.
Qed.

Lemma credential_priority_witness :
  let run := @Endpoints.chat_completions Samples.ascii_runtime
               (Samples.answers Samples.completion_without_usage) Samples.gateway_env
               1000 Samples.caller_headers (Samples.hello "gpt-4") Samples.alice
               (Samples.world Samples.gpt4_config Samples.empty_redis) in
  ∃ out,
    Endpoints.sent (snd run) = [out] ∧
    Endpoints.first_header Samples.caller_headers Endpoints.api_key_header_names
      = Some "sk-caller" ∧
    Endpoints.gateway_api_key Samples.gateway_env = Some "sk-gateway" ∧
    Router.out_headers out !! "Authorization" = Some "Bearer sk-caller".
Proof.
  cbv zeta. eexists. split; [vm_compute; reflexivity |].
  split; [reflexivity |]. split; [reflexivity |].
  refine (proj1 (@credential_priority Samples.ascii_runtime
                   (Samples.answers Samples.completion_without_usage)
                   Samples.gateway_env 1000 Samples.caller_headers
                   (Samples.hello "gpt-4") Samples.alice
                   (Samples.world Samples.gpt4_config Samples.empty_redis)
                   _ _ _ (surjective_pairing _) _) "sk-caller" _ _);
    [vm_compute; reflexivity | reflexivity | discriminate].
Defined.

(** C9: the third source is not the statically configured credential once a
    caller has supplied one.  [gpt-4] is configured with the credential
    [sk-config].  A first request brings the header [x-api-key: sk-caller];
    a second request, by another user, brings no credential header while the
    gateway has no credential of its own.  The second request is forwarded
    with [Bearer sk-caller], the first caller's credential, not with the
    configured [Bearer sk-config]: the binding block wrote the first caller's
    credential into the shared table. *)
Lemma static_credential_replaced_by_caller_credential :
  let w := Samples.world Samples.gpt4_config Samples.empty_redis in
  let post := Samples.answers Samples.completion_without_usage in
  let run1 := @Endpoints.chat_completions Samples.ascii_runtime post Samples.empty_env
                1000 Samples.caller_headers (Samples.hello "gpt-4") Samples.alice w in
  let run2 := @Endpoints.chat_completions Samples.ascii_runtime post Samples.empty_env
                1001 Samples.no_headers (Samples.hello "gpt-4") Samples.admin_ctx
                (snd run1) in
  Config.api_key (Config.get_model_config (Endpoints.config w) "gpt-4")
    = Some "sk-config" ∧
  Endpoints.first_header Samples.no_headers Endpoints.api_key_header_names = None ∧
  Endpoints.gateway_api_key Samples.empty_env = None ∧
  Config.api_key (Config.get_model_config (Endpoints.config (snd run1)) "gpt-4")
    = Some "sk-caller" ∧
  ∃ out1 out2,
    Endpoints.sent (snd run2) = [out1; out2] ∧
    Router.out_headers out1 !! "Authorization" = Some "Bearer sk-caller" ∧
    Router.out_headers out2 !! "Authorization" = Some "Bearer sk-caller" ∧
    Router.out_headers out2 !! "Authorization" ≠ Some "Bearer sk-config".
Proof.
  cbv zeta. split; [reflexivity |]. split; [reflexivity |]. split; [reflexivity |].
  split; [vm_compute; reflexivity |].
  eexists _, _. split; [vm_compute; reflexivity |].
  split; [vm_compute; reflexivity |]. split; [vm_compute; reflexivity |].
  vm_compute. discriminate.
Qed.

(** Without a model entry and without a caller or gateway credential the
    binding block leaves the configuration alone. *)
Lemma bind_api_key_nothing (env : Endpoints.ProcessEnv) (hdrs : gmap string string)
    (cfg : Config.ModelConfig) (model_name : string) :
  Config.models cfg !! model_name = None →
  Py.truthy_str (Endpoints.first_header hdrs Endpoints.api_key_header_names) = false →
  Py.truthy_str (Endpoints.gateway_api_key env) = false →
  Endpoints.bind_api_key env hdrs cfg model_name = cfg.
Proof.
  intros Hnone Hh He. unfold Endpoints.bind_api_key, Config.get_model_config.
  rewrite Hnone. cbn [default id Config.api_key Config.empty_entry
                      Endpoints.resolve_cfg_api_key].
  unfold Endpoints.effective_api_key, Py.or_str. rewrite Hh, He. reflexivity.
Qed.

(** C1 (as amended): a request that names a model without a ModelEntry, that
    the access check admits and for which neither the caller nor the gateway
    supplies a credential, runs through the quota limiter before the model is
    looked up: the store is left as [check_rate_limit] leaves it, a 429 of the
    limiter is the result when it raises, and otherwise the result is the 404
    ModelNotFound of [route_request] with nothing sent upstream.  Against a
    reachable store with the counter below the limit, the counter of the
    request's key has been read and incremented when the 404 is raised. *)
Theorem unknown_model_fails_after_quota_check `{Runtime}
    (post : Router.Outbound → Router.UpstreamReply) (env : Endpoints.ProcessEnv)
    (now : Z) (hdrs : gmap string string) (request : Router.ChatCompletionRequest)
    (ctx : AuthModels.AuthContext) (w : Endpoints.World) :
  let model_name := Router.model request in
  let key := RateLimiter.rate_key model_name (AuthModels.user_id ctx) in
  let limit :=
    Config.get_rate_limits (Endpoints.config w) model_name (head (AuthModels.groups ctx)) in
  let current :=
    default 0 (RateLimiter.count <$> RateLimiter.db (Endpoints.redis w) !! key) in
  let chk := RateLimiter.check_rate_limit now (Endpoints.redis w) ctx model_name limit 60 in
  let run := Endpoints.chat_completions post env now hdrs request ctx w in
  Config.models (Endpoints.config w) !! model_name = None →
  Router.check_access (Endpoints.config w) ctx model_name = true →
  Py.truthy_str (Endpoints.first_header hdrs Endpoints.api_key_header_names) = false →
  Py.truthy_str (Endpoints.gateway_api_key env) = false →
  Endpoints.redis (snd run) = snd chk ∧
  Endpoints.sent (snd run) = Endpoints.sent w ∧
  (∀ e, fst chk = Err e → fst run = Err e) ∧
  (∀ ok, fst chk = Ok ok → fst run = Err (model_not_found model_name)) ∧
  (RateLimiter.reachable (Endpoints.redis w) = true → current < limit →
     fst run = Err (model_not_found model_name) ∧
     RateLimiter.executed (Endpoints.redis (snd run))
       = (RateLimiter.executed (Endpoints.redis w)
          ++ [RateLimiter.GET key; RateLimiter.INCR key; RateLimiter.EXPIRE key 60])%list ∧
     RateLimiter.db (Endpoints.redis (snd run)) !! key
       = Some {| RateLimiter.count := current + 1; RateLimiter.ttl := Some 60 |}).
Proof.
  intros model_name key limit current chk run Hnone Hacc Hh He.
  assert (run = match chk with
                | (Err e, r') =>
                    (Err e, {| Endpoints.config := Endpoints.config w;
                               Endpoints.redis := r';
                               Endpoints.sent := Endpoints.sent w |})
                | (Ok _, r') =>
                    (Err (model_not_found model_name),
                     {| Endpoints.config := Endpoints.config w;
                        Endpoints.redis := r';
                        Endpoints.sent := (Endpoints.sent w ++ [])%list |})
                end) as Hrun.
  { subst run. unfold Endpoints.chat_completions. fold model_name.
    rewrite Hacc. cbn [negb]. fold limit. fold chk.
    destruct chk as [[ok|e] r']; [| reflexivity].
    rewrite (bind_api_key_nothing env hdrs _ model_name Hnone Hh He).
    unfold Router.route_request, Config.get_model_config. fold model_name.
    rewrite Hnone. reflexivity. }
  assert (RateLimiter.reachable (Endpoints.redis w) = true → current < limit →
          chk = (Ok true,
                 RateLimiter.ran (Endpoints.redis w)
                   [RateLimiter.GET key; RateLimiter.INCR key; RateLimiter.EXPIRE key 60]
                   (RateLimiter.expire
                      (RateLimiter.incr (RateLimiter.db (Endpoints.redis w)) key) key 60)))
    as Hadm.
  { intros Hup Hlt. subst chk.
    apply (check_rate_limit_allowed now _ ctx model_name limit 60 Hup Hlt). }
  rewrite Hrun. split; [| split; [| split; [| split]]].
  - destruct chk as [[ok|e] r']; reflexivity.
  - destruct chk as [[ok|e] r']; cbn; [apply app_nil_r | reflexivity].
  - intros e Hchk. destruct chk as [[ok|e'] r']; cbn in *; congruence.
  - intros ok Hchk. destruct chk as [[ok'|e] r']; cbn in *; congruence.
  - intros Hup Hlt. rewrite (Hadm Hup Hlt). cbn.
    split; [reflexivity |]. split; [reflexivity |].
    rewrite expire_incr by lia. apply lookup_insert_eq.
Qed.

Lemma unknown_model_fails_after_quota_check_witness :
  let run := @Endpoints.chat_completions Samples.ascii_runtime
               (Samples.answers Samples.completion_without_usage) Samples.empty_env
               1000 Samples.no_headers (Samples.hello "gpt-x") Samples.alice
               (Samples.world Samples.empty_config Samples.empty_redis) in
  Config.models Samples.empty_config !! "gpt-x" = None ∧
  fst run = Err (model_not_found "gpt-x") ∧
  Endpoints.sent (snd run) = [].
Proof.
  cbv zeta. split; [reflexivity |].
  destruct (@unknown_model_fails_after_quota_check Samples.ascii_runtime
              (Samples.answers Samples.completion_without_usage) Samples.empty_env
              1000 Samples.no_headers (Samples.hello "gpt-x") Samples.alice
              (Samples.world Samples.empty_config Samples.empty_redis)
              eq_refl eq_refl eq_refl eq_refl) as (_ & Hsent & _ & Hok & _).
  split; [exact (Hok true eq_refl) | exact Hsent].
Defined.

(** C1 (as stated) fails: the request for [gpt-x], a model without entry, is
    answered with the 404, but by then the limiter has been reached: the
    counter of the request's key, absent before, has been read, incremented
    to 1 and given the 60 second expiry. *)
Lemma unknown_model_is_counted :
  let key := RateLimiter.rate_key "gpt-x" "alice" in
  let run := @Endpoints.chat_completions Samples.ascii_runtime
               (Samples.answers Samples.completion_without_usage) Samples.empty_env
               1000 Samples.no_headers (Samples.hello "gpt-x") Samples.alice
               (Samples.world Samples.empty_config Samples.empty_redis) in
  Config.models Samples.empty_config !! "gpt-x" = None ∧
  fst run = Err (model_not_found "gpt-x") ∧
  RateLimiter.db Samples.empty_redis !! key = None ∧
  RateLimiter.executed (Endpoints.redis (snd run))
    = [RateLimiter.GET key; RateLimiter.INCR key; RateLimiter.EXPIRE key 60] ∧
  RateLimiter.db (Endpoints.redis (snd run)) !! key
    = Some {| RateLimiter.count := 1; RateLimiter.ttl := Some 60 |}.
Proof.
  cbv zeta. split; [reflexivity |]. split; [vm_compute; reflexivity |].
  split; [reflexivity |]. split; vm_compute; reflexivity.
Qed.

(** ** The embedding at work *)

(** With limit 5 and window 60 the first five checks of a key pass and the
    sixth is refused with a retry-after of at most 60 seconds. *)
Example five_checks_pass_sixth_refused :
  fst (Samples.checks 6 Samples.empty_redis)
    = [Ok true; Ok true; Ok true; Ok true; Ok true;
       Err (RateLimiter.too_many_requests 1000 5 60)].
Proof. vm_compute. reflexivity. Qed.

(** The mask of a long secret keeps its last four characters. *)
Example mask_of_long_secret :
  Router._mask_key "sk-abcdef123456" = "***********3456" ∧
  Endpoints._mask_key "sk-abcdef123456" = "***********3456".
Proof. split; reflexivity. Qed.

(** An unexpired token of either path validates; the asymmetric path stores
    the fetched key set. *)
Example valid_tokens_accepted :
  (∃ c, @JwtHandler.validate_token Samples.ascii_runtime Samples.settings
          JwtHandler.FetchFailed 5000 Samples.fresh_handler (Samples.hs256_token 9000)
        = (Ok c, Samples.fresh_handler) ∧ AuthModels.sub c = "alice") ∧
  (∃ c, @JwtHandler.validate_token Samples.ascii_runtime Samples.settings
          (JwtHandler.Fetched Samples.jwks) 5000 Samples.fresh_handler
          (Samples.rs256_token 9000)
        = (Ok c, {| JwtHandler._jwks_cache := Some Samples.jwks;
                    JwtHandler._jwks_cache_time := 5000 |}) ∧
        AuthModels.sub c = "alice").
Proof. split; eexists; split; reflexivity. Qed.

(** An expired token of the symmetric path is refused with 401 even under a
    wrong signature. *)
Example expired_local_token_refused :
  fst (@JwtHandler.validate_token Samples.ascii_runtime Samples.settings
         JwtHandler.FetchFailed 5000 Samples.fresh_handler (Samples.hs256_token 100))
    = Err (JwtHandler.unauthorized InvalidToken) ∧
  fst (@JwtHandler.validate_token Samples.ascii_runtime Samples.settings
         JwtHandler.FetchFailed 5000 Samples.fresh_handler
         (JwtHandler.Jws {| JwtHandler.alg := Some "HS256"; JwtHandler.kid := None |}
            (λ _, false) (Some (Samples.local_payload 100))))
    = Err (JwtHandler.unauthorized TokenValidationError).
Proof. split; reflexivity. Qed.

(** Without a caller header the gateway's credential is forwarded, and
    without either the model's configured one. *)
Example credential_fallbacks :
  let run env :=
    @Endpoints.chat_completions Samples.ascii_runtime
      (Samples.answers Samples.completion_without_usage) env
      1000 Samples.no_headers (Samples.hello "gpt-4") Samples.alice
      (Samples.world Samples.gpt4_config Samples.empty_redis) in
  (λ o, Router.out_headers o !! "Authorization")
    <$> Endpoints.sent (snd (run Samples.gateway_env)) = [Some "Bearer sk-gateway"] ∧
  (λ o, Router.out_headers o !! "Authorization")
    <$> Endpoints.sent (snd (run Samples.empty_env)) = [Some "Bearer sk-config"].
Proof. split; vm_compute; reflexivity. Qed.

(** * Further properties of the embedded code *)

(** ** The quota limiter over several calls *)

Lemma check_rate_limit_keeps_reachable
    (now limit window : Z) (r : RateLimiter.Redis)
    (ctx : AuthModels.AuthContext) (model_name : string) :
  RateLimiter.reachable
    (snd (RateLimiter.check_rate_limit now r ctx model_name limit window))
  = RateLimiter.reachable r.
Proof.
  unfold RateLimiter.check_rate_limit, RateLimiter.redis_get, RateLimiter.redis_ttl,
    RateLimiter.pipe_execute.
  destruct (RateLimiter.reachable r) eqn:Hup; cbn; [| exact Hup].
  destruct (limit <=? _); cbn; rewrite Hup; cbn; exact Hup.
Qed.

(** A wait changes nothing but the times to live. *)
Lemma elapse_lookup (seconds : Z) (r : RateLimiter.Redis) (key : string) :
  RateLimiter.db (More.elapse seconds r) !! key =
    match RateLimiter.db r !! key with
    | Some c =>
        match RateLimiter.ttl c with
        | None => Some c
        | Some t =>
            if seconds <? t
            then Some {| RateLimiter.count := RateLimiter.count c;
                         RateLimiter.ttl := Some (t - seconds) |}
            else None
        end
    | None => None
    end.
Proof.
  unfold More.elapse. cbn [RateLimiter.db]. rewrite lookup_omap.
  destruct (RateLimiter.db r !! key); reflexivity.
Qed.

(** The counter right after an allowed check and a wait of [gap] seconds. *)
Lemma allowed_then_wait (now limit window gap : Z) (r : RateLimiter.Redis)
    (ctx : AuthModels.AuthContext) (model_name : string) :
  let key := RateLimiter.rate_key model_name (AuthModels.user_id ctx) in
  let current := default 0 (RateLimiter.count <$> RateLimiter.db r !! key) in
  RateLimiter.reachable r = true → 0 < window → current < limit →
  let r1 := snd (RateLimiter.check_rate_limit now r ctx model_name limit window) in
  fst (RateLimiter.check_rate_limit now r ctx model_name limit window) = Ok true ∧
  RateLimiter.reachable (More.elapse gap r1) = true ∧
  RateLimiter.db (More.elapse gap r1) !! key =
    if gap <? window
    then Some {| RateLimiter.count := current + 1; RateLimiter.ttl := Some (window - gap) |}
    else None.
Proof.
  intros key current Hup Hw Hlt r1. subst r1.
  pose proof (check_rate_limit_allowed now r ctx model_name limit window Hup Hlt) as Hone.
  fold key in Hone. rewrite Hone. cbn [fst snd].
  split; [reflexivity |]. split; [exact Hup |].
  rewrite elapse_lookup. cbn [RateLimiter.db RateLimiter.ran].
  rewrite expire_incr by exact Hw. rewrite lookup_insert_eq. reflexivity.
Qed.

(** Checks that fit under the limit and are less than a window apart all
    pass and leave the counter one higher each. *)
Lemma check_many_allowed (gaps : list Z) (now limit window : Z) (r : RateLimiter.Redis)
    (ctx : AuthModels.AuthContext) (model_name : string) :
  let key := RateLimiter.rate_key model_name (AuthModels.user_id ctx) in
  let current := default 0 (RateLimiter.count <$> RateLimiter.db r !! key) in
  RateLimiter.reachable r = true → 0 < window →
  Forall (λ gap, 0 ≤ gap < window) gaps →
  current + Z.of_nat (length gaps) ≤ limit →
  let run := More.check_many gaps now r ctx model_name limit window in
  fst (fst run) = replicate (length gaps) (Ok true) ∧
  RateLimiter.reachable (snd (fst run)) = true ∧
  default 0 (RateLimiter.count <$> RateLimiter.db (snd (fst run)) !! key)
    = current + Z.of_nat (length gaps) ∧
  snd run = now + foldr Z.add 0 gaps.
Proof.
  revert now r. induction gaps as [|gap gaps IH]; intros now r key current Hup Hw Hgaps Hfit run.
  - subst run. cbn. repeat split; [exact Hup | lia | lia].
  - subst run. cbn [More.check_many length] in *.
    apply Forall_cons in Hgaps as [Hgap Hgaps].
    assert (current < limit) as Hlt by lia.
    destruct (allowed_then_wait now limit window gap r ctx model_name Hup Hw Hlt)
      as (Hres & Hup1 & Hdb).
    fold key current in Hdb.
    destruct (RateLimiter.check_rate_limit now r ctx model_name limit window)
      as [res r1]. cbn [fst snd] in Hres, Hup1, Hdb. subst res.
    destruct (Z.ltb_spec gap window) as [_|]; [| lia].
    specialize (IH (now + gap) (More.elapse gap r1)). cbv zeta in IH.
    fold key in IH. rewrite Hdb in IH.
    cbn [fmap option_fmap option_map default id RateLimiter.count] in IH.
    specialize (IH Hup1 Hw Hgaps ltac:(lia)).
    destruct IH as (Hrest & Hup2 & Hcount & Htime).
    destruct (More.check_many gaps (now + gap) (More.elapse gap r1) ctx model_name
                limit window) as [[rest r2] t].
    cbn [fst snd foldr replicate] in *. subst rest.
    repeat split; [exact Hup2 | lia | lia].
Qed.

(** A run over two lists of waits is the run over the first followed by the
    run over the second. *)
Lemma check_many_app (gaps gaps' : list Z) (now limit window : Z) (r : RateLimiter.Redis)
    (ctx : AuthModels.AuthContext) (model_name : string) :
  More.check_many (gaps ++ gaps') now r ctx model_name limit window =
    let '(res, r1, t1) := More.check_many gaps now r ctx model_name limit window in
    let '(res', r2, t2) := More.check_many gaps' t1 r1 ctx model_name limit window in
    ((res ++ res')%list, r2, t2).
Proof.
  revert now r. induction gaps as [|gap gaps IH]; intros now r.
  - cbn. destruct (More.check_many gaps' now r ctx model_name limit window) as [[? ?] ?].
    reflexivity.
  - cbn [app More.check_many].
    destruct (RateLimiter.check_rate_limit now r ctx model_name limit window) as [res r1].
    rewrite IH.
    destruct (More.check_many gaps (now + gap) (More.elapse gap r1) ctx model_name
                limit window) as [[rest r2] t].
    destruct (More.check_many gaps' t r2 ctx model_name limit window) as [[rest' r3] t'].
    reflexivity.
Qed.

(** X1: against a reachable store, with a positive window and a counter below
    the limit, calls for the same user and model that follow one another
    after waits shorter than the window are let through exactly
    [limit - current] times.  The call that comes [g] seconds after the last
    of them is refused with the 429 exception whose retry-after is the window
    less [g], and leaves the database as it was, when [g] is shorter than the
    window; when [g] is the window or more the counter has expired and the
    call is let through again (for a positive limit). *)
Theorem quota_is_exhausted_after_limit_checks
    (now limit window g : Z) (between : list Z) (r : RateLimiter.Redis)
    (ctx : AuthModels.AuthContext) (model_name : string) :
  let key := RateLimiter.rate_key model_name (AuthModels.user_id ctx) in
  let current := default 0 (RateLimiter.count <$> RateLimiter.db r !! key) in
  RateLimiter.reachable r = true → 0 < window → current < limit →
  Forall (λ gap, 0 ≤ gap < window) between → 0 ≤ g →
  current + Z.of_nat (length between) + 1 = limit →
  let run := More.check_many (between ++ [g]) now r ctx model_name limit window in
  let next :=
    RateLimiter.check_rate_limit (snd run) (snd (fst run)) ctx model_name limit window in
  fst (fst run) = replicate (S (length between)) (Ok true) ∧
  snd run = now + foldr Z.add 0 between + g ∧
  (g < window →
     fst next = Err (RateLimiter.too_many_requests (snd run) limit (window - g)) ∧
     RateLimiter.db (snd next) = RateLimiter.db (snd (fst run))) ∧
  (window ≤ g → 0 < limit → fst next = Ok true).
Proof.
  intros key current Hup Hw Hlt Hbetween Hg Hlen run next.
  destruct (check_many_allowed between now limit window r ctx model_name Hup Hw Hbetween)
    as (Hres & Hup1 & Hcount & Htime).
  { fold key. fold current. lia. }
  fold key current in Hcount.
  subst next run. rewrite check_many_app.
  destruct (More.check_many between now r ctx model_name limit window) as [[res r1] t1].
  cbn [fst snd] in Hres, Hup1, Hcount, Htime. subst res t1.
  cbn [More.check_many].
  destruct (allowed_then_wait (now + foldr Z.add 0 between) limit window g r1 ctx
              model_name Hup1 Hw) as (Hlast & Hup2 & Hdb).
  { fold key. lia. }
  fold key in Hdb. rewrite Hcount in Hdb.
  destruct (RateLimiter.check_rate_limit (now + foldr Z.add 0 between) r1 ctx model_name
              limit window) as [res r2].
  cbn [fst snd] in Hlast, Hup2, Hdb |- *. subst res.
  split.
  { rewrite <- (Nat.add_1_r (length between)), replicate_add. reflexivity. }
  split; [reflexivity |].
  split.
  - intros Hshort. destruct (Z.ltb_spec g window) as [_|]; [| lia].
    rewrite (check_rate_limit_exceeded _ (More.elapse g r2) ctx model_name limit window
               Hup2).
    + fold key. rewrite Hdb. cbn [fst snd RateLimiter.ttl default id RateLimiter.ran
                                  RateLimiter.db].
      split; reflexivity.
    + fold key. rewrite Hdb. cbn. lia.
  - intros Hlong Hpos. destruct (Z.ltb_spec g window) as [|_]; [lia |].
    rewrite (check_rate_limit_allowed _ (More.elapse g r2) ctx model_name limit window
               Hup2); [reflexivity |].
    fold key. rewrite Hdb. cbn. exact Hpos.
Qed.

Lemma quota_is_exhausted_after_limit_checks_witness :
  let run := More.check_many [10; 59; 0; 20] 1000 Samples.warm_redis Samples.alice
               "gpt-4" 5 60 in
  RateLimiter.reachable Samples.warm_redis = true ∧ 0 < 60 ∧
  Forall (λ gap, 0 ≤ gap < 60) [10; 59; 0] ∧
  fst (fst run) = [Ok true; Ok true; Ok true; Ok true] ∧
  snd run = 1089 ∧
  fst (RateLimiter.check_rate_limit 1089 (snd (fst run)) Samples.alice "gpt-4" 5 60)
    = Err (RateLimiter.too_many_requests 1089 5 40).
Proof.
  cbv zeta.
  assert (Forall (λ gap, 0 ≤ gap < 60) [10; 59; 0]) as Hgaps.
  { repeat (apply Forall_cons; split; [lia |]). apply Forall_nil. exact I. }
  split; [reflexivity |]. split; [lia |]. split; [exact Hgaps |].
  destruct (quota_is_exhausted_after_limit_checks 1000 5 60 20 [10; 59; 0]
              Samples.warm_redis Samples.alice "gpt-4" eq_refl)
    as (Hrun & Htime & Hnext & _);
    [lia | vm_compute; reflexivity | exact Hgaps | lia | vm_compute; reflexivity |].
  split; [exact Hrun |]. split; [exact Htime |].
  exact (proj1 (Hnext ltac:(lia))).
Defined.

(** A check leaves every key but its own as it was. *)
Lemma check_rate_limit_other_key
    (now limit window : Z) (r : RateLimiter.Redis)
    (ctx : AuthModels.AuthContext) (model_name other : string) :
  other ≠ RateLimiter.rate_key model_name (AuthModels.user_id ctx) →
  RateLimiter.db (snd (RateLimiter.check_rate_limit now r ctx model_name limit window))
    !! other = RateLimiter.db r !! other.
Proof.
  intros Hne.
  unfold RateLimiter.check_rate_limit, RateLimiter.redis_get, RateLimiter.redis_ttl,
    RateLimiter.pipe_execute.
  destruct (RateLimiter.reachable r) eqn:Hup; cbn; [| reflexivity].
  destruct (limit <=? _); cbn; rewrite Hup; cbn; [reflexivity |].
  set (key := RateLimiter.rate_key model_name (AuthModels.user_id ctx)) in *.
  assert (RateLimiter.incr (RateLimiter.db r) key !! other = RateLimiter.db r !! other)
    as Hincr.
  { unfold RateLimiter.incr. destruct (RateLimiter.db r !! key);
      apply lookup_insert_ne; congruence. }
  unfold RateLimiter.expire.
  destruct (RateLimiter.incr (RateLimiter.db r) key !! key); [| exact Hincr].
  destruct (window <=? 0).
  - rewrite lookup_delete_ne by congruence. exact Hincr.
  - rewrite lookup_insert_ne by congruence. exact Hincr.
Qed.

(** The commands a check sends all name its own key. *)
Lemma check_rate_limit_commands
    (now limit window : Z) (r : RateLimiter.Redis)
    (ctx : AuthModels.AuthContext) (model_name : string) :
  let key := RateLimiter.rate_key model_name (AuthModels.user_id ctx) in
  ∃ cmds,
    RateLimiter.executed
      (snd (RateLimiter.check_rate_limit now r ctx model_name limit window))
    = (RateLimiter.executed r ++ cmds)%list ∧
    Forall (λ cmd, cmd = RateLimiter.GET key ∨ cmd = RateLimiter.TTL key ∨
                   cmd = RateLimiter.INCR key ∨ cmd = RateLimiter.EXPIRE key window) cmds.
Proof.
  intros key.
  unfold RateLimiter.check_rate_limit, RateLimiter.redis_get, RateLimiter.redis_ttl,
    RateLimiter.pipe_execute.
  fold key.
  destruct (RateLimiter.reachable r) eqn:Hup; cbn.
  - destruct (limit <=? _); cbn; rewrite Hup; cbn; rewrite <- app_assoc; cbn.
    + exists [RateLimiter.GET key; RateLimiter.TTL key].
      split; [reflexivity |].
      repeat (apply Forall_cons; split; [auto 6 |]). apply Forall_nil. exact I.
    + exists [RateLimiter.GET key; RateLimiter.INCR key; RateLimiter.EXPIRE key window].
      split; [reflexivity |].
      repeat (apply Forall_cons; split; [auto 6 |]). apply Forall_nil. exact I.
  - exists []. split; [rewrite app_nil_r; reflexivity | constructor].
Qed.

(** X2: a check reads and writes the counter of its own key only: every other
    key of the store is left as it was, whatever the outcome of the check, and
    every command the check sends to the store names its own key. *)
Theorem check_rate_limit_touches_only_its_key
    (now limit window : Z) (r : RateLimiter.Redis)
    (ctx : AuthModels.AuthContext) (model_name other : string) :
  let key := RateLimiter.rate_key model_name (AuthModels.user_id ctx) in
  let r' := snd (RateLimiter.check_rate_limit now r ctx model_name limit window) in
  other ≠ key →
  RateLimiter.db r' !! other = RateLimiter.db r !! other ∧
  ∃ cmds,
    RateLimiter.executed r' = (RateLimiter.executed r ++ cmds)%list ∧
    Forall (λ cmd, cmd = RateLimiter.GET key ∨ cmd = RateLimiter.TTL key ∨
                   cmd = RateLimiter.INCR key ∨ cmd = RateLimiter.EXPIRE key window) cmds.
Proof.
  intros key r' Hne. split.
  - apply check_rate_limit_other_key. exact Hne.
  - apply check_rate_limit_commands.
Qed.

Lemma check_rate_limit_touches_only_its_key_witness :
  Samples.alice_key ≠ RateLimiter.rate_key "gpt-3" "alice" ∧
  RateLimiter.db
    (snd (RateLimiter.check_rate_limit 1000 Samples.warm_redis Samples.alice "gpt-3" 5 60))
    !! Samples.alice_key = RateLimiter.db Samples.warm_redis !! Samples.alice_key.
Proof.
  split; [discriminate |].
  apply (check_rate_limit_touches_only_its_key 1000 5 60 Samples.warm_redis
           Samples.alice "gpt-3" Samples.alice_key).
  discriminate.
Defined.

(** X3: the status query never writes to the store; the reset time it reports
    is never before now, the remaining quota it reports is never below
    [limit - used], and it is not negative for a non-negative limit. *)
Theorem get_rate_limit_status_is_read_only
    (now limit : Z) (r : RateLimiter.Redis)
    (ctx : AuthModels.AuthContext) (model_name : string) :
  let res := RateLimiter.get_rate_limit_status now r ctx model_name limit in
  RateLimiter.db (snd res) = RateLimiter.db r ∧
  now ≤ RateLimiter.st_reset (fst res) ∧
  limit - RateLimiter.st_used (fst res) ≤ RateLimiter.st_remaining (fst res) ∧
  (0 ≤ limit → 0 ≤ RateLimiter.st_remaining (fst res)).
Proof.
  cbv zeta.
  unfold RateLimiter.get_rate_limit_status, RateLimiter.redis_get, RateLimiter.redis_ttl.
  destruct (RateLimiter.reachable r) eqn:Hup; cbn.
  - rewrite Hup. cbn. repeat split; lia.
  - repeat split; lia.
Qed.

(** X4: right after a check that was let through, the status query for the
    same key reports one more request used, [limit - used] remaining and the
    end of a full window as reset time. *)
Theorem status_after_allowed_check
    (now limit window : Z) (r : RateLimiter.Redis)
    (ctx : AuthModels.AuthContext) (model_name : string) :
  let key := RateLimiter.rate_key model_name (AuthModels.user_id ctx) in
  let current := default 0 (RateLimiter.count <$> RateLimiter.db r !! key) in
  RateLimiter.reachable r = true → 0 < window → current < limit →
  let r' := snd (RateLimiter.check_rate_limit now r ctx model_name limit window) in
  let st := fst (RateLimiter.get_rate_limit_status now r' ctx model_name limit) in
  RateLimiter.st_used st = current + 1 ∧
  RateLimiter.st_remaining st = limit - (current + 1) ∧
  RateLimiter.st_reset st = now + window.
Proof.
  intros key current Hup Hw Hlt r' st. subst st r'.
  rewrite (check_rate_limit_allowed now r ctx model_name limit window Hup Hlt).
  fold key. cbn [snd].
  unfold RateLimiter.get_rate_limit_status, RateLimiter.redis_get, RateLimiter.redis_ttl.
  cbn. rewrite Hup. cbn. fold key. rewrite expire_incr by exact Hw.
  rewrite lookup_insert_eq. cbn. rewrite Hup. cbn. fold current. repeat split; lia.
Qed.

Lemma status_after_allowed_check_witness :
  let r' := snd (RateLimiter.check_rate_limit 1000 Samples.warm_redis Samples.alice
                   "gpt-4" 5 60) in
  let st := fst (RateLimiter.get_rate_limit_status 1000 r' Samples.alice "gpt-4" 5) in
  RateLimiter.reachable Samples.warm_redis = true ∧ 0 < 60 ∧
  RateLimiter.st_used st = 2 ∧ RateLimiter.st_remaining st = 3 ∧
  RateLimiter.st_reset st = 1060.
Proof.
  cbv zeta. split; [reflexivity |]. split; [lia |].
  apply (status_after_allowed_check 1000 5 60 Samples.warm_redis Samples.alice "gpt-4");
    [reflexivity | lia | vm_compute; reflexivity].
Defined.

(** ** Quota keys *)

Lemma split_at_first_colon (m m' u u' : string) :
  More.has_char ":" m = false → More.has_char ":" m' = false →
  m +:+ String ":" u = m' +:+ String ":" u' → m = m' ∧ u = u'.
Proof.
  revert m'. induction m as [|c m IH]; intros [|c' m'] Hm Hm' Heq; cbn in *.
  - injection Heq as ->. auto.
  - injection Heq as <- _. rewrite Ascii.eqb_refl in Hm'. discriminate.
  - injection Heq as -> _. rewrite Ascii.eqb_refl in Hm. discriminate.
  - injection Heq as -> Heq.
    apply orb_false_iff in Hm as [_ Hm]. apply orb_false_iff in Hm' as [_ Hm'].
    destruct (IH m' Hm Hm' Heq) as [-> ->]. auto.
Qed.

(** X5: for model names without a colon, two quota keys coincide only for the
    same model and the same user: distinct (model, user) pairs never share a
    counter. *)
Theorem rate_key_injective (m m' u u' : string) :
  More.has_char ":" m = false → More.has_char ":" m' = false →
  RateLimiter.rate_key m u = RateLimiter.rate_key m' u' → m = m' ∧ u = u'.
Proof.
  intros Hm Hm' Heq. unfold RateLimiter.rate_key in Heq. cbn in Heq.
  injection Heq as Heq. exact (split_at_first_colon m m' u u' Hm Hm' Heq).
Qed.

Lemma rate_key_injective_witness :
  More.has_char ":" "gpt-4" = false ∧
  RateLimiter.rate_key "gpt-4" "alice" = RateLimiter.rate_key "gpt-4" "alice" ∧
  ("gpt-4" = "gpt-4" ∧ "alice" = "alice").
Proof.
  split; [reflexivity |]. split; [reflexivity |].
  apply (rate_key_injective "gpt-4" "gpt-4" "alice" "alice"); reflexivity.
Defined.

(** With a colon in the model name the keys of different pairs can collide. *)
Example rate_key_collision :
  RateLimiter.rate_key "openai:gpt" "alice" = RateLimiter.rate_key "openai" "gpt:alice".
Proof. reflexivity. Qed.

(** ** The two masking helpers on every secret *)

Lemma str_append_length (a b : string) :
  String.length (a +:+ b) = (String.length a + String.length b)%nat.
Proof.
  induction a as [|c a IH]; [reflexivity |].
  change (S (String.length (a +:+ b)) = S (String.length a + String.length b)).
  rewrite IH. reflexivity.
Qed.

Lemma repeat_star_length (n : nat) : String.length (Py.repeat_nat "*" n) = n.
Proof.
  induction n as [|n IH]; [reflexivity |].
  change (S (String.length (Py.repeat_nat "*" n)) = S n). rewrite IH. reflexivity.
Qed.

Lemma str_drop_length (n : nat) (s : string) :
  String.length (Py.str_drop n s) = (String.length s - n)%nat.
Proof.
  revert s. induction n as [|n IH]; intros [|c s]; cbn [Py.str_drop String.length].
  - reflexivity.
  - reflexivity.
  - reflexivity.
  - rewrite IH. reflexivity.
Qed.

Lemma str_drop_split (n : nat) (s : string) :
  ∃ pre, s = pre +:+ Py.str_drop n s ∧ String.length pre = Nat.min n (String.length s).
Proof.
  revert s. induction n as [|n IH]; intros s.
  - exists "". split; reflexivity.
  - destruct s as [|c s].
    + exists "". split; reflexivity.
    + destruct (IH s) as (pre & Hs & Hlen). exists (String c pre). split.
      * change (String c s = String c (pre +:+ Py.str_drop n s)). congruence.
      * cbn [String.length]. lia.
Qed.

(** X6: the masking helper of the router and the one of the endpoints return
    the same mask for every secret. *)
Theorem mask_key_helpers_agree (k : string) : Router._mask_key k = Endpoints._mask_key k.
Proof.
  unfold Router._mask_key, Endpoints._mask_key.
  destruct (String.eqb k ""); [reflexivity |].
  destruct (Z.leb_spec (Py.len k) 6), (Z.ltb_spec 6 (Py.len k)); try lia; reflexivity.
Qed.

(** X7: the mask of a secret splits the secret in a hidden front and a shown
    rest: the shown rest is the last 2 characters for a secret of at most 6
    characters and the last 4 for a longer one (the whole secret when it is
    shorter than that), and the hidden front is replaced star for star, so the
    mask is as long as the secret. *)
Theorem mask_key_shape (k : string) :
  let visible := if (String.length k <=? 6)%nat then 2%nat else 4%nat in
  ∃ hidden shown,
    k = hidden +:+ shown ∧
    String.length shown = Nat.min visible (String.length k) ∧
    Router._mask_key k = Py.repeat_nat "*" (String.length hidden) +:+ shown ∧
    String.length (Router._mask_key k) = String.length k.
Proof.
  intros visible.
  enough (∃ hidden shown,
            k = hidden +:+ shown ∧
            String.length shown = Nat.min visible (String.length k) ∧
            Router._mask_key k = Py.repeat_nat "*" (String.length hidden) +:+ shown)
    as (hidden & shown & Hk & Hshown & Hmask).
  { exists hidden, shown. repeat split; try assumption.
    rewrite Hmask, str_append_length, repeat_star_length, Hk at 1.
    rewrite str_append_length. reflexivity. }
  unfold Router._mask_key.
  destruct k as [|c k'] eqn:Hk; [exists "", ""; repeat split |].
  rewrite <- Hk. assert (String.eqb k "" = false) as ->.
  { apply String.eqb_neq. rewrite Hk. discriminate. }
  assert (visible = if (String.length k <=? 6)%nat then 2%nat else 4%nat) as Hv
    by (rewrite Hk; reflexivity).
  clearbody visible. clear Hk c k'. cbv zeta.
  set (v := if Py.len k <=? 6 then 2 else 4).
  assert (v = Z.of_nat visible) as Hvz.
  { subst v. rewrite Hv. unfold Py.len.
    destruct (Z.leb_spec (Z.of_nat (String.length k)) 6),
      (Nat.leb_spec (String.length k) 6); lia. }
  assert (0 < v) as Hpos by (subst v; destruct (_ <=? _); lia).
  unfold Py.slice_from, Py.str_mul.
  destruct (Z.ltb_spec (- v) 0); [| lia].
  set (n := Z.to_nat (Z.max 0 (Py.len k + - v))).
  destruct (str_drop_split n k) as (hidden & Hsplit & Hlen).
  exists hidden, (Py.str_drop n k).
  assert (n = (String.length k - visible)%nat) as Hn.
  { subst n. unfold Py.len. lia. }
  split; [exact Hsplit |]. split.
  - rewrite str_drop_length. lia.
  - f_equal. f_equal. unfold Py.len. lia.
Qed.

(** ** The signing-key cache and the validator *)

(** X8: a key set fetched because the cache was empty or stale is served
    from the cache for the next hour without contacting the remote endpoint,
    whatever that endpoint would answer, provided the fetched document is
    truthy; a falsy document (an empty object) is stored but never served, so
    the next call fetches again. *)
Theorem fetched_key_set_is_cached
    (t t' : Z) (h : JwtHandler.JWTHandler) (body : Py.json)
    (fetch' : JwtHandler.FetchOutcome) :
  (JwtHandler._jwks_cache h = None ∨
   JwtHandler._jwks_cache_ttl ≤ t - JwtHandler._jwks_cache_time h) →
  t' - t < JwtHandler._jwks_cache_ttl →
  let h1 := snd (JwtHandler._fetch_jwks (JwtHandler.Fetched body) t h) in
  fst (JwtHandler._fetch_jwks (JwtHandler.Fetched body) t h) = Ok body ∧
  (Py.truthy body = true → JwtHandler._fetch_jwks fetch' t' h1 = (Ok body, h1)) ∧
  (Py.truthy body = false →
     JwtHandler._fetch_jwks JwtHandler.FetchFailed t' h1 = (Err Other, h1)).
Proof.
  intros Hold Hsoon h1.
  assert (JwtHandler._fetch_jwks (JwtHandler.Fetched body) t h
          = (Ok body, {| JwtHandler._jwks_cache := Some body;
                         JwtHandler._jwks_cache_time := t |})) as Hfirst.
  { unfold JwtHandler._fetch_jwks.
    destruct (JwtHandler._jwks_cache h) as [cached|]; [| reflexivity].
    destruct Hold as [Hnone | Hstale]; [discriminate |].
    destruct (Z.ltb_spec (t - JwtHandler._jwks_cache_time h) JwtHandler._jwks_cache_ttl);
      [lia |].
    rewrite andb_false_r. reflexivity. }
  subst h1. rewrite Hfirst. cbn [fst snd]. split; [reflexivity |].
  unfold JwtHandler._fetch_jwks. cbn.
  split; intros ->; [| reflexivity].
  destruct (Z.ltb_spec (t' - t) JwtHandler._jwks_cache_ttl); [reflexivity | lia].
Qed.

Lemma fetched_key_set_is_cached_witness :
  let h1 := snd (JwtHandler._fetch_jwks (JwtHandler.Fetched Samples.jwks) 5000
                   Samples.cached_handler) in
  JwtHandler._jwks_cache_ttl ≤ 5000 - JwtHandler._jwks_cache_time Samples.cached_handler ∧
  6000 - 5000 < JwtHandler._jwks_cache_ttl ∧
  JwtHandler._fetch_jwks JwtHandler.FetchFailed 6000 h1 = (Ok Samples.jwks, h1).
Proof.
  cbv zeta. split; [vm_compute; discriminate |]. split; [vm_compute; reflexivity |].
  apply (fetched_key_set_is_cached 5000 6000 Samples.cached_handler Samples.jwks
           JwtHandler.FetchFailed);
    [right; vm_compute; discriminate | vm_compute; reflexivity | reflexivity].
Defined.

(** What a successful [jose] decode establishes. *)
Lemma jwt_decode_ok (now : Z) (tok : JwtHandler.Token) (key algorithm : string)
    (audience issuer : option string) (p : AuthModels.Payload) :
  JwtHandler.jwt_decode now tok key algorithm audience issuer = Ok p →
  ∃ hdr verifies,
    tok = JwtHandler.Jws hdr verifies (Some p) ∧
    JwtHandler.alg hdr = Some algorithm ∧
    verifies key = true ∧
    (∀ e, AuthModels.p_exp p = Some e → now ≤ e) ∧
    (∀ n, AuthModels.p_nbf p = Some n → n ≤ now) ∧
    (∀ a, AuthModels.p_aud p = Some a → audience = Some a) ∧
    (∀ i, issuer = Some i → AuthModels.p_iss p = Some i).
Proof.
  unfold JwtHandler.jwt_decode.
  destruct tok as [| |hdr verifies [p'|]]; try discriminate.
  destruct (bool_decide (JwtHandler.alg hdr = Some algorithm)) eqn:Halg;
    [| discriminate]. apply bool_decide_eq_true in Halg. cbn [negb].
  destruct (verifies key) eqn:Hsig; [| discriminate]. cbn [negb].
  destruct (AuthModels.p_nbf p') as [n|] eqn:Hnbf.
  all: try (destruct (Z.ltb_spec now n); [discriminate |]).
  all: destruct (AuthModels.p_exp p') as [e|] eqn:Hexp.
  all: try (destruct (Z.ltb_spec e now); [discriminate |]).
  all: destruct (AuthModels.p_aud p') as [a|] eqn:Haud.
  all: try (destruct (bool_decide (audience = Some a)) eqn:Ha; [| discriminate];
            apply bool_decide_eq_true in Ha; cbn [negb]).
  all: destruct issuer as [i|].
  all: try (destruct (bool_decide (AuthModels.p_iss p' = Some i)) eqn:Hi; [| discriminate];
            apply bool_decide_eq_true in Hi; cbn [negb]).
  all: intros Heq; injection Heq as <-; exists hdr, verifies.
  all: rewrite ?Hnbf, ?Hexp, ?Haud.
  all: repeat split; try assumption; intros x Hx; try discriminate Hx;
    try (injection Hx as <-); try assumption; try lia.
Qed.

(** The claims built from a payload carry the payload's values. *)
Lemma claims_of_payload_fields (p : AuthModels.Payload) (c : AuthModels.TokenClaims) :
  AuthModels.TokenClaims_of_payload p = Some c →
  AuthModels.p_exp p = Some (AuthModels.exp c) ∧
  AuthModels.p_nbf p = AuthModels.nbf c ∧
  AuthModels.p_iss p = AuthModels.iss c ∧
  AuthModels.p_aud p = AuthModels.aud c.
Proof.
  intros Hc. unfold AuthModels.TokenClaims_of_payload in Hc.
  destruct (AuthModels.p_sub p), (AuthModels.p_exp p), (AuthModels.p_iat p);
    try discriminate. injection Hc as <-. cbn. auto.
Qed.

(** X9: the validator returns claims only for a token whose signature
    verifies, which has not expired and is already valid, and the claims are
    those of its payload.  On the symmetric path the signature verifies under
    the gateway's secret and the handler is untouched; on the asymmetric path
    it verifies under a key that [get_signing_key] found in the obtained key
    set, the issuer is the configured one and an audience claim, if any, is
    the configured audience. *)
Theorem validate_token_sound `{Runtime}
    (s : JwtHandler.Settings) (fetch : JwtHandler.FetchOutcome) (now : Z)
    (h h' : JwtHandler.JWTHandler) (tok : JwtHandler.Token) (c : AuthModels.TokenClaims) :
  JwtHandler.validate_token s fetch now h tok = (Ok c, h') →
  ∃ hdr verifies p,
    tok = JwtHandler.Jws hdr verifies (Some p) ∧
    AuthModels.TokenClaims_of_payload p = Some c ∧
    now ≤ AuthModels.exp c ∧
    (∀ n, AuthModels.nbf c = Some n → n ≤ now) ∧
    ((JwtHandler.alg hdr = Some "HS256" ∧
      verifies (JwtHandler.jwt_secret_key s) = true ∧ h' = h) ∨
     (JwtHandler.alg hdr = Some "RS256" ∧
      AuthModels.iss c = Some (JwtHandler.issuer s) ∧
      (∀ a, AuthModels.aud c = Some a → a = JwtHandler.audience s) ∧
      ∃ jwks key,
        JwtHandler._fetch_jwks fetch now h = (Ok jwks, h') ∧
        JwtHandler.get_signing_key tok jwks = Ok (Some key) ∧
        verifies key = true)).
Proof.
  unfold JwtHandler.validate_token, JwtHandler.try_validate.
  pose proof (λ p, claims_of_payload_fields p c) as Hfields.
  destruct tok as [| |hdr verifies body]; [discriminate | |].
  { cbn [JwtHandler._is_local_token].
    destruct (JwtHandler._fetch_jwks fetch now h) as [[jwks|e] h1]; [| discriminate].
    cbn. discriminate. }
  destruct (JwtHandler._is_local_token _) eqn:Hlocal.
  - destruct (JwtHandler.jwt_decode _ _ _ _ _ _) as [p|e] eqn:Hdec; [| discriminate].
    destruct (AuthModels.TokenClaims_of_payload p) as [c'|] eqn:Hc; [| discriminate].
    intros Heq. injection Heq as -> <-.
    apply jwt_decode_ok in Hdec
      as (hdr' & verifies' & Htok & Halg & Hsig & Hexp & Hnbf & _ & _).
    injection Htok as <- <- ->.
    destruct (Hfields p Hc) as (Hpe & Hpn & _ & _).
    exists hdr, verifies, p. split; [reflexivity |]. split; [exact Hc |].
    split; [apply Hexp; exact Hpe |].
    split; [intros n Hn; apply Hnbf; congruence |].
    left. auto.
  - destruct (JwtHandler._fetch_jwks fetch now h) as [[jwks|e] h1] eqn:Hfetch;
      [| discriminate].
    destruct (JwtHandler.get_signing_key _ jwks) as [signing_key|e] eqn:Hget;
      [| discriminate].
    destruct signing_key as [key|]; [| discriminate].
    destruct (negb (Py.truthy_str (Some key))); [discriminate |].
    cbn [default id].
    destruct (JwtHandler.jwt_decode _ _ _ _ _ _) as [p|e] eqn:Hdec; [| discriminate].
    destruct (AuthModels.TokenClaims_of_payload p) as [c'|] eqn:Hc; [| discriminate].
    intros Heq. injection Heq as -> <-.
    apply jwt_decode_ok in Hdec
      as (hdr' & verifies' & Htok & Halg & Hsig & Hexp & Hnbf & Haud & Hiss).
    injection Htok as <- <- ->.
    destruct (Hfields p Hc) as (Hpe & Hpn & Hpi & Hpa).
    exists hdr, verifies, p. split; [reflexivity |]. split; [exact Hc |].
    split; [apply Hexp; exact Hpe |].
    split; [intros n Hn; apply Hnbf; congruence |].
    right. split; [exact Halg |].
    split; [rewrite <- Hpi; apply Hiss; reflexivity |].
    split.
    + intros a Ha. rewrite <- Hpa in Ha. specialize (Haud a Ha). congruence.
    + exists jwks, key. auto.
Qed.

Lemma validate_token_sound_witness :
  ∃ c,
    @JwtHandler.validate_token Samples.ascii_runtime Samples.settings
      JwtHandler.FetchFailed 5000 Samples.fresh_handler (Samples.hs256_token 9000)
    = (Ok c, Samples.fresh_handler) ∧
    5000 ≤ AuthModels.exp c.
Proof.
  eexists. split; [reflexivity |].
  destruct (@validate_token_sound Samples.ascii_runtime Samples.settings
              JwtHandler.FetchFailed 5000 Samples.fresh_handler Samples.fresh_handler
              (Samples.hs256_token 9000) _ eq_refl)
    as (hdr & verifies & p & _ & _ & Hexp & _).
  exact Hexp.
Defined.

(** X10: on the symmetric path every token that is signed with the gateway's
    secret, carries the required claims, has not expired, is already valid and
    has no audience claim is accepted, with claims equal to its payload; no
    key set is fetched and the handler is left as it was. *)
Theorem local_token_accepted `{Runtime}
    (s : JwtHandler.Settings) (fetch : JwtHandler.FetchOutcome) (now : Z)
    (h : JwtHandler.JWTHandler) (hdr : JwtHandler.JwtHeader) (verifies : string → bool)
    (p : AuthModels.Payload) (c : AuthModels.TokenClaims) :
  JwtHandler.alg hdr = Some "HS256" →
  verifies (JwtHandler.jwt_secret_key s) = true →
  AuthModels.TokenClaims_of_payload p = Some c →
  now ≤ AuthModels.exp c →
  (∀ n, AuthModels.nbf c = Some n → n ≤ now) →
  AuthModels.aud c = None →
  JwtHandler.validate_token s fetch now h (JwtHandler.Jws hdr verifies (Some p))
    = (Ok c, h).
Proof.
  intros Halg Hsig Hc Hexp Hnbf Haud.
  unfold JwtHandler.validate_token, JwtHandler.try_validate, JwtHandler._is_local_token.
  rewrite Halg. cbn [default id]. rewrite bool_decide_eq_true_2 by reflexivity.
  unfold JwtHandler.jwt_decode. rewrite Halg, Hsig.
  rewrite bool_decide_eq_true_2 by reflexivity. cbn [negb].
  destruct (claims_of_payload_fields p c Hc) as (He & Hn & _ & Ha).
  rewrite He, Hn, Ha, Haud.
  destruct (AuthModels.nbf c) as [n|].
  - destruct (Z.ltb_spec now n) as [Hlt|_]; [specialize (Hnbf n eq_refl); lia |].
    destruct (Z.ltb_spec (AuthModels.exp c) now); [lia |]. rewrite Hc. reflexivity.
  - destruct (Z.ltb_spec (AuthModels.exp c) now); [lia |]. rewrite Hc. reflexivity.
Qed.

Lemma local_token_accepted_witness :
  ∃ c,
    AuthModels.TokenClaims_of_payload (Samples.local_payload 9000) = Some c ∧
    5000 ≤ AuthModels.exp c ∧
    @JwtHandler.validate_token Samples.ascii_runtime Samples.settings
      JwtHandler.FetchFailed 5000 Samples.cached_handler (Samples.hs256_token 9000)
    = (Ok c, Samples.cached_handler).
Proof.
  eexists. split; [reflexivity |]. split; [vm_compute; discriminate |].
  apply (@local_token_accepted Samples.ascii_runtime Samples.settings
           JwtHandler.FetchFailed 5000 Samples.cached_handler);
    [reflexivity | reflexivity | reflexivity | vm_compute; discriminate
    | discriminate | reflexivity].
Defined.

(** X11: on the asymmetric path a non-empty token that does not decode, or
    whose header has no key id, is never answered with 401: whether the key
    set is cached, fetched or unavailable, the caller gets the 500 "internal
    server error during token validation" exception. *)
Theorem token_without_key_id_is_internal_error `{Runtime}
    (s : JwtHandler.Settings) (fetch : JwtHandler.FetchOutcome) (now : Z)
    (h : JwtHandler.JWTHandler) (tok : JwtHandler.Token) :
  tok = JwtHandler.Undecodable ∨
  (∃ hdr verifies body,
     tok = JwtHandler.Jws hdr verifies body ∧
     JwtHandler._is_local_token tok = false ∧
     Py.truthy_str (JwtHandler.kid hdr) = false) →
  fst (JwtHandler.validate_token s fetch now h tok) = Err internal_validation_error.
Proof.
  intros [-> | (hdr & verifies & body & -> & Hlocal & Hkid)];
    unfold JwtHandler.validate_token, JwtHandler.try_validate.
  - cbn [JwtHandler._is_local_token].
    destruct (JwtHandler._fetch_jwks fetch now h) as [[jwks|e] h1]; reflexivity.
  - rewrite Hlocal.
    destruct (JwtHandler._fetch_jwks fetch now h) as [[jwks|e] h1]; [| reflexivity].
    unfold JwtHandler.get_signing_key. rewrite Hkid. reflexivity.
Qed.

Lemma token_without_key_id_is_internal_error_witness :
  fst (@JwtHandler.validate_token Samples.ascii_runtime Samples.settings
         (JwtHandler.Fetched Samples.jwks) 5000 Samples.fresh_handler
         JwtHandler.Undecodable) = Err internal_validation_error.
Proof.
  apply (@token_without_key_id_is_internal_error Samples.ascii_runtime Samples.settings
           (JwtHandler.Fetched Samples.jwks) 5000 Samples.fresh_handler
           JwtHandler.Undecodable).
  left. reflexivity.
Defined.

Lemma scan_keys_found `{Runtime} (kid pem : string) (keys : list Py.json) :
  JwtHandler.scan_keys kid keys = Ok (Some pem) →
  ∃ entry x5c,
    Py.JObj entry ∈ keys ∧
    Py.dict_get entry "kid" = Some (Py.JStr kid) ∧
    Py.dict_get entry "x5c" = Some x5c ∧
    JwtHandler.pem_of_x5c x5c = Ok (Some pem).
Proof.
  induction keys as [|key rest IH]; [discriminate |].
  assert (JwtHandler.scan_keys kid rest = Ok (Some pem) →
          ∃ entry x5c,
            Py.JObj entry ∈ key :: rest ∧
            Py.dict_get entry "kid" = Some (Py.JStr kid) ∧
            Py.dict_get entry "x5c" = Some x5c ∧
            JwtHandler.pem_of_x5c x5c = Ok (Some pem)) as Hrest.
  { intros Hfound. destruct (IH Hfound) as (entry & x5c & Hin & Hrest).
    exists entry, x5c. split; [apply list_elem_of_further; exact Hin | exact Hrest]. }
  destruct key as [| | | | | |o]; try discriminate.
  cbn [JwtHandler.scan_keys].
  destruct (Py.dict_get o "kid") as [[| | | |k| |]|] eqn:Hkid; try exact Hrest.
  destruct (String.eqb_spec k kid) as [->|_]; [| exact Hrest].
  destruct (Py.dict_get o "x5c") as [x5c|] eqn:Hx5c; [| exact Hrest].
  destruct (Py.truthy x5c); [| exact Hrest].
  intros Hpem. exists o, x5c. split; [apply list_elem_of_here | auto].
Qed.

(** X12: a signing key that [get_signing_key] returns is the public key of
    the first certificate of an entry of the key set whose key id is the one
    in the token's header. *)
Theorem get_signing_key_sound `{Runtime}
    (tok : JwtHandler.Token) (jwks : Py.json) (pem : string) :
  JwtHandler.get_signing_key tok jwks = Ok (Some pem) →
  ∃ hdr verifies body kid o keys entry x5c,
    tok = JwtHandler.Jws hdr verifies body ∧
    JwtHandler.kid hdr = Some kid ∧ kid ≠ "" ∧
    jwks = Py.JObj o ∧
    Py.dict_get o "keys" = Some (Py.JList keys) ∧
    Py.JObj entry ∈ keys ∧
    Py.dict_get entry "kid" = Some (Py.JStr kid) ∧
    Py.dict_get entry "x5c" = Some x5c ∧
    JwtHandler.pem_of_x5c x5c = Ok (Some pem).
Proof.
  unfold JwtHandler.get_signing_key.
  destruct tok as [| |hdr verifies body]; try discriminate.
  destruct (JwtHandler.kid hdr) as [kid|] eqn:Hkid; [| discriminate].
  destruct (Py.truthy_str (Some kid)) eqn:Htruthy; [| discriminate].
  cbn [negb default id].
  destruct jwks as [| | | | | |o]; try discriminate.
  destruct (Py.dict_get o "keys") as [value|] eqn:Hkeys; [| discriminate].
  cbn [default id].
  destruct value as [| | | |str|keys|obj]; try discriminate.
  - destruct str; discriminate.
  - intros Hscan. apply scan_keys_found in Hscan as (entry & x5c & Hin & Hk & Hx & Hpem).
    exists hdr, verifies, body, kid, o, keys, entry, x5c.
    repeat split; try assumption.
    intros ->. discriminate.
  - destruct obj; discriminate.
Qed.

Lemma get_signing_key_sound_witness :
  @JwtHandler.get_signing_key Samples.ascii_runtime (Samples.rs256_token 9000) Samples.jwks
    = Ok (Some "PEM:CERT") ∧
  ∃ entry,
    Py.dict_get entry "kid" = Some (Py.JStr "k1") ∧
    ∃ x5c, Py.dict_get entry "x5c" = Some x5c ∧
           @JwtHandler.pem_of_x5c Samples.ascii_runtime x5c = Ok (Some "PEM:CERT").
Proof.
  split; [reflexivity |].
  destruct (@get_signing_key_sound Samples.ascii_runtime (Samples.rs256_token 9000)
              Samples.jwks "PEM:CERT" eq_refl)
    as (hdr & verifies & body & kid & o & keys & entry & x5c
        & Htok & Hkid & _ & _ & _ & _ & Hk & Hx & Hpem).
  injection Htok as <- _ _. injection Hkid as <-.
  exists entry. split; [exact Hk |]. exists x5c. split; [exact Hx | exact Hpem].
Defined.

(** ** The access decision under more entitlements *)

(** X13: the access decision is monotone in the caller's entitlements: a
    context that holds at least the roles, groups and granted models of a
    context that is allowed is allowed too. *)
Theorem check_access_monotone `{Runtime}
    (cfg : Config.ModelConfig) (ctx ctx' : AuthModels.AuthContext) (model_name : string) :
  AuthModels.roles ctx ⊆ AuthModels.roles ctx' →
  AuthModels.groups ctx ⊆ AuthModels.groups ctx' →
  AuthModels.models ctx ⊆ AuthModels.models ctx' →
  Router.check_access cfg ctx model_name = true →
  Router.check_access cfg ctx' model_name = true.
Proof.
  intros Hroles Hgroups Hmodels. unfold Router.check_access.
  destruct (Config.rule_is_empty _); [reflexivity |].
  destruct (bool_decide (model_name ∈ AuthModels.models ctx)) eqn:Hin.
  - apply bool_decide_eq_true in Hin.
    rewrite (bool_decide_eq_true_2 _ (Hmodels _ Hin)). reflexivity.
  - destruct (bool_decide (model_name ∈ AuthModels.models ctx')); [reflexivity |].
    set (rule := Config.get_access_control cfg model_name).
    assert (∀ required have have' : list string,
              have ⊆ have' → required = [] ∨ holds_one required have →
              required = [] ∨ holds_one required have') as Hmono.
    { intros required have have' Hsub [Hnil | (r & u & Hr & Hu & Heq)]; [auto |].
      right. exists r, u. auto. }
    match goal with
    | |- (if ?a then _ else _) = true → _ => destruct a eqn:Hr; [discriminate |]
    end.
    match goal with
    | |- (if ?a then _ else _) = true → _ => destruct a eqn:Hg; [discriminate |]
    end.
    intros _.
    apply requirement_met in Hr. apply requirement_met in Hg.
    apply (Hmono _ _ _ Hroles), requirement_met in Hr.
    apply (Hmono _ _ _ Hgroups), requirement_met in Hg.
    fold rule. rewrite Hr, Hg. reflexivity.
Qed.

Lemma check_access_monotone_witness :
  AuthModels.roles Samples.admin_ctx ⊆ "user" :: AuthModels.roles Samples.admin_ctx ∧
  @Router.check_access Samples.ascii_runtime Samples.admin_only
    {| AuthModels.user_id := "root"; AuthModels.username := "root";
       AuthModels.roles := "user" :: AuthModels.roles Samples.admin_ctx;
       AuthModels.groups := []; AuthModels.permissions := [];
       AuthModels.models := []; AuthModels.rate_limit := 100 |} "gpt-4" = true.
Proof.
  assert (AuthModels.roles Samples.admin_ctx
          ⊆ "user" :: AuthModels.roles Samples.admin_ctx) as Hsub.
  { intros x Hx. apply list_elem_of_further. exact Hx. }
  split; [exact Hsub |].
  apply (@check_access_monotone Samples.ascii_runtime Samples.admin_only
           Samples.admin_ctx);
    [exact Hsub | reflexivity | reflexivity | vm_compute; reflexivity].
Defined.

(** ** The pipeline as a whole *)

(** A run of [chat_completions] that sent [out] passed both checks, ran on the
    bound configuration, and its result is the upstream reply to [out] as
    [route_request] and the endpoint translate it. *)
Lemma chat_completions_forwarded `{Runtime}
    (post : Router.Outbound → Router.UpstreamReply) (env : Endpoints.ProcessEnv)
    (now : Z) (hdrs : gmap string string) (request : Router.ChatCompletionRequest)
    (ctx : AuthModels.AuthContext) (w : Endpoints.World) (out : Router.Outbound) :
  let model_name := Router.model request in
  let run := Endpoints.chat_completions post env now hdrs request ctx w in
  let cfg' := Endpoints.bind_api_key env hdrs (Endpoints.config w) model_name in
  let limit :=
    Config.get_rate_limits (Endpoints.config w) model_name (head (AuthModels.groups ctx)) in
  let chk := RateLimiter.check_rate_limit now (Endpoints.redis w) ctx model_name limit 60 in
  Endpoints.sent (snd run) = (Endpoints.sent w ++ [out])%list →
  Router.check_access (Endpoints.config w) ctx model_name = true ∧
  (∃ ok, fst chk = Ok ok) ∧
  Endpoints.config (snd run) = cfg' ∧
  Endpoints.redis (snd run) = snd chk ∧
  Router.out_endpoint out
    = default "" (Config.endpoint (Config.get_model_config cfg' model_name)) ∧
  Router.out_json out = request ∧
  fst run = match Router.handle_reply (post out) with
            | Ok model_response => Ok model_response
            | Err (Http he) => Err he
            | Err Other => Err Router.internal_error
            end.
Proof.
  intros model_name run cfg' limit chk Hsent. subst run.
  unfold Endpoints.chat_completions in *. fold model_name limit chk cfg' in Hsent |- *.
  assert (∀ l : list Router.Outbound, l ≠ (l ++ [out])%list) as Hfresh.
  { intros l E. apply (f_equal length) in E. rewrite length_app in E. cbn in E. lia. }
  destruct (Router.check_access (Endpoints.config w) ctx model_name);
    [| destruct (Hfresh _ Hsent)].
  cbn [negb] in *.
  destruct chk as [[ok|e] r']; [| destruct (Hfresh _ Hsent)].
  unfold Router.route_request in *. fold model_name in Hsent |- *.
  destruct (Config.entry_is_empty _);
    [cbn in Hsent; rewrite app_nil_r in Hsent; destruct (Hfresh _ Hsent) |].
  destruct (negb (Router.check_access cfg' ctx model_name));
    [cbn in Hsent; rewrite app_nil_r in Hsent; destruct (Hfresh _ Hsent) |].
  destruct (negb (Py.truthy_str _));
    [cbn in Hsent; rewrite app_nil_r in Hsent; destruct (Hfresh _ Hsent) |].
  match type of Hsent with
  | context [Router.handle_reply (post ?o)] => set (sent_now := o) in *
  end.
  assert (sent_now = out) as <-.
  { destruct (Router.handle_reply (post sent_now)) as [resp|[he|]];
      cbn in Hsent; apply app_inv_head in Hsent; congruence. }
  split; [reflexivity |]. split; [eauto |].
  destruct (Router.handle_reply (post sent_now)) as [resp|[he|]]; cbn; auto.
Qed.

(** The binding block leaves the endpoint of the requested model alone. *)
Lemma bind_api_key_endpoint
    (env : Endpoints.ProcessEnv) (hdrs : gmap string string)
    (cfg : Config.ModelConfig) (model_name : string) :
  Config.endpoint
    (Config.get_model_config (Endpoints.bind_api_key env hdrs cfg model_name) model_name)
  = Config.endpoint (Config.get_model_config cfg model_name).
Proof.
  unfold Endpoints.bind_api_key.
  destruct (Py.truthy_str _); [| reflexivity].
  unfold Config.get_model_config at 1. cbn [Config.models].
  rewrite lookup_insert_eq. reflexivity.
Qed.

(** X14: binding a credential changes nothing but the credential and its
    source label of the requested model: the other models' entries, this
    model's endpoint, header name, prefix and rate limit, the access rules and
    the rate limits are as before, and so are every access decision and every
    resolved rate limit. *)
Theorem bind_api_key_frame `{Runtime}
    (env : Endpoints.ProcessEnv) (hdrs : gmap string string)
    (cfg : Config.ModelConfig) (model_name : string) :
  let cfg' := Endpoints.bind_api_key env hdrs cfg model_name in
  let e := Config.get_model_config cfg model_name in
  let e' := Config.get_model_config cfg' model_name in
  (∀ other, other ≠ model_name → Config.models cfg' !! other = Config.models cfg !! other) ∧
  Config.endpoint e' = Config.endpoint e ∧
  Config.auth_header e' = Config.auth_header e ∧
  Config.auth_prefix e' = Config.auth_prefix e ∧
  Config.rate_limit e' = Config.rate_limit e ∧
  Config.access_control cfg' = Config.access_control cfg ∧
  (∀ ctx m, Router.check_access cfg' ctx m = Router.check_access cfg ctx m) ∧
  (∀ m group_id, Config.get_rate_limits cfg' m group_id = Config.get_rate_limits cfg m group_id).
Proof.
  cbv zeta. unfold Endpoints.bind_api_key.
  destruct (Py.truthy_str _); [| repeat split; reflexivity].
  set (e' := {| Config.endpoint := _ |}).
  split; [intros other Hne; cbn; apply lookup_insert_ne; congruence |].
  unfold Config.get_model_config at 1 3 5 7. cbn [Config.models].
  rewrite lookup_insert_eq. cbn [default id].
  do 5 (split; [reflexivity |]).
  split; [reflexivity |].
  intros m group_id. unfold Config.get_rate_limits, Config.get_model_config.
  cbn [Config.models Config.rate_limits_default Config.rate_limits_by_group].
  destruct (decide (model_name = m)) as [<-|Hne].
  - rewrite lookup_insert_eq. reflexivity.
  - rewrite lookup_insert_ne by exact Hne. reflexivity.
Qed.

(** X15: [chat_completions] sends at most one request upstream, and none
    unless both the access check and the quota check let the request through;
    a request refused by the access check leaves the whole state untouched,
    and one refused by the limiter leaves the configuration untouched. *)
Theorem chat_completions_sends_at_most_once `{Runtime}
    (post : Router.Outbound → Router.UpstreamReply) (env : Endpoints.ProcessEnv)
    (now : Z) (hdrs : gmap string string) (request : Router.ChatCompletionRequest)
    (ctx : AuthModels.AuthContext) (w : Endpoints.World) :
  let model_name := Router.model request in
  let run := Endpoints.chat_completions post env now hdrs request ctx w in
  let limit :=
    Config.get_rate_limits (Endpoints.config w) model_name (head (AuthModels.groups ctx)) in
  let chk := RateLimiter.check_rate_limit now (Endpoints.redis w) ctx model_name limit 60 in
  (∃ outs, Endpoints.sent (snd run) = (Endpoints.sent w ++ outs)%list ∧
           (length outs ≤ 1)%nat) ∧
  (Router.check_access (Endpoints.config w) ctx model_name = false →
     run = (Err {| status_code := 403; detail := AccessForbidden model_name;
                   headers := NoHeaders |}, w)) ∧
  (∀ e, Router.check_access (Endpoints.config w) ctx model_name = true →
        fst chk = Err e →
        fst run = Err e ∧
        Endpoints.config (snd run) = Endpoints.config w ∧
        Endpoints.sent (snd run) = Endpoints.sent w).
Proof.
  intros model_name run limit chk. subst run.
  unfold Endpoints.chat_completions. fold model_name limit chk.
  destruct (Router.check_access (Endpoints.config w) ctx model_name).
  - cbn [negb]. destruct chk as [[ok|e] r'].
    + destruct (Router.route_request _ _ _ _) as [res outs] eqn:Hroute.
      split; [| split; [discriminate | intros e _ He; discriminate He]].
      exists outs. split.
      * destruct res as [resp|[he|]]; reflexivity.
      * unfold Router.route_request in Hroute.
        destruct (Config.entry_is_empty _); [injection Hroute as _ <-; cbn; lia |].
        destruct (negb (Router.check_access _ _ _));
          [injection Hroute as _ <-; cbn; lia |].
        destruct (negb (Py.truthy_str _)); injection Hroute as _ <-; cbn; lia.
    + split; [exists []; split; [cbn; rewrite app_nil_r; reflexivity | cbn; lia] |].
      split; [discriminate |]. intros e' _ He. cbn in He. injection He as <-.
      cbn. auto.
  - cbn [negb]. split; [exists []; split; [cbn; rewrite app_nil_r; reflexivity | cbn; lia] |].
    split; [reflexivity | discriminate].
Qed.

(** X16: a chat completion succeeds only if no stage was skipped: the access
    check allowed the request, the limiter let it through, exactly one request
    was sent to the model's configured endpoint with the caller's request as
    body, the upstream answered it with a 2xx status and a JSON object, and
    the response carries that object's fields with the normalised usage. *)
Theorem chat_completions_success `{Runtime}
    (post : Router.Outbound → Router.UpstreamReply) (env : Endpoints.ProcessEnv)
    (now : Z) (hdrs : gmap string string) (request : Router.ChatCompletionRequest)
    (ctx : AuthModels.AuthContext) (w : Endpoints.World)
    (resp : Router.ChatCompletionResponse) :
  let model_name := Router.model request in
  let run := Endpoints.chat_completions post env now hdrs request ctx w in
  let limit :=
    Config.get_rate_limits (Endpoints.config w) model_name (head (AuthModels.groups ctx)) in
  let chk := RateLimiter.check_rate_limit now (Endpoints.redis w) ctx model_name limit 60 in
  fst run = Ok resp →
  Router.check_access (Endpoints.config w) ctx model_name = true ∧
  (∃ ok, fst chk = Ok ok) ∧
  ∃ out status response_data,
    Endpoints.sent (snd run) = (Endpoints.sent w ++ [out])%list ∧
    Config.endpoint (Config.get_model_config (Endpoints.config w) model_name)
      = Some (Router.out_endpoint out) ∧
    Router.out_json out = request ∧
    post out = Router.Reply status (Some (Py.JObj response_data)) ∧
    200 ≤ status ≤ 299 ∧
    resp = {| Router.fields := response_data;
              Router.usage := Some (Router.normalize_usage response_data) |}.
Proof.
  intros model_name run limit chk Hok.
  assert (∃ out, Endpoints.sent (snd run) = (Endpoints.sent w ++ [out])%list ∧
                 Router.route_request post
                   (Endpoints.bind_api_key env hdrs (Endpoints.config w) model_name)
                   request ctx = (Ok resp, [out])) as (out & Hsent & Hroute).
  { subst run. unfold Endpoints.chat_completions in *. fold model_name limit chk in Hok |- *.
    destruct (negb (Router.check_access _ _ _)); [discriminate |].
    destruct chk as [[ok|e] r']; [| discriminate].
    destruct (Router.route_request _ _ _ _) as [res outs] eqn:Hroute.
    destruct res as [resp'|[he|]]; try discriminate.
    cbn in Hok. injection Hok as ->.
    destruct (route_request_ok _ _ _ _ _ _ Hroute) as (out & _ & _ & -> & _).
    exists out. split; reflexivity. }
  destruct (chat_completions_forwarded post env now hdrs request ctx w out Hsent)
    as (Hacc & Hchk & _ & _ & Hend & Hjson & _).
  split; [exact Hacc |]. split; [exact Hchk |].
  destruct (route_request_ok _ _ _ _ _ _ Hroute)
    as (out' & status & rd & Hout & Hpost & Hst & Hresp).
  injection Hout as <-.
  exists out, status, rd. split; [exact Hsent |].
  split; [| auto].
  pose proof (bind_api_key_endpoint env hdrs (Endpoints.config w) model_name) as Hsame.
  fold model_name in Hend. rewrite Hsame in Hend.
  unfold Router.route_request in Hroute. fold model_name in Hroute.
  destruct (Config.entry_is_empty _); [discriminate |].
  destruct (negb (Router.check_access _ _ _)); [discriminate |].
  rewrite Hsame in Hroute.
  destruct (Config.endpoint (Config.get_model_config (Endpoints.config w) model_name))
    as [endpoint|]; [| discriminate].
  rewrite Hend. reflexivity.
Qed.

Lemma chat_completions_success_witness :
  let run := @Endpoints.chat_completions Samples.ascii_runtime
               (Samples.answers Samples.completion_without_usage) Samples.empty_env
               1000 Samples.no_headers (Samples.hello "gpt-4") Samples.alice
               (Samples.world Samples.gpt4_config Samples.empty_redis) in
  ∃ resp, fst run = Ok resp ∧
  ∃ out, Endpoints.sent (snd run) = [out] ∧
         Router.out_endpoint out = "https://upstream.example/v1/chat/completions".
Proof.
  cbv zeta. eexists. split; [vm_compute; reflexivity |].
  destruct (@chat_completions_success Samples.ascii_runtime
              (Samples.answers Samples.completion_without_usage) Samples.empty_env
              1000 Samples.no_headers (Samples.hello "gpt-4") Samples.alice
              (Samples.world Samples.gpt4_config Samples.empty_redis) _ eq_refl)
    as (_ & _ & out & status & rd & Hsent & Hend & _).
  exists out. split; [exact Hsent |].
  cbn in Hend. injection Hend as <-. reflexivity.
Defined.

(** X17: when the forwarded request is answered with a status outside
    200..299, the caller gets an exception with that same status: it carries
    the upstream's [error] value when the body is a JSON object whose [error]
    is not null, the message of the status error when the object has no
    [error] or the body is not JSON, and the standard phrase of the status
    when [error] is null.  A null [error] under a status without standard
    phrase, a body that is JSON but not an object, and a transport failure
    give status 500. *)
Theorem upstream_failure_is_passed_through `{Runtime}
    (post : Router.Outbound → Router.UpstreamReply) (env : Endpoints.ProcessEnv)
    (now : Z) (hdrs : gmap string string) (request : Router.ChatCompletionRequest)
    (ctx : AuthModels.AuthContext) (w : Endpoints.World) (out : Router.Outbound) :
  let run := Endpoints.chat_completions post env now hdrs request ctx w in
  Endpoints.sent (snd run) = (Endpoints.sent w ++ [out])%list →
  (post out = Router.TransportError → fst run = Err Router.internal_error) ∧
  (∀ status body,
     post out = Router.Reply status body → ¬ (200 ≤ status ≤ 299) →
     match body with
     | None =>
         fst run = Err {| status_code := status; detail := UpstreamMessage None;
                          headers := NoHeaders |}
     | Some (Py.JObj error_data) =>
         match Py.dict_get error_data "error" with
         | Some Py.JNull =>
             match status_phrase status with
             | Some phrase =>
                 fst run = Err {| status_code := status; detail := StatusPhrase phrase;
                                  headers := NoHeaders |}
             | None => fst run = Err Router.internal_error
             end
         | error_message =>
             fst run = Err {| status_code := status;
                              detail := UpstreamMessage error_message;
                              headers := NoHeaders |}
         end
     | Some _ => fst run = Err Router.internal_error
     end).
Proof.
  intros run Hsent.
  destruct (chat_completions_forwarded post env now hdrs request ctx w out Hsent)
    as (_ & _ & _ & _ & _ & _ & Hres).
  fold run in Hres. rewrite Hres. split.
  - intros ->. reflexivity.
  - intros status body -> Hst. unfold Router.handle_reply.
    assert ((200 <=? status) && (status <=? 299) = false) as ->.
    { apply andb_false_iff.
      destruct (Z.leb_spec 200 status), (Z.leb_spec status 299); auto; lia. }
    destruct body as [[| | | | | |error_data]|]; try reflexivity.
    destruct (Py.dict_get error_data "error") as [[| | | | | |]|]; try reflexivity.
    destruct (status_phrase status); reflexivity.
Qed.

Lemma upstream_failure_is_passed_through_witness :
  let post := λ _ : Router.Outbound,
    Router.Reply 503 (Some (Py.JObj [("error", Py.JStr "overloaded")])) in
  let run := @Endpoints.chat_completions Samples.ascii_runtime post Samples.empty_env
               1000 Samples.no_headers (Samples.hello "gpt-4") Samples.alice
               (Samples.world Samples.gpt4_config Samples.empty_redis) in
  ∃ out, Endpoints.sent (snd run) = [out] ∧
  fst run = Err {| status_code := 503;
                   detail := UpstreamMessage (Some (Py.JStr "overloaded"));
                   headers := NoHeaders |}.
Proof.
  cbv zeta. eexists. split; [vm_compute; reflexivity |].
  refine (proj2 (@upstream_failure_is_passed_through Samples.ascii_runtime _
                   Samples.empty_env 1000 Samples.no_headers (Samples.hello "gpt-4")
                   Samples.alice (Samples.world Samples.gpt4_config Samples.empty_redis)
                   _ _) 503 (Some (Py.JObj [("error", Py.JStr "overloaded")])) eq_refl _);
    [vm_compute; reflexivity | lia].
Defined.

(** An upstream 400 whose body is [{"error": null}] reaches the caller as a
    400 with the phrase of the status, and a 599 with the same body as a
    500. *)
Example upstream_null_error :
  let run status :=
    @Endpoints.chat_completions Samples.ascii_runtime
      (λ _, Router.Reply status (Some (Py.JObj [("error", Py.JNull)])))
      Samples.empty_env 1000 Samples.no_headers (Samples.hello "gpt-4") Samples.alice
      (Samples.world Samples.gpt4_config Samples.empty_redis) in
  fst (run 400) = Err {| status_code := 400; detail := StatusPhrase "Bad Request";
                         headers := NoHeaders |} ∧
  fst (run 599) = Err Router.internal_error.
Proof. split; vm_compute; reflexivity. Qed.

(** X18: a credential a caller supplied in a header outlives the request: it
    is written into the shared configuration, and a later request for the same
    model that brings no credential header, served while the gateway has no
    credential of its own, is forwarded with the earlier caller's credential
    (unless that credential has the form of a [${VAR}] placeholder). *)
Theorem caller_credential_outlives_request `{Runtime}
    (post post2 : Router.Outbound → Router.UpstreamReply)
    (env env2 : Endpoints.ProcessEnv) (now now2 : Z) (hdrs hdrs2 : gmap string string)
    (request request2 : Router.ChatCompletionRequest)
    (ctx ctx2 : AuthModels.AuthContext) (w : Endpoints.World)
    (out out2 : Router.Outbound) (k : string) :
  let run := Endpoints.chat_completions post env now hdrs request ctx w in
  let run2 := Endpoints.chat_completions post2 env2 now2 hdrs2 request2 ctx2 (snd run) in
  let entry := Config.get_model_config (Endpoints.config w) (Router.model request) in
  Endpoints.first_header hdrs Endpoints.api_key_header_names = Some k →
  k ≠ "" →
  Py.startswith k "${" && Py.endswith k "}" = false →
  Endpoints.sent (snd run) = (Endpoints.sent w ++ [out])%list →
  Router.model request2 = Router.model request →
  Py.truthy_str (Endpoints.first_header hdrs2 Endpoints.api_key_header_names) = false →
  Py.truthy_str (Endpoints.gateway_api_key env2) = false →
  Endpoints.sent (snd run2) = (Endpoints.sent (snd run) ++ [out2])%list →
  Router.out_headers out2 !! default "Authorization" (Config.auth_header entry)
    = Some (Router.header_value (default "" (Config.auth_prefix entry)) k).
Proof.
  intros run run2 entry Hk Hne Hplain Hsent Hmodel Hh2 He2 Hsent2.
  destruct (chat_completions_forwarded post env now hdrs request ctx w out Hsent)
    as (_ & _ & Hcfg & _).
  fold run in Hcfg.
  destruct (bind_api_key_entry env hdrs (Endpoints.config w) (Router.model request) k)
    as (Hkey1 & Hhdr1 & Hpre1); [| exact Hne |].
  { unfold Endpoints.effective_api_key, Py.or_str.
    rewrite Hk, (truthy_str_some k Hne). reflexivity. }
  destruct (chat_completions_sent post2 env2 now2 hdrs2 request2 ctx2 (snd run) _ _ out2
              (surjective_pairing _) Hsent2) as [r Hroute].
  rewrite Hcfg, Hmodel in Hroute.
  set (cfg1 := Endpoints.bind_api_key env hdrs (Endpoints.config w) (Router.model request))
    in *.
  destruct (bind_api_key_entry env2 hdrs2 cfg1 (Router.model request) k)
    as (Hkey2 & Hhdr2 & Hpre2); [| exact Hne |].
  { rewrite Hkey1. unfold Endpoints.resolve_cfg_api_key. rewrite Hplain.
    unfold Endpoints.effective_api_key, Py.or_str. rewrite Hh2, He2. reflexivity. }
  subst entry. rewrite <- Hhdr1, <- Hpre1, <- Hhdr2, <- Hpre2.
  rewrite <- Hmodel in Hroute |- *.
  apply (route_request_injects post2 _ request2 ctx2 r out2 k); [| | exact Hne].
  - rewrite Hmodel in Hroute |- *. exact Hroute.
  - rewrite Hmodel. exact Hkey2.
Qed.

Lemma caller_credential_outlives_request_witness :
  let post := Samples.answers Samples.completion_without_usage in
  let run := @Endpoints.chat_completions Samples.ascii_runtime post Samples.empty_env
               1000 Samples.caller_headers (Samples.hello "gpt-4") Samples.alice
               (Samples.world Samples.gpt4_config Samples.empty_redis) in
  let run2 := @Endpoints.chat_completions Samples.ascii_runtime post Samples.empty_env
                1001 Samples.no_headers (Samples.hello "gpt-4") Samples.admin_ctx
                (snd run) in
  Endpoints.first_header Samples.caller_headers Endpoints.api_key_header_names
    = Some "sk-caller" ∧
  Endpoints.first_header Samples.no_headers Endpoints.api_key_header_names = None ∧
  ∃ out out2,
    Endpoints.sent (snd run2) = [out; out2] ∧
    Router.out_headers out2 !! "Authorization" = Some "Bearer sk-caller".
Proof.
  cbv zeta. split; [reflexivity |]. split; [reflexivity |].
  eexists _, _. split; [vm_compute; reflexivity |].
  refine (@caller_credential_outlives_request Samples.ascii_runtime
            (Samples.answers Samples.completion_without_usage)
            (Samples.answers Samples.completion_without_usage)
            Samples.empty_env Samples.empty_env 1000 1001
            Samples.caller_headers Samples.no_headers
            (Samples.hello "gpt-4") (Samples.hello "gpt-4")
            Samples.alice Samples.admin_ctx
            (Samples.world Samples.gpt4_config Samples.empty_redis)
            _ _ "sk-caller" _ _ _ _ _ _ _ _);
    [reflexivity | discriminate | reflexivity | vm_compute; reflexivity
    | reflexivity | reflexivity | reflexivity | vm_compute; reflexivity].
Defined.

(** ** The bearer header *)

Lemma str_append_empty_r (s : string) : s +:+ "" = s.
Proof.
  induction s as [|c s IH]; [reflexivity |].
  change (String c (s +:+ "") = String c s). rewrite IH. reflexivity.
Qed.

Lemma str_append_assoc (a b c : string) : (a +:+ b) +:+ c = a +:+ (b +:+ c).
Proof.
  induction a as [|x a IH]; [reflexivity |].
  change (String x ((a +:+ b) +:+ c) = String x (a +:+ (b +:+ c))).
  rewrite IH. reflexivity.
Qed.

Lemma no_space_append (a b : string) :
  Routes.no_space (a +:+ b) = Routes.no_space a && Routes.no_space b.
Proof.
  induction a as [|c a IH]; [reflexivity |].
  change (negb (Py.is_space c) && Routes.no_space (a +:+ b)
          = negb (Py.is_space c) && Routes.no_space a && Routes.no_space b).
  rewrite IH, andb_assoc. reflexivity.
Qed.

Lemma str_append_nonempty (a : string) (c : ascii) : a +:+ String c "" ≠ "".
Proof. destruct a; discriminate. Qed.

(** Every part [split] returns is a non-empty run without white space. *)
Lemma split_from_parts (cur s : string) :
  Routes.no_space cur = true →
  Forall (λ part, part ≠ "" ∧ Routes.no_space part = true) (Routes.split_from cur s).
Proof.
  revert cur. induction s as [|c s IH]; intros cur Hcur; cbn [Routes.split_from].
  - destruct (String.eqb_spec cur ""); [constructor |].
    constructor; [auto | constructor].
  - destruct (Py.is_space c) eqn:Hc.
    + destruct (String.eqb_spec cur ""); [apply IH; reflexivity |].
      constructor; [auto | apply IH; reflexivity].
    + apply IH. rewrite no_space_append, Hcur. cbn [Routes.no_space andb].
      rewrite Hc. reflexivity.
Qed.

(** Reading a run without white space extends the current run. *)
Lemma split_from_run (cur run rest : string) :
  Routes.no_space run = true →
  Routes.split_from cur (run +:+ rest) = Routes.split_from (cur +:+ run) rest.
Proof.
  revert cur. induction run as [|c run IH]; intros cur Hrun.
  - cbn. rewrite str_append_empty_r. reflexivity.
  - cbn [Routes.no_space] in Hrun.
    apply andb_true_iff in Hrun as [Hc Hrun]. apply negb_true_iff in Hc.
    change (String c run +:+ rest) with (String c (run +:+ rest)).
    cbn [Routes.split_from]. rewrite Hc, (IH _ Hrun), str_append_assoc.
    reflexivity.
Qed.

(** X19: the token string the endpoint extracts from an accepted
    [Authorization] header is never empty and contains no white space, and the
    header's first word reads [bearer] in lower case; so the validator's
    "missing token" case cannot be reached through the endpoint. *)
Theorem bearer_token_is_a_word `{Runtime} (authorization : option string) (token : string) :
  Routes.bearer_token authorization = Ok token →
  token ≠ "" ∧ Routes.no_space token = true ∧
  ∃ scheme, Routes.split (default "" authorization) = [scheme; token] ∧
            str_lower scheme = "bearer".
Proof.
  unfold Routes.bearer_token.
  destruct (negb (Py.truthy_str authorization)); [discriminate |].
  pose proof (split_from_parts "" (default "" authorization) eq_refl) as Hparts.
  fold (Routes.split (default "" authorization)) in Hparts.
  destruct (Routes.split (default "" authorization)) as [|scheme [|tok [|extra parts]]];
    try discriminate.
  destruct (String.eqb_spec (str_lower scheme) "bearer") as [Hlow|]; [| discriminate].
  intros Heq. injection Heq as <-.
  apply Forall_cons in Hparts as [_ Hparts]. apply Forall_cons in Hparts as [[Hne Hns] _].
  split; [exact Hne |]. split; [exact Hns |]. exists scheme. auto.
Qed.

Lemma bearer_token_is_a_word_witness :
  @Routes.bearer_token Samples.ascii_runtime (Some "BEARER  abc.def.ghi ") = Ok "abc.def.ghi" ∧
  Routes.no_space "abc.def.ghi" = true.
Proof.
  split; [reflexivity |].
  apply (@bearer_token_is_a_word Samples.ascii_runtime (Some "BEARER  abc.def.ghi ")
           "abc.def.ghi" eq_refl).
Defined.

(** X20: the header a client builds as ["Bearer " + token] is accepted and
    gives back exactly the token, for every non-empty token without white
    space (and a runtime whose [str.lower] maps [Bearer] to [bearer]). *)
Theorem bearer_header_round_trip `{Runtime} (token : string) :
  str_lower "Bearer" = "bearer" →
  token ≠ "" → Routes.no_space token = true →
  Routes.bearer_token (Some ("Bearer " +:+ token)) = Ok token.
Proof.
  intros Hlow Hne Hns. unfold Routes.bearer_token.
  cbn [Py.truthy_str negb append String.eqb Ascii.eqb Bool.eqb default id].
  assert (Routes.split_from "" token = [token]) as Hword.
  { rewrite <- (str_append_empty_r token) at 1.
    rewrite (split_from_run "" token "" Hns).
    change (Routes.split_from ("" +:+ token) "")
      with (if String.eqb token "" then [] else [token]).
    destruct (String.eqb_spec token ""); [contradiction | reflexivity]. }
  assert (Routes.split ("Bearer " +:+ token) = ["Bearer"; token]) as ->.
  { unfold Routes.split.
    change ("Bearer " +:+ token) with ("Bearer" +:+ String " " token).
    rewrite (split_from_run "" "Bearer" (String " " token) eq_refl).
    change (Routes.split_from ("" +:+ "Bearer") (String " " token))
      with ("Bearer" :: Routes.split_from "" token).
    rewrite Hword. reflexivity. }
  rewrite Hlow. reflexivity.
Qed.

Lemma bearer_header_round_trip_witness :
  @str_lower Samples.ascii_runtime "Bearer" = "bearer" ∧
  @Routes.bearer_token Samples.ascii_runtime (Some ("Bearer " +:+ "abc.def.ghi"))
    = Ok "abc.def.ghi".
Proof.
  split; [reflexivity |].
  apply (@bearer_header_round_trip Samples.ascii_runtime "abc.def.ghi");
    [reflexivity | discriminate | reflexivity].
Defined.

(** The no-break space U+00A0 of a latin-1 header separates words like any
    other white space: it splits scheme from token, and a token that holds
    one makes three words, which is refused. *)
Example bearer_header_no_break_space :
  @Routes.bearer_token Samples.ascii_runtime (Some ("Bearer" +:+ String "160" "abc"))
    = Ok "abc" ∧
  @Routes.bearer_token Samples.ascii_runtime (Some ("Bearer abc" +:+ String "160" "def"))
    = Err Routes.InvalidAuthorizationFormat.
Proof. split; vm_compute; reflexivity. Qed.

(** ** From claims to the request's context *)

(** X21: the context built from claims with a non-empty subject has a
    non-empty user id and a non-empty user name: the user id is the object id
    when that is present and non-empty and the subject otherwise, and the user
    name is the first non-empty of preferred name, e-mail and user id.  Roles,
    groups and granted models are those of the claims. *)
Theorem from_claims_identity (c : AuthModels.TokenClaims) (ctx : AuthModels.AuthContext) :
  AuthModels.sub c ≠ "" →
  Claims.from_claims c = Some ctx →
  AuthModels.user_id ctx ≠ "" ∧
  AuthModels.username ctx ≠ "" ∧
  AuthModels.user_id ctx
    = (if Py.truthy_str (AuthModels.oid c) then default "" (AuthModels.oid c)
       else AuthModels.sub c) ∧
  AuthModels.username ctx
    = (if Py.truthy_str (AuthModels.preferred_username c)
       then default "" (AuthModels.preferred_username c)
       else if Py.truthy_str (AuthModels.email c) then default "" (AuthModels.email c)
       else AuthModels.user_id ctx) ∧
  AuthModels.roles ctx = AuthModels.c_roles c ∧
  AuthModels.groups ctx = AuthModels.c_groups c ∧
  AuthModels.models ctx = AuthModels.c_models c.
Proof.
  intros Hsub Hctx. unfold Claims.from_claims in Hctx.
  destruct (AuthModels.c_rate_limit c) as [limit|]; [| discriminate].
  injection Hctx as <-. cbn.
  assert (∀ o : option string, Py.truthy_str o = true → default "" o ≠ "") as Htruthy.
  { intros [x|] Hx; [| discriminate]. cbn in *.
    apply negb_true_iff, String.eqb_neq in Hx. exact Hx. }
  assert (Claims.claims_user_id c
          = (if Py.truthy_str (AuthModels.oid c) then default "" (AuthModels.oid c)
             else AuthModels.sub c)) as Huid.
  { unfold Claims.claims_user_id, Py.or_str.
    destruct (Py.truthy_str (AuthModels.oid c)); reflexivity. }
  assert (Claims.claims_user_id c ≠ "") as Hne.
  { rewrite Huid. destruct (Py.truthy_str (AuthModels.oid c)) eqn:Ho;
      [apply Htruthy; exact Ho | exact Hsub]. }
  assert (Claims.claims_username c
          = (if Py.truthy_str (AuthModels.preferred_username c)
             then default "" (AuthModels.preferred_username c)
             else if Py.truthy_str (AuthModels.email c)
                  then default "" (AuthModels.email c)
                  else Claims.claims_user_id c)) as Hname.
  { unfold Claims.claims_username, Py.or_str.
    destruct (Py.truthy_str (AuthModels.preferred_username c)); [reflexivity |].
    destruct (Py.truthy_str (AuthModels.email c)); reflexivity. }
  split; [exact Hne |]. split.
  - rewrite Hname.
    destruct (Py.truthy_str (AuthModels.preferred_username c)) eqn:Hp;
      [apply Htruthy; exact Hp |].
    destruct (Py.truthy_str (AuthModels.email c)) eqn:He;
      [apply Htruthy; exact He | exact Hne].
  - auto.
Qed.

Lemma from_claims_identity_witness :
  AuthModels.sub Cases.azure_claims ≠ "" ∧
  Claims.from_claims Cases.azure_claims = Some Cases.azure_context ∧
  AuthModels.user_id Cases.azure_context ≠ "" ∧
  AuthModels.username Cases.azure_context ≠ "".
Proof.
  split; [discriminate |]. split; [reflexivity |].
  destruct (from_claims_identity Cases.azure_claims Cases.azure_context)
    as (Huid & Hname & _); [discriminate | reflexivity |].
  split; [exact Huid | exact Hname].
Defined.

(** ** The rate-limit route *)

(** The status query reads the store only through its reachability and the
    counter of its own key. *)
Lemma get_rate_limit_status_ext
    (now limit : Z) (r1 r2 : RateLimiter.Redis)
    (ctx : AuthModels.AuthContext) (model_name : string) :
  RateLimiter.reachable r1 = RateLimiter.reachable r2 →
  RateLimiter.db r1 !! RateLimiter.rate_key model_name (AuthModels.user_id ctx)
    = RateLimiter.db r2 !! RateLimiter.rate_key model_name (AuthModels.user_id ctx) →
  fst (RateLimiter.get_rate_limit_status now r1 ctx model_name limit)
    = fst (RateLimiter.get_rate_limit_status now r2 ctx model_name limit).
Proof.
  intros Hup Hkey.
  unfold RateLimiter.get_rate_limit_status, RateLimiter.redis_get, RateLimiter.redis_ttl.
  rewrite Hup. destruct (RateLimiter.reachable r2) eqn:Hup2; cbn; [| reflexivity].
  rewrite Hup, Hup2, Hkey. reflexivity.
Qed.

(** The binding block leaves every resolved rate limit alone. *)
Lemma bind_api_key_rate_limits
    (env : Endpoints.ProcessEnv) (hdrs : gmap string string)
    (cfg : Config.ModelConfig) (model_name m : string) (group_id : option string) :
  Config.get_rate_limits (Endpoints.bind_api_key env hdrs cfg model_name) m group_id
    = Config.get_rate_limits cfg m group_id.
Proof.
  unfold Endpoints.bind_api_key.
  destruct (Py.truthy_str _); [| reflexivity].
  unfold Config.get_rate_limits, Config.get_model_config.
  cbn [Config.models Config.rate_limits_default Config.rate_limits_by_group].
  destruct (decide (model_name = m)) as [<-|Hne].
  - rewrite lookup_insert_eq. reflexivity.
  - rewrite lookup_insert_ne by exact Hne. reflexivity.
Qed.

(** The configuration and the store a run of [chat_completions] leaves. *)
Lemma chat_completions_state `{Runtime}
    (post : Router.Outbound → Router.UpstreamReply) (env : Endpoints.ProcessEnv)
    (now : Z) (hdrs : gmap string string) (request : Router.ChatCompletionRequest)
    (ctx : AuthModels.AuthContext) (w : Endpoints.World) :
  let model_name := Router.model request in
  let run := Endpoints.chat_completions post env now hdrs request ctx w in
  let limit :=
    Config.get_rate_limits (Endpoints.config w) model_name (head (AuthModels.groups ctx)) in
  (Endpoints.config (snd run) = Endpoints.config w ∨
   Endpoints.config (snd run)
     = Endpoints.bind_api_key env hdrs (Endpoints.config w) model_name) ∧
  (Endpoints.redis (snd run) = Endpoints.redis w ∨
   Endpoints.redis (snd run)
     = snd (RateLimiter.check_rate_limit now (Endpoints.redis w) ctx model_name limit 60)).
Proof.
  intros model_name run limit. subst run. unfold Endpoints.chat_completions.
  fold model_name limit.
  destruct (negb (Router.check_access _ _ _)); [cbn; auto |].
  destruct (RateLimiter.check_rate_limit _ _ _ _ _ _) as [[ok|e] r']; [| cbn; auto].
  destruct (Router.route_request _ _ _ _) as [[resp|[he|]] outs]; cbn; auto.
Qed.

(** X22: what the [/rate-limit] route reports does not move with the chat
    completions it is meant to account for: a completion request for any model
    other than ["default"] (with a colon-free name), by any user, leaves the
    reported count, limit and reset time as they were, because the route reads
    the counter of the model name ["default"]. *)
Theorem rate_limit_route_ignores_completions `{Runtime}
    (post : Router.Outbound → Router.UpstreamReply) (env : Endpoints.ProcessEnv)
    (now now' : Z) (hdrs : gmap string string) (request : Router.ChatCompletionRequest)
    (ctx ctx' : AuthModels.AuthContext) (w : Endpoints.World) :
  More.has_char ":" (Router.model request) = false →
  Router.model request ≠ "default" →
  let run := Endpoints.chat_completions post env now hdrs request ctx w in
  fst (Routes.rate_limit_route now' (Endpoints.config (snd run))
         (Endpoints.redis (snd run)) ctx')
  = fst (Routes.rate_limit_route now' (Endpoints.config w) (Endpoints.redis w) ctx').
Proof.
  intros Hcolon Hother run.
  destruct (chat_completions_state post env now hdrs request ctx w) as [Hcfg Hredis].
  fold run in Hcfg, Hredis.
  assert (Config.get_rate_limits (Endpoints.config (snd run))
            (default "default" (head (AuthModels.groups ctx'))) None
          = Config.get_rate_limits (Endpoints.config w)
              (default "default" (head (AuthModels.groups ctx'))) None) as Hlimit.
  { destruct Hcfg as [-> | ->]; [reflexivity | apply bind_api_key_rate_limits]. }
  assert (fst (RateLimiter.get_rate_limit_status now' (Endpoints.redis (snd run)) ctx'
                 "default" (Config.get_rate_limits (Endpoints.config w)
                              (default "default" (head (AuthModels.groups ctx'))) None))
          = fst (RateLimiter.get_rate_limit_status now' (Endpoints.redis w) ctx'
                   "default" (Config.get_rate_limits (Endpoints.config w)
                                (default "default" (head (AuthModels.groups ctx'))) None)))
    as Hstatus.
  { destruct Hredis as [-> | ->]; [reflexivity |].
    apply get_rate_limit_status_ext.
    - apply check_rate_limit_keeps_reachable.
    - apply check_rate_limit_other_key. intros Heq.
      unfold RateLimiter.rate_key in Heq. cbn in Heq. injection Heq as Heq.
      destruct (split_at_first_colon "default" (Router.model request) _ _ eq_refl
                  Hcolon Heq) as [Hm _].
      apply Hother. symmetry. exact Hm. }
  unfold Routes.rate_limit_route. rewrite Hlimit.
  destruct (RateLimiter.get_rate_limit_status now' (Endpoints.redis (snd run)) _ _ _)
    as [st1 r1].
  destruct (RateLimiter.get_rate_limit_status now' (Endpoints.redis w) _ _ _)
    as [st2 r2].
  cbn in Hstatus |- *. rewrite Hstatus. reflexivity.
Qed.

Lemma rate_limit_route_ignores_completions_witness :
  let run := @Endpoints.chat_completions Samples.ascii_runtime
               (Samples.answers Samples.completion_without_usage) Samples.empty_env
               1000 Samples.no_headers (Samples.hello "gpt-4") Samples.alice
               (Samples.world Samples.gpt4_config Samples.empty_redis) in
  More.has_char ":" "gpt-4" = false ∧ "gpt-4" ≠ "default" ∧
  RateLimiter.db (Endpoints.redis (snd run)) !! Samples.alice_key
    = Some {| RateLimiter.count := 1; RateLimiter.ttl := Some 60 |} ∧
  Routes.rep_current_count
    (fst (Routes.rate_limit_route 1001 (Endpoints.config (snd run))
            (Endpoints.redis (snd run)) Samples.alice)) = 0.
Proof.
  cbv zeta. split; [reflexivity |]. split; [discriminate |].
  split; [vm_compute; reflexivity |].
  rewrite (@rate_limit_route_ignores_completions Samples.ascii_runtime
             (Samples.answers Samples.completion_without_usage) Samples.empty_env
             1000 1001 Samples.no_headers (Samples.hello "gpt-4") Samples.alice
             Samples.alice (Samples.world Samples.gpt4_config Samples.empty_redis)
             eq_refl ltac:(discriminate)).
  reflexivity.
Defined.

(** ** The audited prompt *)

Lemma find_user_none (messages : list (string * string)) :
  (∀ msg, msg ∈ messages → fst msg ≠ "user") →
  List.find (λ msg, String.eqb (fst msg) "user") messages = None.
Proof.
  induction messages as [|m messages IH]; intros Hnone; [reflexivity |].
  cbn. destruct (String.eqb_spec (fst m) "user") as [Hm|_].
  - destruct (Hnone m (list_elem_of_here _ _) Hm).
  - apply IH. intros msg Hin. apply Hnone, list_elem_of_further, Hin.
Qed.

Lemma find_user_app (l1 l2 : list (string * string)) :
  List.find (λ msg, String.eqb (fst msg) "user") l1 = None →
  List.find (λ msg, String.eqb (fst msg) "user") (l1 ++ l2)
    = List.find (λ msg, String.eqb (fst msg) "user") l2.
Proof.
  induction l1 as [|m l1 IH]; [reflexivity |]. cbn.
  destruct (String.eqb (fst m) "user"); [discriminate | exact IH].
Qed.

(** X23: the prompt handed to the audit log is the content of the last
    message of the conversation whose role is [user], whatever follows it, and
    the empty string for a conversation without a user message. *)
Theorem last_user_prompt_is_last_user_message
    (before after : list (string * string)) (content : string) :
  (∀ msg, msg ∈ after → fst msg ≠ "user") →
  Routes.last_user_prompt (before ++ ("user", content) :: after) = content ∧
  Routes.last_user_prompt after = "".
Proof.
  intros Hafter.
  assert (List.find (λ msg, String.eqb (fst msg) "user") (rev after) = None) as Hnone.
  { apply find_user_none. intros msg Hin. apply Hafter.
    apply list_elem_of_In. apply in_rev. apply list_elem_of_In. exact Hin. }
  unfold Routes.last_user_prompt. split.
  - rewrite rev_app_distr. cbn [rev]. rewrite <- app_assoc.
    rewrite (find_user_app _ _ Hnone). reflexivity.
  - rewrite Hnone. reflexivity.
Qed.

Lemma last_user_prompt_is_last_user_message_witness :
  Routes.last_user_prompt Cases.conversation = "second".
Proof.
  apply (last_user_prompt_is_last_user_message
           [("system", "be brief"); ("user", "first"); ("assistant", "ok")]
           [("assistant", "done")] "second").
  intros msg Hin. apply list_elem_of_singleton in Hin as ->. discriminate.
Defined.

Lemma str_take_length (n : nat) (s : string) :
  String.length (Audit.str_take n s) = Nat.min n (String.length s).
Proof.
  revert s. induction n as [|n IH]; intros [|c s]; cbn [Audit.str_take String.length];
    try reflexivity.
  rewrite IH. reflexivity.
Qed.

Lemma str_take_drop (n : nat) (s : string) :
  s = Audit.str_take n s +:+ Py.str_drop n s.
Proof.
  revert s. induction n as [|n IH]; intros [|c s]; try reflexivity.
  change (String c s = String c (Audit.str_take n s +:+ Py.str_drop n s)).
  rewrite <- IH. reflexivity.
Qed.

Lemma str_take_take (n m : nat) (s : string) :
  (n ≤ m)%nat → Audit.str_take n (Audit.str_take m s) = Audit.str_take n s.
Proof.
  revert m s. induction n as [|n IH]; intros m s Hle.
  - destruct (Audit.str_take m s); reflexivity.
  - destruct m as [|m]; [lia |]. destruct s as [|c s]; [reflexivity |].
    cbn [Audit.str_take]. rewrite IH by lia. reflexivity.
Qed.

(** X24: the audit event of a chat request never carries more than the first
    1000 characters of the prompt: the logged prompt is a prefix of the prompt
    (the whole prompt when it has at most 1000 characters), the logged length
    is the length of that prefix, and the preview is the first 200 characters
    of the logged prompt. *)
Theorem log_chat_request_trims (prompt : string) :
  let event := Audit.log_chat_request prompt in
  (∃ rest, prompt = Audit.prompt event +:+ rest) ∧
  Audit.prompt_length event = Z.min 1000 (Py.len prompt) ∧
  Audit.prompt_length event = Py.len (Audit.prompt event) ∧
  Audit.prompt_preview event = Audit.str_take 200 (Audit.prompt event) ∧
  Py.len (Audit.prompt_preview event) = Z.min 200 (Py.len prompt) ∧
  (Py.len prompt ≤ 1000 → Audit.prompt event = prompt).
Proof.
  cbv zeta. unfold Audit.log_chat_request. cbn [Audit.prompt Audit.prompt_length
                                                  Audit.prompt_preview].
  split; [exists (Py.str_drop 1000 prompt); apply str_take_drop |].
  unfold Py.len. rewrite !str_take_length.
  split; [lia |]. split; [reflexivity |].
  split; [rewrite str_take_take by lia; reflexivity |].
  split; [lia |].
  intros Hshort. rewrite (str_take_drop 1000 prompt) at 2.
  assert (Py.str_drop 1000 prompt = "") as ->.
  { pose proof (str_drop_length 1000 prompt) as Hlen.
    destruct (Py.str_drop 1000 prompt); [reflexivity |]. cbn in Hlen. lia. }
  rewrite str_append_empty_r. reflexivity.
Qed.

(** ** Tokens of the test client *)

(** X25: a token the test client generates at time [issued] is accepted by a
    gateway whose secret is the client's, at every time up to 24 hours later,
    with the subject, models, permissions and rate limit the client put in;
    later it is refused with the 401 "invalid token" exception, and a gateway
    with another secret refuses it at any time with the 401 "token validation
    error" exception.  No key set is fetched in any of these cases. *)
Theorem generated_token_round_trip `{Runtime}
    (s : JwtHandler.Settings) (fetch : JwtHandler.FetchOutcome) (issued now : Z)
    (h : JwtHandler.JWTHandler) (user_id : string) (models permissions : list string)
    (rate_limit : Z) :
  let tok := Client.generate_token issued user_id models permissions rate_limit in
  let res := JwtHandler.validate_token s fetch now h tok in
  snd res = h ∧
  (JwtHandler.jwt_secret_key s = Client.SECRET_KEY → now ≤ issued + 24 * 3600 →
     ∃ c, fst res = Ok c ∧
          AuthModels.sub c = user_id ∧ AuthModels.exp c = issued + 24 * 3600 ∧
          AuthModels.iat c = issued ∧ AuthModels.c_models c = models ∧
          AuthModels.c_permissions c = permissions ∧
          AuthModels.c_rate_limit c = Some rate_limit) ∧
  (JwtHandler.jwt_secret_key s = Client.SECRET_KEY → issued + 24 * 3600 < now →
     fst res = Err (JwtHandler.unauthorized InvalidToken)) ∧
  (JwtHandler.jwt_secret_key s ≠ Client.SECRET_KEY →
     fst res = Err (JwtHandler.unauthorized TokenValidationError)).
Proof.
  intros tok res. subst res tok.
  unfold JwtHandler.validate_token, JwtHandler.try_validate, Client.generate_token.
  cbn [JwtHandler._is_local_token JwtHandler.alg default id].
  rewrite bool_decide_eq_true_2 by reflexivity.
  unfold JwtHandler.jwt_decode. cbn [JwtHandler.alg AuthModels.p_nbf AuthModels.p_exp
                                      AuthModels.p_aud].
  rewrite bool_decide_eq_true_2 by reflexivity. cbn [negb].
  destruct (String.eqb_spec Client.SECRET_KEY (JwtHandler.jwt_secret_key s)) as [Hkey|Hkey];
    cbn [negb].
  - destruct (Z.ltb_spec (issued + 24 * 3600) now) as [Hlate|Hok]; cbn.
    + split; [reflexivity |]. split; [intros _ ?; lia |].
      split; [reflexivity | congruence].
    + split; [reflexivity |]. split; [| split; [intros _ ?; lia | congruence]].
      intros _ _. eexists. split; [reflexivity |]. cbn. repeat split.
  - cbn. split; [reflexivity |].
    split; [congruence |]. split; [congruence | reflexivity].
Qed.

Lemma generated_token_round_trip_witness :
  let s := {| JwtHandler.jwt_secret_key := Client.SECRET_KEY;
              JwtHandler.audience := "api://default";
              JwtHandler.issuer := "issuer" |} in
  JwtHandler.jwt_secret_key s = Client.SECRET_KEY ∧ 5000 ≤ 1000 + 24 * 3600 ∧
  ∃ c, fst (@JwtHandler.validate_token Samples.ascii_runtime s JwtHandler.FetchFailed
              5000 Samples.fresh_handler
              (Client.generate_token 1000 "advisor@wealth.com" ["openai/gpt-4.1"]
                 ["read:prompt"] 100)) = Ok c ∧
       AuthModels.sub c = "advisor@wealth.com".
Proof.
  cbv zeta. split; [reflexivity |]. split; [lia |].
  destruct (@generated_token_round_trip Samples.ascii_runtime
              {| JwtHandler.jwt_secret_key := Client.SECRET_KEY;
                 JwtHandler.audience := "api://default";
                 JwtHandler.issuer := "issuer" |}
              JwtHandler.FetchFailed 1000 5000 Samples.fresh_handler
              "advisor@wealth.com" ["openai/gpt-4.1"] ["read:prompt"] 100)
    as (_ & Hok & _).
  destruct (Hok eq_refl ltac:(lia)) as (c & Hc & Hsub & _).
  exists c. split; [exact Hc | exact Hsub].
Defined.

(** ** The masking processor of the log events *)

Lemma get_set_eq (k : string) (v : LogMask.LogValue) (d : list (string * LogMask.LogValue)) :
  LogMask.get (LogMask.set k v d) k = Some v.
Proof.
  induction d as [|[k0 v0] d IH]; cbn.
  - rewrite String.eqb_refl. reflexivity.
  - destruct (String.eqb_spec k0 k) as [->|Hne]; cbn.
    + rewrite String.eqb_refl. reflexivity.
    + destruct (String.eqb_spec k0 k); [contradiction | exact IH].
Qed.

Lemma get_set_ne (k k' : string) (v : LogMask.LogValue) (d : list (string * LogMask.LogValue)) :
  k ≠ k' → LogMask.get (LogMask.set k v d) k' = LogMask.get d k'.
Proof.
  intros Hne. induction d as [|[k0 v0] d IH]; cbn.
  - destruct (String.eqb_spec k k'); [contradiction | reflexivity].
  - destruct (String.eqb_spec k0 k) as [->|Hk0]; cbn.
    + destruct (String.eqb_spec k k'); [contradiction | reflexivity].
    + destruct (String.eqb_spec k0 k'); [reflexivity | exact IH].
Qed.

Lemma get_pop_ne (k k' : string) (d : list (string * LogMask.LogValue)) :
  k ≠ k' → LogMask.get (LogMask.pop k d) k' = LogMask.get d k'.
Proof.
  intros Hne. induction d as [|[k0 v0] d IH]; cbn; [reflexivity |].
  destruct (String.eqb_spec k0 k) as [->|Hk0]; cbn.
  - destruct (String.eqb_spec k k'); [contradiction | reflexivity].
  - destruct (String.eqb_spec k0 k'); [reflexivity | exact IH].
Qed.

Lemma get_absent (k : string) (d : list (string * LogMask.LogValue)) :
  k ∉ d.*1 → LogMask.get d k = None.
Proof.
  induction d as [|[k0 v0] d IH]; cbn; [reflexivity |].
  intros Hnot. destruct (String.eqb_spec k0 k) as [->|Hk0].
  - exfalso. apply Hnot. apply list_elem_of_here.
  - apply IH. intros Hin. apply Hnot. apply list_elem_of_further. exact Hin.
Qed.

Lemma get_present (k : string) (v : LogMask.LogValue) (d : list (string * LogMask.LogValue)) :
  NoDup d.*1 → (k, v) ∈ d → LogMask.get d k = Some v.
Proof.
  induction d as [|[k0 v0] d IH]; cbn.
  - intros _ Hin. apply not_elem_of_nil in Hin. contradiction.
  - intros Hnd Hin. apply NoDup_cons in Hnd as [Hfresh Hnd].
    apply elem_of_cons in Hin as [Heq|Hin].
    + injection Heq as -> ->. rewrite String.eqb_refl. reflexivity.
    + destruct (String.eqb_spec k0 k) as [->|Hk0]; [| auto].
      exfalso. apply Hfresh. apply list_elem_of_fmap. exists (k, v). auto.
Qed.

Lemma get_pop_eq (k : string) (d : list (string * LogMask.LogValue)) :
  NoDup d.*1 → LogMask.get (LogMask.pop k d) k = None.
Proof.
  induction d as [|[k0 v0] d IH]; cbn; [reflexivity |].
  intros Hnd. apply NoDup_cons in Hnd as [Hfresh Hnd].
  destruct (String.eqb_spec k0 k) as [->|Hk0]; cbn.
  - apply get_absent. exact Hfresh.
  - destruct (String.eqb_spec k0 k); [contradiction | auto].
Qed.

Lemma set_keys (k k' : string) (v : LogMask.LogValue) (d : list (string * LogMask.LogValue)) :
  k' ∈ (LogMask.set k v d).*1 → k' = k ∨ k' ∈ d.*1.
Proof.
  induction d as [|[k0 v0] d IH]; cbn.
  - intros Hin. apply list_elem_of_singleton in Hin. auto.
  - destruct (String.eqb_spec k0 k) as [->|Hk0]; cbn; [auto |].
    intros Hin. apply elem_of_cons in Hin as [->|Hin].
    + right. apply list_elem_of_here.
    + destruct (IH Hin); [auto |]. right. apply list_elem_of_further. assumption.
Qed.

Lemma pop_keys (k k' : string) (d : list (string * LogMask.LogValue)) :
  k' ∈ (LogMask.pop k d).*1 → k' ∈ d.*1.
Proof.
  induction d as [|[k0 v0] d IH]; cbn; [auto |].
  destruct (String.eqb_spec k0 k) as [->|Hk0]; cbn.
  - intros Hin. apply list_elem_of_further. exact Hin.
  - intros Hin. apply elem_of_cons in Hin as [->|Hin].
    + apply list_elem_of_here.
    + apply list_elem_of_further. auto.
Qed.

Lemma set_NoDup (k : string) (v : LogMask.LogValue) (d : list (string * LogMask.LogValue)) :
  NoDup d.*1 → NoDup (LogMask.set k v d).*1.
Proof.
  induction d as [|[k0 v0] d IH]; cbn.
  - intros _. apply NoDup_singleton.
  - intros Hnd. apply NoDup_cons in Hnd as [Hfresh Hnd].
    destruct (String.eqb_spec k0 k) as [->|Hk0]; cbn; apply NoDup_cons.
    + auto.
    + split; [| auto]. intros Hin. apply set_keys in Hin as [->|Hin]; auto.
Qed.

Lemma pop_NoDup (k : string) (d : list (string * LogMask.LogValue)) :
  NoDup d.*1 → NoDup (LogMask.pop k d).*1.
Proof.
  induction d as [|[k0 v0] d IH]; cbn; [auto |].
  intros Hnd. apply NoDup_cons in Hnd as [Hfresh Hnd].
  destruct (String.eqb_spec k0 k) as [->|Hk0]; cbn; [exact Hnd |].
  apply NoDup_cons. split; [| auto].
  intros Hin. apply Hfresh. eapply pop_keys. exact Hin.
Qed.

Section ProcessorFacts.
Context `{Runtime}.
Variable sha256_hexdigest : string → string.
Variable str_of_summary : string → LogMask.LogValue → string → string → string.

Let step := LogMask.step sha256_hexdigest str_of_summary.

Lemma step_other (d : list (string * LogMask.LogValue)) (k k' : string) :
  k ≠ k' → LogMask.get (step d k) k' = LogMask.get d k'.
Proof.
  intros Hne. unfold step, LogMask.step.
  destruct (LogMask.sensitive _); [| reflexivity].
  destruct (String.eqb _ "authorization").
  - apply get_pop_ne. exact Hne.
  - apply get_set_ne. exact Hne.
Qed.

Lemma step_NoDup (d : list (string * LogMask.LogValue)) (k : string) :
  NoDup d.*1 → NoDup (step d k).*1.
Proof.
  intros Hnd. unfold step, LogMask.step.
  destruct (LogMask.sensitive _); [| exact Hnd].
  destruct (String.eqb _ "authorization").
  - apply pop_NoDup. exact Hnd.
  - apply set_NoDup. exact Hnd.
Qed.

Lemma loop_untouched (ks : list string) (d : list (string * LogMask.LogValue)) (k : string) :
  k ∉ ks → LogMask.get (foldl step d ks) k = LogMask.get d k.
Proof.
  revert d. induction ks as [|k0 ks IH]; intros d Hnot; cbn; [reflexivity |].
  rewrite IH.
  - apply step_other. intros ->. apply Hnot. apply list_elem_of_here.
  - intros Hin. apply Hnot. apply list_elem_of_further. exact Hin.
Qed.

Lemma loop_visited (ks : list string) (d : list (string * LogMask.LogValue))
    (k : string) (v : LogMask.LogValue) :
  NoDup ks → NoDup d.*1 → k ∈ ks → LogMask.get d k = Some v →
  let out := foldl step d ks in
  let kl := str_lower k in
  let s := LogMask.render str_of_summary (Some v) in
  if LogMask.sensitive kl then
    if String.eqb kl "authorization" then LogMask.get out k = None
    else ∃ d', LogMask.get out k = Some (LogMask.summary_of sha256_hexdigest d' kl s)
  else LogMask.get out k = Some v.
Proof.
  revert d. induction ks as [|k0 ks IH]; intros d Hks Hd Hin Hget.
  { apply not_elem_of_nil in Hin. contradiction. }
  apply NoDup_cons in Hks as [Hfresh Hks].
  apply elem_of_cons in Hin as [->|Hin].
  - cbv zeta. cbn [foldl]. rewrite loop_untouched by exact Hfresh.
    unfold step, LogMask.step.
    destruct (LogMask.sensitive _); [| exact Hget].
    destruct (String.eqb _ "authorization").
    + apply get_pop_eq. exact Hd.
    + exists d. rewrite get_set_eq, Hget. reflexivity.
  - cbn [foldl]. apply IH; [exact Hks | apply step_NoDup; exact Hd | exact Hin |].
    rewrite step_other; [exact Hget |]. intros ->. contradiction.
Qed.

End ProcessorFacts.

(** X26: on an event whose keys are distinct, the processor decides key by
    key, whatever the order of the keys: a key that lower-cases to
    ["authorization"] is gone from the event; any other key whose lower-cased
    name contains one of the secret words is bound to a summary made of the
    token type, a source, the mask and the first eight digits of the digest
    of the rendering of the value it had on entry; every other key keeps its
    value; and no key is added. *)
Theorem mask_sensitive_processor_outcome `{Runtime}
    (sha256_hexdigest : string → string)
    (str_of_summary : string → LogMask.LogValue → string → string → string)
    (event_dict : list (string * LogMask.LogValue)) (k : string) :
  NoDup event_dict.*1 →
  let out := LogMask._mask_sensitive_processor sha256_hexdigest str_of_summary event_dict in
  (k ∉ event_dict.*1 → LogMask.get out k = None) ∧
  ∀ v, (k, v) ∈ event_dict →
    let kl := str_lower k in
    let s := LogMask.render str_of_summary (Some v) in
    if LogMask.sensitive kl then
      if String.eqb kl "authorization" then LogMask.get out k = None
      else ∃ source,
        LogMask.get out k =
          Some (LogMask.Summary (LogMask.token_type_of kl s) source (LogMask.mask_of s)
                  (Audit.str_take 8 (sha256_hexdigest s)))
    else LogMask.get out k = Some v.
Proof.
  intros Hnd out. subst out. unfold LogMask._mask_sensitive_processor. split.
  - intros Hnot. rewrite loop_untouched by exact Hnot. apply get_absent. exact Hnot.
  - intros v Hin.
    assert (k ∈ event_dict.*1) as Hk by (apply list_elem_of_fmap; exists (k, v); auto).
    pose proof (loop_visited sha256_hexdigest str_of_summary event_dict.*1 event_dict k v
                  Hnd Hnd Hk (get_present k v event_dict Hnd Hin)) as Hout.
    cbv zeta in Hout |- *.
    destruct (LogMask.sensitive _); [| exact Hout].
    destruct (String.eqb _ "authorization"); [exact Hout |].
    destruct Hout as (d' & Hout). exists (LogMask.source_of d'). exact Hout.
Qed.

Lemma mask_sensitive_processor_outcome_witness :
  let out :=
    @LogMask._mask_sensitive_processor Samples.ascii_runtime
      (λ _, "9f86d081884c7d65") (λ _ _ _ _, "{}") Cases.log_event in
  NoDup Cases.log_event.*1 ∧
  LogMask.get out "Authorization" = None ∧
  LogMask.get out "request_id" = None ∧
  LogMask.get out "model" =
    Some (LogMask.Kept {| LogMask.rendered := "gpt-4"; LogMask.truthy := true |}).
Proof.
  cbv zeta.
  assert (NoDup Cases.log_event.*1) as Hnd.
  { repeat (apply NoDup_cons; split; [vm_compute; intros Hin;
      repeat (apply elem_of_cons in Hin as [Hin|Hin]; [discriminate |]);
      apply not_elem_of_nil in Hin; exact Hin |]). apply NoDup_nil. exact I. }
  split; [exact Hnd |].
  split; [| split].
  - refine (proj2 (@mask_sensitive_processor_outcome Samples.ascii_runtime
                     (λ _, "9f86d081884c7d65") (λ _ _ _ _, "{}") Cases.log_event
                     "Authorization" Hnd) _ _).
    apply list_elem_of_further, list_elem_of_further, list_elem_of_here.
  - refine (proj1 (@mask_sensitive_processor_outcome Samples.ascii_runtime
                     (λ _, "9f86d081884c7d65") (λ _ _ _ _, "{}") Cases.log_event
                     "request_id" Hnd) _).
    vm_compute. intros Hin.
    repeat (apply elem_of_cons in Hin as [Hin|Hin]; [discriminate |]).
    apply not_elem_of_nil in Hin. exact Hin.
  - refine (proj2 (@mask_sensitive_processor_outcome Samples.ascii_runtime
                     (λ _, "9f86d081884c7d65") (λ _ _ _ _, "{}") Cases.log_event
                     "model" Hnd) _ _).
    apply list_elem_of_further, list_elem_of_here.
Defined.

(** X27: the mask the processor logs for a rendering of at most four
    characters is three stars; for a longer one it is the rendering with
    everything but its last four characters replaced star for star. *)
Theorem log_mask_shape (s : string) :
  if (String.length s <=? 4)%nat then LogMask.mask_of s = "***"
  else ∃ hidden shown,
         s = hidden +:+ shown ∧ String.length shown = 4%nat ∧
         LogMask.mask_of s = Py.repeat_nat "*" (String.length hidden) +:+ shown.
Proof.
  unfold LogMask.mask_of, Py.len.
  destruct (Nat.leb_spec (String.length s) 4) as [Hshort|Hlong].
  - destruct (Z.ltb_spec 4 (Z.of_nat (String.length s))); [lia | reflexivity].
  - destruct (Z.ltb_spec 4 (Z.of_nat (String.length s))); [| lia].
    unfold Py.slice_from, Py.str_mul, Py.len. cbn [Z.ltb Z.compare Z.opp].
    set (n := Z.to_nat (Z.max 0 (Z.of_nat (String.length s) + -4))).
    destruct (str_drop_split n s) as (hidden & Hsplit & Hlen).
    assert (n = (String.length s - 4)%nat) as Hn by (subst n; lia).
    exists hidden, (Py.str_drop n s).
    split; [exact Hsplit |]. split.
    + rewrite str_drop_length. lia.
    + f_equal. f_equal. lia.
Qed.
